(** * die-with-zero: the financial planner of [src/cli/die_with_zero.py]

    A shallow embedding of the class [FinancialPlanner] and a verification of
    its schedule resolvers, of the year-by-year projection engine
    [_project_base] and of the retirement search at the end of [summary].

    Conventions of the embedding.
    - Python exceptions are values of [exn]; a method that may raise
      returns a [result].
    - Python numbers are the carrier of a [PyNum] structure.  The engine is
      written once over that interface and is run on two carriers: IEEE-754
      binary64 ([float], what CPython computes with) and the exact rationals
      ([Qc], the arithmetic the planner approximates).  An amount given as
      an [int] stands for the float of the same value; the one place where
      the code tells the two apart is the constant tax rate.
    - A [dict] whose iteration order matters (asset categories, the cells of
      a projection row, the milestone tracker) is an association list in
      insertion order; year-indexed schedules, which the code only reads
      through sorted keys, [min] and [in], are [gmap Z _].
    - The local variables of [_project_base] form a [frame]; the loop body is
      a function from frames to frames. *)

From Stdlib Require Import Floats QArith Qcanon.
From stdpp Require Import gmap strings list sorting.

Local Open Scope string_scope.
Local Open Scope Z_scope.

(** ** Exceptions *)

Inductive exn : Type :=
| KeyError
| ValueError
| ZeroDivisionError
| IndexError
| AttributeError.

Inductive result (A : Type) : Type :=
| Ok (a : A)
| Raise (e : exn).
Arguments Ok {A} a.
Arguments Raise {A} e.

Global Instance result_ret : MRet result := λ A a, Ok a.
Global Instance result_bind : MBind result := λ A B f m,
  match m with
  | Ok a => f a
  | Raise e => Raise e
  end.

Definition is_Ok {A} (r : result A) : Prop := ∃ a, r = Ok a.

(** ** Numbers *)

Class PyNum (num : Type) : Type := {
  num_zero : num;
  num_one : num;
  num_add : num → num → num;
  num_sub : num → num → num;
  num_mul : num → num → num;
  (** the quotient of a division whose divisor is not zero *)
  num_div : num → num → num;
  num_abs : num → num;
  (** [x < y], [x <= y] and [x == y] *)
  num_ltb : num → num → bool;
  num_leb : num → num → bool;
  num_eqb : num → num → bool;
  (** equality of dictionary keys: the same object, or [==] *)
  num_keyb : num → num → bool;
}.

Declare Scope num_scope.
Delimit Scope num_scope with num.
Notation "x + y" := (num_add x y) : num_scope.
Notation "x - y" := (num_sub x y) : num_scope.
Notation "x * y" := (num_mul x y) : num_scope.
Notation "x <? y" := (num_ltb x y) : num_scope.
Notation "x <=? y" := (num_leb x y) : num_scope.

(** IEEE-754 binary64, the [float] of CPython.  A NaN key of a dictionary is
    found again through object identity, every other key through [==]. *)
Definition float_keyb (x y : float) : bool :=
  PrimFloat.eqb x y || (PrimFloat.is_nan x && PrimFloat.is_nan y).

Global Instance float_num : PyNum float := {|
  num_zero := 0%float;
  num_one := 1%float;
  num_add := PrimFloat.add;
  num_sub := PrimFloat.sub;
  num_mul := PrimFloat.mul;
  num_div := PrimFloat.div;
  num_abs := PrimFloat.abs;
  num_ltb := PrimFloat.ltb;
  num_leb := PrimFloat.leb;
  num_eqb := PrimFloat.eqb;
  num_keyb := float_keyb;
|}.

(** Exact rationals. *)
Definition Qc_ltb (x y : Qc) : bool :=
  match (x ?= y)%Qc with Lt => true | _ => false end.
Definition Qc_leb (x y : Qc) : bool :=
  match (x ?= y)%Qc with Gt => false | _ => true end.
Definition Qc_eqb (x y : Qc) : bool :=
  match (x ?= y)%Qc with Eq => true | _ => false end.
Definition Qc_abs (x : Qc) : Qc :=
  if Qc_ltb x 0%Qc then (- x)%Qc else x.

Global Instance Qc_num : PyNum Qc := {|
  num_zero := 0%Qc;
  num_one := 1%Qc;
  num_add := Qcplus;
  num_sub := Qcminus;
  num_mul := Qcmult;
  num_div := Qcdiv;
  num_abs := Qc_abs;
  num_ltb := Qc_ltb;
  num_leb := Qc_leb;
  num_eqb := Qc_eqb;
  num_keyb := Qc_eqb;
|}.

(** The facts about [<] and dictionary keys that hold on both carriers. *)
Class PyNumLaws (num : Type) `{PyNum num} : Prop := {
  num_ltb_zero : num_ltb num_zero num_zero = false;
  num_ltb_zero_neq : ∀ x : num,
    num_ltb num_zero x = true → num_eqb x num_zero = false;
  num_keyb_refl : ∀ x : num, num_keyb x x = true;
}.

(** [<] is a strict weak order: what the retirement search needs of the
    final net worths it compares.  It holds of the rationals, and of binary64
    as long as no NaN arises. *)
Class PyNumOrder (num : Type) `{PyNum num} : Prop := {
  num_ltb_irrefl : ∀ x : num, num_ltb x x = false;
  num_ltb_trans : ∀ x y z : num,
    num_ltb x y = true → num_ltb y z = true → num_ltb x z = true;
  num_ltb_cotrans : ∀ x y z : num,
    num_ltb x y = true → num_ltb x z = true ∨ num_ltb z y = true;
}.

(** ** Dictionaries in insertion order *)

Section Dict.
Context {K V : Type} (keq : K → K → bool).

(** [d.get(k)] *)
Fixpoint dict_get (k : K) (d : list (K * V)) : option V :=
  match d with
  | [] => None
  | (k', v) :: d' => if keq k' k then Some v else dict_get k d'
  end.

(** [d[k] = v]: an existing key keeps its place, a new one goes last. *)
Fixpoint dict_set (k : K) (v : V) (d : list (K * V)) : list (K * V) :=
  match d with
  | [] => [(k, v)]
  | (k', v') :: d' =>
      if keq k' k then (k', v) :: d' else (k', v') :: dict_set k v d'
  end.

(** [d[k]] *)
Definition getitem (k : K) (d : list (K * V)) : result V :=
  match dict_get k d with
  | Some v => Ok v
  | None => Raise KeyError
  end.
End Dict.

(** ** Year-indexed schedules *)

Section Schedule.
Context {V : Type}.

Definition keys (m : gmap Z V) : list Z := (map_to_list m).*1.

(** [sorted(m.keys())] *)
Definition sorted_keys (m : gmap Z V) : list Z := merge_sort Z.le (keys m).

(** [m[k]] *)
Definition schedule_getitem (k : Z) (m : gmap Z V) : result V :=
  match m !! k with
  | Some v => Ok v
  | None => Raise KeyError
  end.

(** [min(ks)] *)
Definition py_min (ks : list Z) : result Z :=
  match ks with
  | [] => Raise ValueError
  | k :: ks' => Ok (foldl Z.min k ks')
  end.

(** [[y for y in sorted(m.keys()) if y <= year]] *)
Definition applicable_years (m : gmap Z V) (year : Z) : list Z :=
  filter (λ y, y ≤ year) (sorted_keys m).
End Schedule.

(** ** Loops *)

(** [for x in xs: s = body(s, x)], stopping at the first exception. *)
Fixpoint for_each {A S : Type} (xs : list A) (body : S → A → result S) (s : S)
    : result S :=
  match xs with
  | [] => Ok s
  | x :: xs' => s' ← body s x; for_each xs' body s'
  end.

(** ** The planner *)

Section Planner.
Context {num : Type} `{PyNum num}.
Local Open Scope num_scope.

(** An entry of [asset_allocation]: ['amount'], ['rate'] and the optional
    ['liquid']. *)
Record Asset : Type := {
  amount : num;
  rate : num;
  liquid : option bool;
}.

(** An entry of [additional_expenses]: ['amount'] and ['description']. *)
Record Expense : Type := {
  expense_amount : num;
  description : string;
}.

(** [tax_rate: Union[float, Dict[int, float]]].  A constant is recognised by
    [isinstance(self.tax_rate, float)]: an [int] passed as the rate is
    neither a float nor a mapping. *)
Inductive TaxRate : Type :=
| TaxFloat (r : num)
| TaxDict (m : gmap Z num)
| TaxInt (n : Z).

(** The attributes of a [FinancialPlanner] object. *)
Record FinancialPlanner : Type := {
  initial_gross_income : num;
  initial_expenses : num;
  inflation_rate : num;
  income_growth_rate : num;
  tax_rate : TaxRate;
  asset_allocation : list (string * Asset);
  additional_expenses : gmap Z Expense;
  milestones : list num;
  initial_net_worth : num;
}.

(** [sum(xs)] *)
Definition py_sum (xs : list num) : num := foldl num_add num_zero xs.

(** [sorted(xs)]: a stable sort that compares with [<] only. *)
Fixpoint insort (x : num) (l : list num) : list num :=
  match l with
  | [] => [x]
  | y :: l' => if x <? y then x :: y :: l' else y :: insort x l'
  end.
Definition sorted (xs : list num) : list num :=
  foldl (λ acc x, insort x acc) [] xs.

(** [a / b] *)
Definition truediv (a b : num) : result num :=
  if num_eqb b num_zero then Raise ZeroDivisionError else Ok (num_div a b).

(** [FinancialPlanner.__init__] *)
Definition __init__
    (annual_gross_income annual_expenses inflation_rate income_growth_rate : num)
    (tax_rate : TaxRate) (asset_allocation : list (string * Asset))
    (additional_expenses : option (gmap Z Expense))
    (milestones : option (list num)) : result FinancialPlanner :=
  Ok {|
    initial_gross_income := annual_gross_income;
    initial_expenses := annual_expenses;
    inflation_rate := inflation_rate;
    income_growth_rate := income_growth_rate;
    tax_rate := tax_rate;
    asset_allocation := asset_allocation;
    additional_expenses := default ∅ additional_expenses;
    milestones :=
      match milestones with
      | Some (m :: ms) => sorted (m :: ms)
      | _ => []
      end;
    initial_net_worth := py_sum (amount <$> asset_allocation.*2);
  |}.

(** [FinancialPlanner._get_tax_rate_for_year] *)
Definition _get_tax_rate_for_year (self : FinancialPlanner) (year : Z)
    : result num :=
  match tax_rate self with
  | TaxFloat r => Ok r
  | TaxDict m =>
      match last (applicable_years m year) with
      | Some y => schedule_getitem y m
      | None => k ← py_min (keys m); schedule_getitem k m
      end
  | TaxInt _ => Raise AttributeError
  end.

(** [FinancialPlanner._get_additional_expense_for_year] *)
Definition _get_additional_expense_for_year (self : FinancialPlanner)
    (year : Z) : result (num * string) :=
  if bool_decide (size (additional_expenses self) = 0%nat)
  then Ok (num_zero, "")
  else
    match last (applicable_years (additional_expenses self) year) with
    | Some y =>
        expense_data ← schedule_getitem y (additional_expenses self);
        Ok (expense_amount expense_data, description expense_data)
    | None => Ok (num_zero, "")
    end.

(** *** Projection rows *)

(** The value of a column: the year, a number, or the thresholds behind the
    text of ["Unrealized Milestones"] (their formatting as [€..K]/[€..M] and
    the joining with commas belong to the report; the empty list is
    ["All reached!"]). *)
Inductive cell : Type :=
| CInt (z : Z)
| CNum (x : num)
| CUnrealized (ms : list num).

(** [year_data]: a dictionary from column name to value. *)
Definition row : Type := list (string * cell).

(** The local variables of [_project_base] that live across iterations,
    together with the object the method runs on. *)
Record frame : Type := {
  f_self : FinancialPlanner;
  current_gross_income : num;
  current_expenses : num;
  assets : list (string * num);
  milestones_reached : list (num * option Z);
  results : list row;
}.

(** [{cat: data["amount"] for cat, data in self.asset_allocation.items()}]:
    a new dictionary with the keys of [asset_allocation], which are
    distinct, in the same order. *)
Definition initial_assets (self : FinancialPlanner) : list (string * num) :=
  (λ '(cat, data), (cat, amount data)) <$> asset_allocation self.

(** [{ms: None for ms in self.milestones}] *)
Definition initial_milestones_reached (self : FinancialPlanner)
    : list (num * option Z) :=
  foldl (λ d ms, dict_set num_keyb ms None d) [] (milestones self).

Definition initial_frame (self : FinancialPlanner) : frame := {|
  f_self := self;
  current_gross_income := initial_gross_income self;
  current_expenses := initial_expenses self;
  assets := initial_assets self;
  milestones_reached := initial_milestones_reached self;
  results := [];
|}.

(** Lines 142-147: mark the milestones reached this year. *)
Definition check_milestone (total_net_worth : num) (year : Z)
    (reached : list (num * option Z)) (milestone : num)
    : result (list (num * option Z)) :=
  r ← getitem num_keyb milestone reached;
  Ok (match r with
      | None =>
          if milestone <=? total_net_worth
          then dict_set num_keyb milestone (Some year) reached
          else reached
      | Some _ => reached
      end).

(** Lines 177-181: the milestones not reached yet, in configured order. *)
Fixpoint unrealized (ms : list num) (reached : list (num * option Z))
    : result (list num) :=
  match ms with
  | [] => Ok []
  | m :: ms' =>
      r ← getitem num_keyb m reached;
      rest ← unrealized ms' reached;
      Ok (match r with None => m :: rest | Some _ => rest end)
  end.

(** [self.asset_allocation[k].get("liquid", True)] *)
Definition is_liquid (self : FinancialPlanner) (k : string) : result bool :=
  data ← getitem String.eqb k (asset_allocation self);
  Ok (default true (liquid data)).

(** Lines 204-208 and 219-223: the liquid part of the portfolio, a new
    dictionary with some of the keys of [assets], in the same order. *)
Definition liquid_assets (self : FinancialPlanner)
    (assets : list (string * num)) : result (list (string * num)) :=
  for_each assets
    (λ (acc : list (string * num)) '(k, v),
       b ← is_liquid self k;
       Ok (if b : bool then (acc ++ [(k, v)])%list else acc))
    [].

(** Lines 212-216: one liquid category receives its share of the savings. *)
Definition allocate (annual_savings total_liquid : num)
    (st : list (string * num) * list (string * num)) (category : string)
    : result (list (string * num) * list (string * num)) :=
  let '(assets, asset_gains) := st in
  a ← getitem String.eqb category assets;
  proportion ← truediv a total_liquid;
  let contribution := annual_savings * proportion in
  g ← getitem String.eqb category asset_gains;
  Ok (dict_set String.eqb category (a + contribution) assets,
      dict_set String.eqb category (g + contribution) asset_gains).

(** Lines 228-232: one liquid category gives up its share of the
    shortfall. *)
Definition liquidate (amount_to_liquidate total_liquid : num)
    (st : list (string * num) * list (string * num)) (category : string)
    : result (list (string * num) * list (string * num)) :=
  let '(assets, asset_losses) := st in
  a ← getitem String.eqb category assets;
  proportion ← truediv a total_liquid;
  let liquidation := amount_to_liquidate * proportion in
  l ← getitem String.eqb category asset_losses;
  Ok (dict_set String.eqb category (a - liquidation) assets,
      dict_set String.eqb category (l + liquidation) asset_losses).

(** Lines 201-232: savings go into, or a shortfall comes out of, the liquid
    categories.  Returns [assets], [asset_gains] and [asset_losses]. *)
Definition handle_savings (self : FinancialPlanner) (annual_savings : num)
    (assets asset_gains asset_losses : list (string * num))
    : result (list (string * num) * list (string * num) * list (string * num)) :=
  if num_zero <? annual_savings then
    liquid ← liquid_assets self assets;
    let total_liquid := py_sum liquid.*2 in
    if num_zero <? total_liquid then
      '(assets', asset_gains') ←
        for_each liquid.*1 (allocate annual_savings total_liquid)
          (assets, asset_gains);
      Ok (assets', asset_gains', asset_losses)
    else Ok (assets, asset_gains, asset_losses)
  else if annual_savings <? num_zero then
    liquid ← liquid_assets self assets;
    let total_liquid := py_sum liquid.*2 in
    if num_zero <? total_liquid then
      let amount_to_liquidate := num_abs annual_savings in
      '(assets', asset_losses') ←
        for_each liquid.*1 (liquidate amount_to_liquidate total_liquid)
          (assets, asset_losses);
      Ok (assets', asset_gains, asset_losses')
    else Ok (assets, asset_gains, asset_losses)
  else Ok (assets, asset_gains, asset_losses).

(** Lines 235-239: one category appreciates.  [assets.items()] is a view of
    the dictionary being updated; the value it yields for a category is the
    one stored at that moment. *)
Definition appreciate (self : FinancialPlanner)
    (st : list (string * num) * list (string * num)) (category : string)
    : result (list (string * num) * list (string * num)) :=
  let '(assets, asset_gains) := st in
  value ← getitem String.eqb category assets;
  data ← getitem String.eqb category (asset_allocation self);
  let appreciation := value * rate data in
  g ← getitem String.eqb category asset_gains;
  Ok (dict_set String.eqb category (value * (num_one + rate data)) assets,
      dict_set String.eqb category (g + appreciation) asset_gains).

(** Lines 197-239: the portfolio of the next year, with the gains and
    losses of the transition. *)
Definition transition (self : FinancialPlanner) (annual_savings : num)
    (assets : list (string * num))
    : result (list (string * num) * list (string * num) * list (string * num)) :=
  let asset_gains := (λ cat, (cat, num_zero)) <$> assets.*1 in
  let asset_losses := (λ cat, (cat, num_zero)) <$> assets.*1 in
  '(assets1, asset_gains1, asset_losses1) ←
    handle_savings self annual_savings assets asset_gains asset_losses;
  '(assets2, asset_gains2) ←
    for_each assets1.*1 (appreciate self) (assets1, asset_gains1);
  Ok (assets2, asset_gains2, asset_losses1).

(** Lines 243-249: [results[-1]] receives the gains and losses of the
    transition out of its year. *)
Definition backfill (asset_gains asset_losses : list (string * num))
    (year_data : row) (category : string) : result row :=
  g ← getitem String.eqb category asset_gains;
  l ← getitem String.eqb category asset_losses;
  Ok (dict_set String.eqb (category ++ " Net Change")%string (CNum (g - l))
        (dict_set String.eqb (category ++ " Loss")%string (CNum l)
           (dict_set String.eqb (category ++ " Gain")%string (CNum g) year_data))).

(** [results[-1] = f(results[-1])] *)
Definition update_last (f : row → result row) (results : list row)
    : result (list row) :=
  match last results with
  | None => Raise IndexError
  | Some year_data =>
      year_data' ← f year_data;
      Ok (removelast results ++ [year_data'])%list
  end.

(** Lines 125-249: the body of [for year in range(years + 1)]. *)
Definition year_body (years : Z) (verbose : bool)
    (income_override : option (gmap Z num)) (fr : frame) (year : Z)
    : result frame :=
  let self := f_self fr in
  let current_gross_income :=
    match income_override with
    | Some override => default (current_gross_income fr) (override !! year)
    | None => current_gross_income fr
    end in
  tax_rate ← _get_tax_rate_for_year self year;
  let current_net_income := current_gross_income * (num_one - tax_rate) in
  '(additional_expense, _) ← _get_additional_expense_for_year self year;
  let total_expenses := current_expenses fr + additional_expense in
  let total_net_worth := py_sum (assets fr).*2 in
  let annual_savings :=
    if bool_decide (0 < year)%Z then current_net_income - total_expenses
    else num_zero in
  milestones_reached ←
    for_each (milestones self) (check_milestone total_net_worth year)
      (milestones_reached fr);
  let year_data : row :=
    [("Year", CInt year);
     ("Gross Income", CNum current_gross_income);
     ("Tax Rate", CNum tax_rate);
     ("Net Income", CNum current_net_income);
     ("Base Expenses", CNum (current_expenses fr));
     ("Additional Expenses", CNum additional_expense);
     ("Total Expenses", CNum total_expenses);
     ("Annual Savings", CNum annual_savings)] in
  year_data ←
    for_each (assets fr).*1
      (λ year_data category,
         a ← getitem String.eqb category (assets fr);
         Ok (dict_set String.eqb category (CNum a) year_data))
      year_data;
  let year_data :=
    if verbose && bool_decide (0 < year)%Z then
      foldl
        (λ year_data category,
           dict_set String.eqb (category ++ " Net Change")%string (CNum num_zero)
             (dict_set String.eqb (category ++ " Loss")%string (CNum num_zero)
                (dict_set String.eqb (category ++ " Gain")%string (CNum num_zero)
                   year_data)))
        year_data (assets fr).*1
    else year_data in
  let year_data :=
    dict_set String.eqb "Total Net Worth" (CNum total_net_worth) year_data in
  year_data ←
    match milestones self with
    | [] => Ok year_data
    | _ :: _ =>
        unreached ← unrealized (milestones self) milestones_reached;
        Ok (dict_set String.eqb "Unrealized Milestones"
              (CUnrealized unreached) year_data)
    end;
  let results := (results fr ++ [year_data])%list in
  if bool_decide (year < years)%Z then
    let current_gross_income :=
      match income_override with
      | Some override =>
          match override !! (year + 1)%Z with
          | Some _ => current_gross_income
          | None => current_gross_income * (num_one + income_growth_rate self)
          end
      | None => current_gross_income * (num_one + income_growth_rate self)
      end in
    let current_expenses :=
      current_expenses fr * (num_one + inflation_rate self) in
    '(assets, asset_gains, asset_losses) ←
      transition self annual_savings (assets fr);
    results ←
      (if verbose
       then update_last
              (λ year_data,
                 for_each assets.*1 (backfill asset_gains asset_losses)
                   year_data)
              results
       else Ok results);
    Ok {| f_self := self;
          current_gross_income := current_gross_income;
          current_expenses := current_expenses;
          assets := assets;
          milestones_reached := milestones_reached;
          results := results |}
  else
    Ok {| f_self := self;
          current_gross_income := current_gross_income;
          current_expenses := current_expenses fr;
          assets := assets fr;
          milestones_reached := milestones_reached;
          results := results |}.

(** [range(years + 1)] *)
Definition year_range (years : Z) : list Z := seqZ 0 (years + 1).

(** The frame in which [_project_base] reaches its [return]. *)
Definition _project_base_frame (self : FinancialPlanner) (years : Z)
    (verbose : bool) (income_override : option (gmap Z num))
    : result frame :=
  for_each (year_range years) (year_body years verbose income_override)
    (initial_frame self).

(** [FinancialPlanner._project_base]; the data frame it returns is the
    list of its rows. *)
Definition _project_base (self : FinancialPlanner) (years : Z)
    (verbose : bool) (income_override : option (gmap Z num))
    : result (list row) :=
  fr ← _project_base_frame self years verbose income_override;
  Ok (results fr).

(** [FinancialPlanner.project] *)
Definition project (self : FinancialPlanner) (years : Z) (verbose : bool)
    : result (list row) :=
  _project_base self years verbose None.

(** Lines 280-289: the income of the years before [start_year], then
    zero. *)
Definition zero_income_override (self : FinancialPlanner) (years : Z)
    (start_year : Z) : gmap Z num :=
  (foldl
     (λ '(income_override, current_income) year,
        if bool_decide (year < start_year)%Z then
          let current_income :=
            if bool_decide (0 < year)%Z
            then current_income * (num_one + income_growth_rate self)
            else current_income in
          (<[year := current_income]> income_override, current_income)
        else (<[year := num_zero]> income_override, current_income))
     (∅, initial_gross_income self) (year_range years)).1.

(** [FinancialPlanner._project_with_zero_income] *)
Definition _project_with_zero_income (self : FinancialPlanner) (years : Z)
    (start_year : Z) : result (list row) :=
  _project_base self years false
    (Some (zero_income_override self years start_year)).

(** [df.iloc[-1]["Total Net Worth"]] *)
Definition final_net_worth (df : list row) : result num :=
  match last df with
  | None => Raise IndexError
  | Some final_row =>
      c ← getitem String.eqb "Total Net Worth" final_row;
      match c with
      | CNum x => Ok x
      | _ => Raise ValueError
      end
  end.

(** The variables of the retirement search, with the candidate years it
    has run a projection for, in the order of the calls. *)
Record search : Type := {
  best_year : Z;
  best_diff : num;
  evaluated : list Z;
}.

(** Lines 388-392: the candidate becomes the best one if it is strictly
    closer to zero. *)
Definition compare_candidate (st : search) (retire_year : Z)
    (final_worth : num) : search :=
  let diff := num_abs final_worth in
  if diff <? best_diff st
  then {| best_year := retire_year; best_diff := diff;
          evaluated := (evaluated st ++ [retire_year])%list |}
  else {| best_year := best_year st; best_diff := best_diff st;
          evaluated := (evaluated st ++ [retire_year])%list |}.

(** Lines 386-392: one candidate is projected and compared. *)
Definition try_candidate (self : FinancialPlanner) (years : Z)
    (st : search) (retire_year : Z) : result (search * num) :=
  df_retire ← _project_with_zero_income self years retire_year;
  final_worth ← final_net_worth df_retire;
  Ok (compare_candidate st retire_year final_worth, final_worth).

(** Lines 385-396: [for retire_year in range(1, years + 1)] with its
    [break]. *)
Fixpoint search_loop (self : FinancialPlanner) (years : Z)
    (candidates : list Z) (st : search) : result search :=
  match candidates with
  | [] => Ok st
  | retire_year :: candidates' =>
      '(st', final_worth) ← try_candidate self years st retire_year;
      if final_worth <? num_zero then Ok st'
      else search_loop self years candidates' st'
  end.

(** Lines 372-396 of [summary]: the baseline ("stop working now") and the
    scan for the retirement year. *)
Definition summary_search (self : FinancialPlanner) (years : Z)
    : result search :=
  df_no_income ← _project_with_zero_income self years 0;
  final_worth_no_income ← final_net_worth df_no_income;
  search_loop self years (seqZ 1 years)
    {| best_year := 0; best_diff := num_abs final_worth_no_income;
       evaluated := [] |}.
(** *** Notions used in the statements *)

(** [milestones_reached[m] is not None] *)
Definition reached (m : num) (tracker : list (num * option Z)) : Prop :=
  ∃ year : Z, dict_get num_keyb m tracker = Some (Some year).

(** Whether [k] is a category of the allocation that counts as liquid. *)
Definition liquid_category (self : FinancialPlanner) (k : string) : bool :=
  match is_liquid self k with
  | Ok b => b
  | Raise _ => false
  end.

(** The planners that a projection accepts: the categories of the
    allocation are distinct, as the keys of a dictionary are, and the tax
    schedule is a float or a mapping with at least one entry. *)
Definition well_formed (self : FinancialPlanner) : Prop :=
  NoDup (asset_allocation self).*1 ∧
  match tax_rate self with
  | TaxFloat _ => True
  | TaxDict m => m ≠ ∅
  | TaxInt _ => False
  end.

(** What the frames of a run on [self] have in common: the object is
    [self], the portfolio has the categories of the allocation, and the
    tracker has an entry for every milestone. *)
Definition frame_ok (self : FinancialPlanner) (fr : frame) : Prop :=
  f_self fr = self ∧
  (assets fr).*1 = (asset_allocation self).*1 ∧
  ∀ m, m ∈ milestones self →
       is_Some (dict_get num_keyb m (milestones_reached fr)).

(** What holds of every frame of a run on [self]: the object is [self]; a
    milestone that some row's net worth has reached is reached in the
    tracker; and no row lists as unreached a milestone that the net worth of
    an earlier row has reached. *)
Definition run_invariant (self : FinancialPlanner) (fr : frame) : Prop :=
  f_self fr = self ∧
  (∀ (r : row) (m w : num),
     r ∈ results fr → m ∈ milestones self →
     dict_get String.eqb "Total Net Worth" r = Some (CNum w) →
     (m <=? w) = true →
     reached m (milestones_reached fr)) ∧
  (∀ (i j : nat) (r1 r2 : row) (m w : num) (unreached : list num),
     (i < j)%nat →
     results fr !! i = Some r1 → results fr !! j = Some r2 →
     m ∈ milestones self →
     dict_get String.eqb "Total Net Worth" r1 = Some (CNum w) →
     (m <=? w) = true →
     dict_get String.eqb "Unrealized Milestones" r2
     = Some (CUnrealized unreached) →
     m ∉ unreached).


(** The final net worth of the run in which work stops at [retire_year]. *)
Definition candidate_final_worth (self : FinancialPlanner) (years : Z)
    (retire_year : Z) : result num :=
  df_retire ← _project_with_zero_income self years retire_year;
  final_net_worth df_retire.


(** *** The transition in closed form *)

(** [total_liquid], the sum over the liquid categories of a portfolio. *)
Definition liquid_total (self : FinancialPlanner)
    (assets : list (string * num)) : num :=
  py_sum (filter (λ cv, liquid_category self cv.1) assets).*2.

(** Whether the savings are spread over the liquid categories (lines
    209-216), and whether a shortfall is taken out of them (lines 224-232). *)
Definition allocates (self : FinancialPlanner) (annual_savings : num)
    (assets : list (string * num)) : bool :=
  (num_zero <? annual_savings) && (num_zero <? liquid_total self assets).
Definition liquidates (self : FinancialPlanner) (annual_savings : num)
    (assets : list (string * num)) : bool :=
  negb (num_zero <? annual_savings) && (annual_savings <? num_zero)
  && (num_zero <? liquid_total self assets).

(** The amount of category [c], which held [v], once the savings are
    handled; and what the gain and loss dictionaries hold for it then. *)
Definition after_savings (self : FinancialPlanner) (annual_savings : num)
    (assets : list (string * num)) (c : string) (v : num) : num :=
  if liquid_category self c && allocates self annual_savings assets
  then v + annual_savings * num_div v (liquid_total self assets)
  else if liquid_category self c && liquidates self annual_savings assets
  then v - num_abs annual_savings * num_div v (liquid_total self assets)
  else v.
Definition savings_gain (self : FinancialPlanner) (annual_savings : num)
    (assets : list (string * num)) (c : string) (v : num) : num :=
  if liquid_category self c && allocates self annual_savings assets
  then num_zero + annual_savings * num_div v (liquid_total self assets)
  else num_zero.
Definition savings_loss (self : FinancialPlanner) (annual_savings : num)
    (assets : list (string * num)) (c : string) (v : num) : num :=
  if liquid_category self c && liquidates self annual_savings assets
  then num_zero + num_abs annual_savings * num_div v (liquid_total self assets)
  else num_zero.

(** *** The income override and the verdict of [summary] *)

(** The gross income after [n] raises: [current_income *= 1 +
    self.income_growth_rate], [n] times. *)
Definition grown_income (self : FinancialPlanner) (n : nat) : num :=
  Nat.iter n (λ income, income * (num_one + income_growth_rate self))
    (initial_gross_income self).



(** Two frames that differ at most in the income they carry and in the rows
    collected so far. *)
Definition same_portfolio (fr1 fr2 : frame) : Prop :=
  f_self fr1 = f_self fr2 ∧
  current_expenses fr1 = current_expenses fr2 ∧
  assets fr1 = assets fr2 ∧
  milestones_reached fr1 = milestones_reached fr2.

(** What holds of every frame of a run on [self] whose milestones are
    distinct as dictionary keys: the tracker has no key but the
    milestones; a milestone that the net worth of no row has reached is
    still open in the tracker; and every row lists as unreached each
    milestone that no row up to it has reached. *)
Definition pending_invariant (self : FinancialPlanner) (fr : frame) : Prop :=
  f_self fr = self ∧
  (∀ k, k ∈ (milestones_reached fr).*1 → k ∈ milestones self) ∧
  (∀ m,
     m ∈ milestones self →
     (∀ (r : row) (w : num),
        r ∈ results fr →
        dict_get String.eqb "Total Net Worth" r = Some (CNum w) →
        (m <=? w) = false) →
     dict_get num_keyb m (milestones_reached fr) = Some None) ∧
  (∀ (j : nat) (rj : row) (m : num),
     results fr !! j = Some rj →
     m ∈ milestones self →
     (∀ (i : nat) (ri : row) (w : num),
        (i ≤ j)%nat →
        results fr !! i = Some ri →
        dict_get String.eqb "Total Net Worth" ri = Some (CNum w) →
        (m <=? w) = false) →
     ∃ unreached,
       dict_get String.eqb "Unrealized Milestones" rj
       = Some (CUnrealized unreached) ∧
       m ∈ unreached).

(** *** The columns a row starts with *)

(** [current_expenses] after [n] years of inflation:
    [current_expenses *= 1 + self.inflation_rate], [n] times. *)
Definition inflated_expenses (self : FinancialPlanner) (n : nat) : num :=
  Nat.iter n (λ expenses, expenses * (num_one + inflation_rate self))
    (initial_expenses self).

(** Lines 150-159: the row of a year before the asset columns are added. *)
Definition plain_row (year : Z)
    (current_gross_income tax_rate current_expenses additional_expense
       annual_savings : num) : row :=
  [("Year", CInt year);
   ("Gross Income", CNum current_gross_income);
   ("Tax Rate", CNum tax_rate);
   ("Net Income", CNum (current_gross_income * (num_one - tax_rate)));
   ("Base Expenses", CNum current_expenses);
   ("Additional Expenses", CNum additional_expense);
   ("Total Expenses", CNum (current_expenses + additional_expense));
   ("Annual Savings", CNum annual_savings)].

(** The names of these columns. *)
Definition plain_columns : list string :=
  ["Year"; "Gross Income"; "Tax Rate"; "Net Income"; "Base Expenses";
   "Additional Expenses"; "Total Expenses"; "Annual Savings"].
End Planner.

(** ** Configurations used in the examples *)

Local Set Warnings "-inexact-float".

(** A planner around a given tax schedule. *)
Definition planner_with_tax (tax : TaxRate (num:=float))
    : FinancialPlanner (num:=float) := {|
  initial_gross_income := 80000%float;
  initial_expenses := 40000%float;
  inflation_rate := 0%float;
  income_growth_rate := 0%float;
  tax_rate := tax;
  asset_allocation :=
    [("A", {| amount := 100000%float; rate := 0%float; liquid := Some true |})];
  additional_expenses := ∅;
  milestones := [];
  initial_net_worth := 100000%float;
|}.

(** [{0: 0.30, 20: 0.40}] and [{5: 0.20}] *)
Definition two_step_tax : gmap Z float := {[ 0 := 0.30%float; 20 := 0.40%float ]}.
Definition late_tax : gmap Z float := {[ 5 := 0.20%float ]}.

(** [{5: {'amount': 20000, 'description': 'Kid expenses'}}], the example of
    the docstring of [__init__]. *)
Definition kid_expenses : gmap Z (Expense (num:=float)) :=
  {[ 5 := {| expense_amount := 20000%float; description := "Kid expenses" |} ]}.

Definition planner_with_kid_expenses : FinancialPlanner (num:=float) := {|
  initial_gross_income := 80000%float;
  initial_expenses := 40000%float;
  inflation_rate := 0%float;
  income_growth_rate := 0%float;
  tax_rate := TaxFloat 0%float;
  asset_allocation :=
    [("A", {| amount := 100000%float; rate := 0%float; liquid := Some true |})];
  additional_expenses := kid_expenses;
  milestones := [];
  initial_net_worth := 100000%float;
|}.

(** Income 80000, expenses 40000, no inflation, no growth, no tax, and the
    single liquid asset [{'A': {'amount': 100000, 'rate': 0.0, 'liquid': True}}]. *)
Definition end_to_end_planner : result (FinancialPlanner (num:=float)) :=
  __init__ 80000%float 40000%float 0%float 0%float (TaxFloat 0%float)
    [("A", {| amount := 100000%float; rate := 0%float; liquid := Some true |})]
    None None.

(** The same, with the empty mapping as tax schedule. *)
Definition empty_tax_planner : result (FinancialPlanner (num:=float)) :=
  __init__ 80000%float 40000%float 0%float 0%float (TaxDict ∅)
    [("A", {| amount := 100000%float; rate := 0%float; liquid := Some true |})]
    None None.

(** Only illiquid assets: a house and a plot of land. *)
Definition illiquid_planner : FinancialPlanner (num:=float) := {|
  initial_gross_income := 80000%float;
  initial_expenses := 40000%float;
  inflation_rate := 0.02%float;
  income_growth_rate := 0.02%float;
  tax_rate := TaxFloat 0.30%float;
  asset_allocation :=
    [("House", {| amount := 400000%float; rate := 0.03%float; liquid := Some false |});
     ("Land", {| amount := 50000%float; rate := 0%float; liquid := Some false |})];
  additional_expenses := ∅;
  milestones := [];
  initial_net_worth := 450000%float;
|}.

(** Two liquid categories, one of them empty, and a house; no category
    appreciates. *)
Definition shortfall_planner : FinancialPlanner (num:=float) := {|
  initial_gross_income := 0%float;
  initial_expenses := 150%float;
  inflation_rate := 0%float;
  income_growth_rate := 0%float;
  tax_rate := TaxFloat 0%float;
  asset_allocation :=
    [("A", {| amount := 100%float; rate := 0%float; liquid := Some true |});
     ("B", {| amount := 0%float; rate := 0%float; liquid := None |});
     ("H", {| amount := 1000%float; rate := 0%float; liquid := Some false |})];
  additional_expenses := ∅;
  milestones := [];
  initial_net_worth := 1100%float;
|}.

(** The same planner over the rationals. *)
Definition shortfall_planner_Qc : FinancialPlanner (num:=Qc) := {|
  initial_gross_income := Qc_of_Z 0;
  initial_expenses := Qc_of_Z 150;
  inflation_rate := Qc_of_Z 0;
  income_growth_rate := Qc_of_Z 0;
  tax_rate := TaxFloat (Qc_of_Z 0);
  asset_allocation :=
    [("A", {| amount := Qc_of_Z 100; rate := Qc_of_Z 0; liquid := Some true |});
     ("B", {| amount := Qc_of_Z 0; rate := Qc_of_Z 0; liquid := None |});
     ("H", {| amount := Qc_of_Z 1000; rate := Qc_of_Z 0; liquid := Some false |})];
  additional_expenses := ∅;
  milestones := [];
  initial_net_worth := Qc_of_Z 1100;
|}.

(** [{cat: 0.0 for cat in assets.keys()}] *)
Definition zero_dict {num : Type} `{PyNum num} (assets : list (string * num))
    : list (string * num) :=
  (λ cat, (cat, num_zero)) <$> assets.*1.


(** No expenses and a tax of 200%: every year of work costs 100. *)
Definition overtaxed_planner : FinancialPlanner (num:=float) := {|
  initial_gross_income := 100%float;
  initial_expenses := 0%float;
  inflation_rate := 0%float;
  income_growth_rate := 0%float;
  tax_rate := TaxFloat 2%float;
  asset_allocation :=
    [("A", {| amount := 150%float; rate := 0%float; liquid := Some true |})];
  additional_expenses := ∅;
  milestones := [];
  initial_net_worth := 150%float;
|}.


(** Savings of 1000 that shrink by 300 a year, with milestones at 900 and
    5000. *)
Definition milestone_planner : FinancialPlanner (num:=float) := {|
  initial_gross_income := 0%float;
  initial_expenses := 300%float;
  inflation_rate := 0%float;
  income_growth_rate := 0%float;
  tax_rate := TaxFloat 0%float;
  asset_allocation :=
    [("A", {| amount := 1000%float; rate := 0%float; liquid := Some true |})];
  additional_expenses := ∅;
  milestones := [900%float; 5000%float];
  initial_net_worth := 1000%float;
|}.

(** * Verification *)

(** ** The result monad *)

Lemma bind_Ok {A B} (m : result A) (f : A → result B) (b : B) :
  m ≫= f = Ok b ↔ ∃ a, m = Ok a ∧ f a = Ok b.
Proof.
  destruct m as [a|e]; simpl; split.
  - eauto.
  - by intros (a' & [= <-] & ?).
  - discriminate.
  - by intros (a' & [=] & _).
Qed.

Lemma for_each_app {A S} (xs ys : list A) (body : S → A → result S) (s : S) :
  for_each (xs ++ ys) body s = for_each xs body s ≫= for_each ys body.
Proof.
  revert s. induction xs as [|x xs IH]; intros s; simpl; [done|].
  destruct (body s x) as [s'|e]; simpl; [apply IH|done].
Qed.

(** A loop invariant: what holds before the loop and is kept by every
    iteration of its body holds when the loop ends. *)
Lemma for_each_invariant {A S} (P : S → Prop) (xs : list A)
    (body : S → A → result S) (s s' : S) :
  P s →
  (∀ s1 s2 x, x ∈ xs → P s1 → body s1 x = Ok s2 → P s2) →
  for_each xs body s = Ok s' →
  P s'.
Proof.
  revert s. induction xs as [|x xs IH]; intros s Hs Hbody; simpl.
  - by intros [= <-].
  - intros (s1 & Hx & Hrest)%bind_Ok.
    apply (IH s1); [|intros; eapply Hbody; [by right|done..]|done].
    eapply Hbody; [by left|done..].
Qed.

(** ** Schedules *)

Section ScheduleFacts.
Context {V : Type}.
Implicit Types (m : gmap Z V) (k year : Z).

Lemma elem_of_keys m k : k ∈ keys m ↔ is_Some (m !! k).
Proof.
  unfold keys. rewrite list_elem_of_fmap. split.
  - intros [[k' v] [-> Hin]]. apply elem_of_map_to_list in Hin. by exists v.
  - intros [v Hv]. exists (k, v). split; [done|].
    by apply elem_of_map_to_list.
Qed.

Lemma elem_of_sorted_keys m k : k ∈ sorted_keys m ↔ is_Some (m !! k).
Proof.
  unfold sorted_keys. rewrite merge_sort_Permutation. apply elem_of_keys.
Qed.

Lemma sorted_keys_sorted m : StronglySorted Z.le (sorted_keys m).
Proof. apply StronglySorted_merge_sort; apply _. Qed.

(** The last applicable year is the greatest key not after [year]. *)
Lemma last_applicable_years m year y :
  last (applicable_years m year) = Some y →
  is_Some (m !! y) ∧ y ≤ year ∧
  ∀ k, is_Some (m !! k) → k ≤ year → k ≤ y.
Proof.
  unfold applicable_years. intros Hlast.
  pose proof (last_Some_elem_of _ _ Hlast) as [Hy Hin]%list_elem_of_filter.
  split; [by apply elem_of_sorted_keys|]. split; [done|].
  intros k Hk Hle. apply elem_of_sorted_keys in Hk.
  apply last_filter_Some in Hlast as (l1 & l2 & Heq & Hl2).
  pose proof (sorted_keys_sorted m) as Hs. rewrite Heq in Hs, Hk.
  apply elem_of_app in Hk as [Hk|Hk].
  - eapply StronglySorted_app_1_elem_of; [done..|by left].
  - apply elem_of_cons in Hk as [->|Hk]; [done|].
    rewrite Forall_forall in Hl2. by destruct (Hl2 k Hk).
Qed.

Lemma applicable_years_nonempty m year k :
  is_Some (m !! k) → k ≤ year → is_Some (last (applicable_years m year)).
Proof.
  intros Hk Hle. apply last_is_Some. intros Hnil.
  assert (k ∈ applicable_years m year) as Hin.
  { apply list_elem_of_filter. split; [done|]. by apply elem_of_sorted_keys. }
  rewrite Hnil in Hin. by apply elem_of_nil in Hin.
Qed.

Lemma applicable_years_empty m year :
  (∀ k, is_Some (m !! k) → year < k) → last (applicable_years m year) = None.
Proof.
  intros Hall. destruct (last (applicable_years m year)) as [y|] eqn:Hlast;
    [|done].
  apply last_applicable_years in Hlast as (Hy & Hle & _).
  specialize (Hall y Hy). lia.
Qed.

Lemma foldl_min_le (ks : list Z) k0 k :
  k ∈ k0 :: ks → foldl Z.min k0 ks ≤ k.
Proof.
  revert k0 k. induction ks as [|k1 ks IH]; intros k0 k; simpl.
  - intros ->%list_elem_of_singleton. lia.
  - intros [Hk|[Hk|Hin]%elem_of_cons]%elem_of_cons.
    + trans (Z.min k0 k1); [apply IH; by left|lia].
    + trans (Z.min k0 k1); [apply IH; by left|lia].
    + apply IH. by right.
Qed.

Lemma foldl_min_elem_of (ks : list Z) k0 : foldl Z.min k0 ks ∈ k0 :: ks.
Proof.
  revert k0. induction ks as [|k1 ks IH]; intros k0; simpl; [by left|].
  specialize (IH (Z.min k0 k1)).
  apply elem_of_cons in IH as [->|Hin]; [|by do 2 right].
  destruct (Z.min_spec k0 k1) as [[_ ->]|[_ ->]]; [by left|by right; left].
Qed.

(** [min] of the keys of a schedule is its smallest key. *)
Lemma py_min_keys m k :
  is_Some (m !! k) → (∀ k', is_Some (m !! k') → k ≤ k') →
  py_min (keys m) = Ok k.
Proof.
  intros Hk Hmin. apply elem_of_keys in Hk.
  unfold py_min. destruct (keys m) as [|k0 ks] eqn:Hkeys.
  { by apply elem_of_nil in Hk. }
  f_equal. apply Z.le_antisymm.
  - by apply foldl_min_le.
  - apply Hmin, elem_of_keys. rewrite Hkeys. apply foldl_min_elem_of.
Qed.

Lemma py_min_keys_empty : py_min (keys (∅ : gmap Z V)) = Raise ValueError.
Proof. unfold keys. by rewrite map_to_list_empty. Qed.
End ScheduleFacts.

(** ** The two carriers *)

Lemma Qc_ltb_lt (x y : Qc) : Qc_ltb x y = true ↔ (x < y)%Qc.
Proof.
  unfold Qc_ltb. rewrite Qclt_alt.
  destruct (x ?= y)%Qc; split; congruence.
Qed.

Lemma Qc_ltb_ge (x y : Qc) : Qc_ltb x y = false ↔ (y <= x)%Qc.
Proof.
  rewrite <- not_true_iff_false, Qc_ltb_lt. split.
  - apply Qcnot_lt_le.
  - apply Qcle_not_lt.
Qed.

Lemma Qc_eqb_eq (x y : Qc) : Qc_eqb x y = true ↔ x = y.
Proof.
  unfold Qc_eqb. rewrite Qceq_alt.
  destruct (x ?= y)%Qc; split; congruence.
Qed.

Lemma Qc_eqb_neq (x y : Qc) : Qc_eqb x y = false ↔ x ≠ y.
Proof. rewrite <- not_true_iff_false, Qc_eqb_eq. done. Qed.

Global Instance Qc_num_laws : PyNumLaws Qc.
Proof.
  split.
  - reflexivity.
  - intros x Hx. apply Qc_ltb_lt in Hx. apply Qc_eqb_neq.
    intros ->. by apply Qclt_not_eq in Hx.
  - intros x. by apply Qc_eqb_eq.
Qed.

Global Instance Qc_num_order : PyNumOrder Qc.
Proof.
  split.
  - intros x. apply Qc_ltb_ge, Qcle_refl.
  - intros x y z. rewrite !Qc_ltb_lt. apply Qclt_trans.
  - intros x y z. rewrite !Qc_ltb_lt. intros Hxy.
    destruct (Qclt_le_dec x z) as [?|Hzx]; [by left|right].
    by eapply Qcle_lt_trans.
Qed.

(** A binary64 number above zero is not zero. *)
Lemma float_ltb_zero_neq (x : float) :
  PrimFloat.ltb 0%float x = true → PrimFloat.eqb x 0%float = false.
Proof.
  rewrite FloatAxioms.ltb_spec, FloatAxioms.eqb_spec.
  change (Prim2SF 0%float) with (S754_zero false).
  destruct (Prim2SF x) as [s|s| |s m e]; try destruct s; done.
Qed.

Lemma float_keyb_refl (x : float) : float_keyb x x = true.
Proof.
  unfold float_keyb, PrimFloat.is_nan.
  destruct (PrimFloat.eqb x x); reflexivity.
Qed.

Global Instance float_num_laws : PyNumLaws float.
Proof.
  split.
  - reflexivity.
  - exact float_ltb_zero_neq.
  - exact float_keyb_refl.
Qed.

(** ** The schedule resolvers *)

Section ResolverFacts.
Context {num : Type} `{PyNum num}.
Implicit Types (self : FinancialPlanner (num:=num)) (year k : Z).

(** C3.  For a mapping-valued tax schedule, the rate of a year is the value
    at the greatest key not after the year when there is such a key, and
    the value at the smallest key when the year precedes every key. *)
Theorem tax_rate_for_year_mapping self (m : gmap Z num) year k (v : num) :
  tax_rate self = TaxDict m →
  m !! k = Some v →
  (k ≤ year ∧ Forall (λ k', k' ≤ year → k' ≤ k) (keys m)) ∨
  (year < k ∧ Forall (λ k', k ≤ k') (keys m)) →
  _get_tax_rate_for_year self year = Ok v.
Proof.
  intros Htax Hk Hcase. unfold _get_tax_rate_for_year. rewrite Htax.
  assert (schedule_getitem k m = Ok v) as Hget.
  { unfold schedule_getitem. by rewrite Hk. }
  destruct Hcase as [[Hle Hmax]|[Hlt Hmin]].
  - rewrite Forall_forall in Hmax.
    destruct (applicable_years_nonempty m year k) as [y Hy]; [by eexists|done|].
    rewrite Hy. apply last_applicable_years in Hy as (Hin & Hyle & Hup).
    replace y with k; [done|]. apply Z.le_antisymm.
    + apply Hup; [by eexists|done].
    + apply Hmax; [by apply elem_of_keys|done].
  - rewrite Forall_forall in Hmin.
    rewrite applicable_years_empty.
    + rewrite (py_min_keys m k); [done|by eexists|].
      intros k' Hk'. by apply Hmin, elem_of_keys.
    + intros k' Hk'%elem_of_keys. specialize (Hmin k' Hk'). lia.
Qed.

(** C2, as the code has it.  A year that precedes every key of the
    additional-expense schedule has no additional expense: amount zero and
    an empty description. *)
Theorem additional_expense_before_first_key self year :
  Forall (λ k, year < k) (keys (additional_expenses self)) →
  _get_additional_expense_for_year self year = Ok (num_zero, "").
Proof.
  intros Hall. unfold _get_additional_expense_for_year.
  case_bool_decide; [done|].
  rewrite applicable_years_empty; [done|].
  rewrite Forall_forall in Hall. intros k Hk. by apply Hall, elem_of_keys.
Qed.

(** X1.  From its first key on, the additional-expense schedule is read like
    the tax schedule: the expense of a year is the amount and description
    stored at the greatest key that is not after the year. *)
Lemma additional_expense_for_year self year k (e : Expense) :
  additional_expenses self !! k = Some e →
  k ≤ year →
  Forall (λ k', k' ≤ year → k' ≤ k) (keys (additional_expenses self)) →
  _get_additional_expense_for_year self year
  = Ok (expense_amount e, description e).
Proof.
  intros Hk Hle Hmax. unfold _get_additional_expense_for_year.
  case_bool_decide as Hsize.
  { apply map_size_empty_iff in Hsize. by rewrite Hsize in Hk. }
  rewrite Forall_forall in Hmax.
  destruct (applicable_years_nonempty (additional_expenses self) year k)
    as [y Hy]; [by eexists|done|].
  rewrite Hy. apply last_applicable_years in Hy as (Hin & Hyle & Hup).
  replace y with k.
  - unfold schedule_getitem. by rewrite Hk.
  - apply Z.le_antisymm.
    + apply Hup; [by eexists|done].
    + apply Hmax; [by apply elem_of_keys|done].
Qed.

(** An [int] given as constant tax rate has no [keys]. *)
Lemma tax_rate_for_year_int self year (n : Z) :
  tax_rate self = TaxInt n →
  _get_tax_rate_for_year self year = Raise AttributeError.
Proof. intros Htax. unfold _get_tax_rate_for_year. by rewrite Htax. Qed.

Lemma tax_rate_for_year_empty self year :
  tax_rate self = TaxDict ∅ →
  _get_tax_rate_for_year self year = Raise ValueError.
Proof.
  intros Htax. unfold _get_tax_rate_for_year. rewrite Htax.
  rewrite applicable_years_empty.
  - by rewrite py_min_keys_empty.
  - intros k [v Hv]. by rewrite lookup_empty in Hv.
Qed.
End ResolverFacts.

(** Decides a bound on every key of a concrete schedule. *)
Ltac forall_keys :=
  match goal with
  | |- Forall _ ?l =>
      let l' := eval vm_compute in l in
      change l with l'; repeat constructor; lia
  end.

Lemma tax_rate_for_year_mapping_witness :
  _get_tax_rate_for_year (planner_with_tax (TaxDict two_step_tax)) 5
  = Ok 0.30%float ∧
  _get_tax_rate_for_year (planner_with_tax (TaxDict two_step_tax)) 20
  = Ok 0.40%float ∧
  _get_tax_rate_for_year (planner_with_tax (TaxDict two_step_tax)) 100
  = Ok 0.40%float ∧
  _get_tax_rate_for_year (planner_with_tax (TaxDict late_tax)) 0
  = Ok 0.20%float.
Proof.
  split; [|split; [|split]].
  - apply (tax_rate_for_year_mapping _ two_step_tax 5 0); [done..|].
    left. split; [lia|]. forall_keys.
  - apply (tax_rate_for_year_mapping _ two_step_tax 20 20); [done..|].
    left. split; [lia|]. forall_keys.
  - apply (tax_rate_for_year_mapping _ two_step_tax 100 20); [done..|].
    left. split; [lia|]. forall_keys.
  - apply (tax_rate_for_year_mapping _ late_tax 0 5); [done..|].
    right. split; [lia|]. forall_keys.
Defined.

(** C2, as stated, fails: year 0 precedes the only key of
    [{5: {'amount': 20000, 'description': 'Kid expenses'}}], and the
    additional expense of year 0 is [(0.0, "")], not the entry at key 5. *)
Lemma additional_expense_no_fallback :
  kid_expenses !! 5
  = Some {| expense_amount := 20000%float; description := "Kid expenses" |} ∧
  Forall (λ k, 0 < k) (keys kid_expenses) ∧
  _get_additional_expense_for_year planner_with_kid_expenses 0
  = Ok (0%float, "") ∧
  _get_additional_expense_for_year planner_with_kid_expenses 0
  ≠ Ok (20000%float, "Kid expenses").
Proof.
  split; [done|]. split; [forall_keys|].
  split; [by vm_compute|]. vm_compute. discriminate.
Qed.

Lemma additional_expense_before_first_key_witness :
  _get_additional_expense_for_year planner_with_kid_expenses 0
  = Ok (0%float, "").
Proof.
  refine (additional_expense_before_first_key planner_with_kid_expenses 0 _).
  forall_keys.
Defined.

(** ** The end-to-end run *)

(** C1, as stated, fails: in the row of year 1 the asset and the net worth
    still are 100000.  The savings of a year enter the portfolio in the
    transition out of that year, and year 0 has no savings. *)
Lemma end_to_end_year_1_not_140000 :
  ¬ ∃ p rows r1,
      end_to_end_planner = Ok p ∧
      project p 1 true = Ok rows ∧
      rows !! 1%nat = Some r1 ∧
      dict_get String.eqb "Net Income" r1 = Some (CNum 80000%float) ∧
      dict_get String.eqb "Total Expenses" r1 = Some (CNum 40000%float) ∧
      dict_get String.eqb "Annual Savings" r1 = Some (CNum 40000%float) ∧
      dict_get String.eqb "A" r1 = Some (CNum 140000%float) ∧
      dict_get String.eqb "Total Net Worth" r1 = Some (CNum 140000%float).
Proof.
  intros (p & rows & r1 & Hp & Hproj & Hr1 & _ & _ & _ & HA & _).
  injection Hp as <-. vm_compute in Hproj. injection Hproj as <-.
  injection Hr1 as <-.
  apply (f_equal (λ c, match c with
                       | Some (CNum x) => PrimFloat.eqb x 100000%float
                       | _ => false
                       end)) in HA.
  vm_compute in HA. discriminate.
Qed.

(** C1, as the code has it.  With a horizon of one year the row of year 1
    has net income 80000, total expenses 40000, savings 40000, and asset A
    and total net worth at 100000; the 40000 reach asset A in the transition
    to year 2, so that with a horizon of two years the row of year 2 has
    both at 140000. *)
Theorem end_to_end_year_1 :
  ∃ p rows r1 rows' r2,
    end_to_end_planner = Ok p ∧
    project p 1 true = Ok rows ∧
    length rows = 2%nat ∧
    rows !! 1%nat = Some r1 ∧
    dict_get String.eqb "Year" r1 = Some (CInt 1) ∧
    dict_get String.eqb "Net Income" r1 = Some (CNum 80000%float) ∧
    dict_get String.eqb "Total Expenses" r1 = Some (CNum 40000%float) ∧
    dict_get String.eqb "Annual Savings" r1 = Some (CNum 40000%float) ∧
    dict_get String.eqb "A" r1 = Some (CNum 100000%float) ∧
    dict_get String.eqb "Total Net Worth" r1 = Some (CNum 100000%float) ∧
    project p 2 true = Ok rows' ∧
    rows' !! 2%nat = Some r2 ∧
    dict_get String.eqb "A" r2 = Some (CNum 140000%float) ∧
    dict_get String.eqb "Total Net Worth" r2 = Some (CNum 140000%float).
Proof.
  do 5 eexists.
  split; [reflexivity|]. split; [vm_compute; reflexivity|].
  split; [reflexivity|]. split; [reflexivity|].
  do 6 (split; [reflexivity|]).
  split; [vm_compute; reflexivity|].
  split; [reflexivity|]. split; reflexivity.
Qed.

(** ** Construction *)

Section InitFacts.
Context {num : Type} `{PyNum num}.

(** [__init__] checks nothing: it returns a planner for every argument. *)
Lemma init_Ok (g e i r : num) (tax : TaxRate) (alloc : list (string * Asset))
    (exps : option (gmap Z Expense)) (ms : option (list num)) :
  ∃ p, __init__ g e i r tax alloc exps ms = Ok p ∧
       tax_rate p = tax ∧ asset_allocation p = alloc.
Proof. by eexists. Qed.

Lemma year_range_cons (years : Z) :
  0 ≤ years → year_range years = 0 :: seqZ 1 years.
Proof.
  intros Hy. unfold year_range. rewrite seqZ_cons by lia.
  do 2 f_equal. lia.
Qed.

Lemma year_body_tax_raise (years : Z) (verbose : bool)
    (income_override : option (gmap Z num)) (fr : frame) (year : Z) (e : exn) :
  _get_tax_rate_for_year (f_self fr) year = Raise e →
  year_body years verbose income_override fr year = Raise e.
Proof. intros Htax. unfold year_body. by rewrite Htax. Qed.

(** C8, as the code has it.  A planner with the empty mapping as tax
    schedule is constructed without error; the error comes with the first
    projection, which raises [ValueError] when it looks for the tax rate
    of year 0. *)
Theorem empty_tax_schedule_fails_at_projection (g e i r : num)
    (alloc : list (string * Asset)) (exps : option (gmap Z Expense))
    (ms : option (list num)) (years : Z) (verbose : bool) :
  0 ≤ years →
  ∃ p, __init__ g e i r (TaxDict ∅) alloc exps ms = Ok p ∧
       project p years verbose = Raise ValueError.
Proof.
  intros Hy. eexists. split; [reflexivity|].
  unfold project, _project_base, _project_base_frame.
  rewrite year_range_cons by done. cbn [for_each].
  rewrite (year_body_tax_raise _ _ _ _ _ ValueError); [done|].
  by apply tax_rate_for_year_empty.
Qed.
End InitFacts.

(** C8, as stated, fails: the constructor accepts the empty mapping. *)
Lemma empty_tax_schedule_is_constructed :
  empty_tax_planner = Ok (planner_with_tax (TaxDict ∅)) ∧
  ¬ ∃ e, empty_tax_planner = Raise e.
Proof. split; [reflexivity|]. by intros [e ?]. Qed.

Lemma empty_tax_schedule_fails_at_projection_witness :
  0 ≤ 1 ∧
  ∃ p, empty_tax_planner = Ok p ∧ project p 1 true = Raise ValueError.
Proof.
  split; [lia|].
  refine (empty_tax_schedule_fails_at_projection _ _ _ _ _ _ _ 1 true _). lia.
Defined.

(** ** Dictionaries keyed by strings *)

Section DictFacts.
Context {V : Type}.
Implicit Types (d : list (string * V)) (c : string) (v w : V).

Lemma dict_get_cons c c' v d :
  dict_get String.eqb c ((c', v) :: d)
  = if decide (c' = c) then Some v else dict_get String.eqb c d.
Proof.
  simpl. destruct (String.eqb_spec c' c); by case_decide.
Qed.

Lemma dict_get_is_Some c d : is_Some (dict_get String.eqb c d) ↔ c ∈ d.*1.
Proof.
  induction d as [|[c' v] d IH].
  - simpl. rewrite elem_of_nil. split; [by intros [? ?]|done].
  - rewrite dict_get_cons, fmap_cons, elem_of_cons. simpl. case_decide.
    + split; [by left|by eexists].
    + rewrite IH. split; [by right|]. by intros [->|?].
Qed.

Lemma getitem_Ok c d v :
  getitem String.eqb c d = Ok v ↔ dict_get String.eqb c d = Some v.
Proof.
  unfold getitem. destruct (dict_get String.eqb c d); split; congruence.
Qed.

Lemma getitem_elem_of c d : c ∈ d.*1 → is_Ok (getitem String.eqb c d).
Proof.
  intros [v Hv]%dict_get_is_Some. exists v. by apply getitem_Ok.
Qed.

(** Assigning to a key leaves the keys and their order as they are. *)
Lemma dict_set_keys c w d : c ∈ d.*1 → (dict_set String.eqb c w d).*1 = d.*1.
Proof.
  induction d as [|[c' v] d IH]; simpl.
  - by intros ?%elem_of_nil.
  - intros Hin. destruct (String.eqb_spec c' c) as [->|Hne]; [done|].
    simpl. f_equal. apply IH. apply elem_of_cons in Hin as [->|?]; done.
Qed.

Lemma dict_get_set c c' w d :
  dict_get String.eqb c' (dict_set String.eqb c w d)
  = if decide (c = c') then Some w else dict_get String.eqb c' d.
Proof.
  induction d as [|[c0 v] d IH].
  - cbn [dict_set]. rewrite dict_get_cons. by case_decide.
  - cbn [dict_set]. destruct (String.eqb_spec c0 c) as [->|Hne].
    + rewrite !dict_get_cons. by repeat case_decide.
    + rewrite !dict_get_cons, IH. repeat case_decide; congruence.
Qed.

(** A dictionary is determined by its keys, in order, and their values. *)
Lemma dict_ext (h : string → V → V) d d' :
  NoDup d.*1 →
  d'.*1 = d.*1 →
  (∀ c v, dict_get String.eqb c d = Some v →
          dict_get String.eqb c d' = Some (h c v)) →
  d' = (λ '(c, v), (c, h c v)) <$> d.
Proof.
  revert d'. induction d as [|[c v] d IH]; intros [|[c' v'] d'] Hnd Hkeys Hget;
    try done.
  rewrite !fmap_cons in Hkeys. simpl in Hkeys. injection Hkeys as -> Hkeys.
  rewrite fmap_cons in Hnd. apply NoDup_cons in Hnd as [Hnotin Hnd].
  simpl in Hnotin. rewrite fmap_cons. f_equal.
  - specialize (Hget c v). rewrite !dict_get_cons in Hget.
    rewrite !decide_True in Hget by done. f_equal. by injection (Hget eq_refl).
  - apply IH; [done..|]. intros c0 v0 Hc0.
    assert (c ≠ c0) as Hne.
    { intros ->. apply Hnotin, dict_get_is_Some. by eexists. }
    specialize (Hget c0 v0). rewrite !dict_get_cons in Hget.
    rewrite !decide_False in Hget by done. by apply Hget.
Qed.
End DictFacts.

(** ** Loops that update a dictionary key by key *)

(** The three inner loops of the transition have one shape: for each key of
    a list, read the amount [v] stored at the key, compute some [x] from it,
    store [A c v x] at the key and [G c v g x] at the same key of a second
    dictionary. *)
Section KeyedLoop.
Context {V X : Type}.
Context (F : string → V → result X).
Context (A : string → V → X → V) (G : string → V → V → X → V).
Context (body : list (string * V) * list (string * V) → string →
                result (list (string * V) * list (string * V))).
Hypothesis body_eq : ∀ a g c,
  body (a, g) c
  = (v ← getitem String.eqb c a;
     x ← F c v;
     g0 ← getitem String.eqb c g;
     Ok (dict_set String.eqb c (A c v x) a,
         dict_set String.eqb c (G c v g0 x) g)).

Lemma keyed_loop (ks : list string) (a g : list (string * V)) :
  NoDup ks →
  (∀ c, c ∈ ks → c ∈ a.*1) →
  g.*1 = a.*1 →
  (∀ c v, c ∈ ks → dict_get String.eqb c a = Some v → is_Ok (F c v)) →
  ∃ a' g',
    for_each ks body (a, g) = Ok (a', g') ∧
    a'.*1 = a.*1 ∧ g'.*1 = a.*1 ∧
    ∀ c v, dict_get String.eqb c a = Some v →
      if bool_decide (c ∈ ks)
      then ∃ x, F c v = Ok x ∧ dict_get String.eqb c a' = Some (A c v x)
      else dict_get String.eqb c a' = Some v.
Proof.
  revert a g. induction ks as [|c0 ks IH]; intros a g Hnd Hsub Hg HF.
  - exists a, g. do 3 (split; [done|]).
    intros c v Hv. rewrite bool_decide_eq_false_2; [done|].
    by intros ?%elem_of_nil.
  - apply NoDup_cons in Hnd as [Hc0 Hnd].
    assert (c0 ∈ a.*1) as Hin by (apply Hsub; by left).
    destruct (proj2 (dict_get_is_Some c0 a) Hin) as [v0 Hv0].
    destruct (HF c0 v0) as [x0 Hx0]; [by left|done|].
    assert (c0 ∈ g.*1) as Hing by (by rewrite Hg).
    destruct (proj2 (dict_get_is_Some c0 g) Hing) as [g0 Hg0].
    cbn [for_each]. rewrite body_eq.
    rewrite (proj2 (getitem_Ok c0 a v0) Hv0). cbn [mbind result_bind].
    rewrite Hx0. cbn [mbind result_bind].
    rewrite (proj2 (getitem_Ok c0 g g0) Hg0). cbn [mbind result_bind].
    destruct (IH (dict_set String.eqb c0 (A c0 v0 x0) a)
                 (dict_set String.eqb c0 (G c0 v0 g0 x0) g))
      as (a' & g' & Hloop & Hka & Hkg & Hvals); [done|..].
    + intros c Hc. rewrite dict_set_keys by done. apply Hsub. by right.
    + by rewrite !dict_set_keys, Hg.
    + intros c v Hc. rewrite dict_get_set. case_decide as Hcc.
      { subst c. done. }
      intros Hv. apply HF; [by right|done].
    + exists a', g'. split; [done|]. rewrite dict_set_keys in Hka, Hkg by done.
      split; [done|]. split; [done|].
      intros c v Hv. specialize (Hvals c).
      rewrite dict_get_set in Hvals.
      destruct (decide (c0 = c)) as [<-|Hne].
      * rewrite bool_decide_eq_true_2 by (by left).
        rewrite bool_decide_eq_false_2 in Hvals by done.
        exists x0. split; [congruence|].
        replace v with v0 by congruence. by apply Hvals.
      * specialize (Hvals v Hv).
        destruct (bool_decide (c ∈ ks)) eqn:Hcks.
        -- rewrite bool_decide_eq_true_2; [done|].
           right. by apply bool_decide_eq_true_1 in Hcks.
        -- rewrite bool_decide_eq_false_2; [done|].
           apply bool_decide_eq_false_1 in Hcks.
           intros [?|?]%elem_of_cons; congruence.
Qed.
End KeyedLoop.

(** ** The transition to the next year *)

Section TransitionFacts.
Context {num : Type} `{PyNumLaws num}.
Local Open Scope num_scope.
Implicit Types (self : FinancialPlanner (num:=num)).
Implicit Types (assets liquid : list (string * num)) (c : string).

Lemma zero_dict_keys (ks : list string) :
  ((λ cat, (cat, num_zero)) <$> ks).*1 = ks.
Proof. rewrite <- list_fmap_compose. apply list_fmap_id. Qed.

(** With no liquid value, savings of any sign leave the portfolio alone. *)
Lemma handle_savings_zero_liquid self (annual_savings : num) assets liquid
    (asset_gains asset_losses : list (string * num)) :
  liquid_assets self assets = Ok liquid →
  py_sum liquid.*2 = num_zero →
  handle_savings self annual_savings assets asset_gains asset_losses
  = Ok (assets, asset_gains, asset_losses).
Proof.
  intros Hliquid Hsum. unfold handle_savings.
  rewrite Hliquid. cbn [mbind result_bind]. rewrite Hsum, num_ltb_zero.
  by repeat case_match.
Qed.

Lemma handle_savings_zero self assets
    (asset_gains asset_losses : list (string * num)) :
  handle_savings self num_zero assets asset_gains asset_losses
  = Ok (assets, asset_gains, asset_losses).
Proof. unfold handle_savings. by rewrite num_ltb_zero. Qed.

(** Appreciation multiplies the amount of every category by one plus the
    rate of the category. *)
Lemma appreciate_loop self assets (asset_gains : list (string * num)) :
  NoDup assets.*1 →
  assets.*1 = (asset_allocation self).*1 →
  asset_gains.*1 = assets.*1 →
  ∃ assets' asset_gains',
    for_each assets.*1 (appreciate self) (assets, asset_gains)
    = Ok (assets', asset_gains') ∧
    assets'.*1 = assets.*1 ∧ asset_gains'.*1 = assets.*1 ∧
    ∀ c v data,
      dict_get String.eqb c assets = Some v →
      dict_get String.eqb c (asset_allocation self) = Some data →
      dict_get String.eqb c assets' = Some (v * (num_one + rate data)).
Proof.
  intros Hnd Hkeys Hgains.
  destruct (keyed_loop
              (λ c _, getitem String.eqb c (asset_allocation self))
              (λ _ v data, v * (num_one + rate data))
              (λ _ v g data, g + v * rate data)
              (appreciate self) (λ _ _ _, eq_refl)
              assets.*1 assets asset_gains)
    as (assets' & gains' & Hloop & Hka & Hkg & Hvals); [done..| |].
  { intros c v Hc _. apply getitem_elem_of. by rewrite <- Hkeys. }
  exists assets', gains'. do 3 (split; [done|]).
  intros c v data Hv Hdata. specialize (Hvals c v Hv).
  rewrite bool_decide_eq_true_2 in Hvals
    by (apply dict_get_is_Some; by eexists).
  destruct Hvals as (data' & Hdata' & ->).
  apply getitem_Ok in Hdata'. congruence.
Qed.

Lemma liquid_filter_keys self assets :
  (filter (λ cv, liquid_category self cv.1) assets).*1
  = filter (λ c, liquid_category self c) assets.*1.
Proof.
  induction assets as [|[c v] assets IH]; [done|].
  rewrite fmap_cons, !filter_cons. simpl.
  case_decide; [rewrite fmap_cons|]; by rewrite IH.
Qed.

(** The liquid part of the portfolio is the portfolio without the
    categories that are not liquid. *)
Lemma liquid_assets_filter self assets :
  (∀ c, c ∈ assets.*1 → c ∈ (asset_allocation self).*1) →
  liquid_assets self assets
  = Ok (filter (λ cv, liquid_category self cv.1) assets).
Proof.
  intros Hsub. unfold liquid_assets.
  enough (∀ acc,
    for_each assets
      (λ (acc : list (string * num)) '(k, v),
         b ← is_liquid self k; Ok (if b : bool then (acc ++ [(k, v)])%list else acc))
      acc
    = Ok (acc ++ filter (λ cv, liquid_category self cv.1) assets)%list)
    as Hgen by apply (Hgen []).
  induction assets as [|[c v] assets IH]; intros acc.
  - simpl. by rewrite app_nil_r.
  - destruct (getitem_elem_of c (asset_allocation self)) as [data Hdata].
    { apply Hsub. rewrite fmap_cons. by left. }
    assert (is_liquid self c = Ok (default true (liquid data))) as Hliq.
    { unfold is_liquid. by rewrite Hdata. }
    assert (liquid_category self c = default true (liquid data)) as Hcat.
    { unfold liquid_category. by rewrite Hliq. }
    cbn [for_each]. rewrite Hliq. cbn [mbind result_bind].
    rewrite IH by (intros c' Hc'; apply Hsub; rewrite fmap_cons; by right).
    destruct (default true (liquid data)).
    + rewrite filter_cons_True by (simpl; rewrite Hcat; exact I).
      by rewrite <- app_assoc.
    + rewrite filter_cons_False; [done|]. simpl. rewrite Hcat. exact id.
Qed.

(** Liquidation takes from every liquid category the share
    [amount_to_liquidate * (v / total_liquid)] of its amount [v], without
    looking at what is left, and does not touch the other categories. *)
Lemma liquidate_loop self (amount_to_liquidate total_liquid : num) assets
    (asset_losses : list (string * num)) :
  NoDup assets.*1 →
  assets.*1 = (asset_allocation self).*1 →
  asset_losses.*1 = assets.*1 →
  (num_zero <? total_liquid) = true →
  ∃ assets' asset_losses',
    for_each (filter (λ cv, liquid_category self cv.1) assets).*1
      (liquidate amount_to_liquidate total_liquid) (assets, asset_losses)
    = Ok (assets', asset_losses') ∧
    assets'.*1 = assets.*1 ∧ asset_losses'.*1 = assets.*1 ∧
    ∀ c v,
      dict_get String.eqb c assets = Some v →
      dict_get String.eqb c assets'
      = Some (if liquid_category self c
              then v - amount_to_liquidate * num_div v total_liquid
              else v).
Proof.
  intros Hnd Hkeys Hlosses Hpos.
  pose proof (num_ltb_zero_neq _ Hpos) as Hnz.
  rewrite liquid_filter_keys.
  destruct (keyed_loop
              (λ _ v, truediv v total_liquid)
              (λ _ v proportion, v - amount_to_liquidate * proportion)
              (λ _ _ l proportion, l + amount_to_liquidate * proportion)
              (liquidate amount_to_liquidate total_liquid) (λ _ _ _, eq_refl)
              (filter (λ c, liquid_category self c) assets.*1)
              assets asset_losses)
    as (assets' & losses' & Hloop & Hka & Hkl & Hvals).
  - by apply NoDup_filter.
  - by intros c [_ ?]%list_elem_of_filter.
  - done.
  - intros c v _ _. unfold truediv. rewrite Hnz. by eexists.
  - exists assets', losses'. do 3 (split; [done|]).
    intros c v Hv. specialize (Hvals c v Hv).
    assert (c ∈ assets.*1) as Hin by (apply dict_get_is_Some; by eexists).
    destruct (liquid_category self c) eqn:Hliq.
    + rewrite bool_decide_eq_true_2 in Hvals
        by (apply list_elem_of_filter; by rewrite Hliq).
      destruct Hvals as (x & Hx & ->). unfold truediv in Hx.
      rewrite Hnz in Hx. by injection Hx as <-.
    + rewrite bool_decide_eq_false_2 in Hvals; [done|].
      intros [Hc _]%list_elem_of_filter. by rewrite Hliq in Hc.
Qed.


(** C4.  When the liquid categories hold a total of zero (in particular when
    no category is liquid), the transition raises no exception and does the
    same as with no savings at all: every amount is multiplied by one plus
    its rate, whatever the sign and size of the annual savings. *)
Theorem zero_liquid_savings_noop self (annual_savings : num) assets liquid :
  NoDup assets.*1 →
  assets.*1 = (asset_allocation self).*1 →
  liquid_assets self assets = Ok liquid →
  py_sum liquid.*2 = num_zero →
  ∃ assets' asset_gains asset_losses : list (string * num),
    transition self annual_savings assets
    = Ok (assets', asset_gains, asset_losses) ∧
    transition self num_zero assets = Ok (assets', asset_gains, asset_losses) ∧
    assets'.*1 = assets.*1 ∧
    ∀ c v data,
      dict_get String.eqb c assets = Some v →
      dict_get String.eqb c (asset_allocation self) = Some data →
      dict_get String.eqb c assets' = Some (v * (num_one + rate data)).
Proof.
  intros Hnd Hkeys Hliquid Hsum. unfold transition.
  rewrite (handle_savings_zero_liquid _ _ _ liquid) by done.
  rewrite handle_savings_zero. cbn [mbind result_bind].
  destruct (appreciate_loop self assets ((λ cat, (cat, num_zero)) <$> assets.*1))
    as (assets' & gains' & Hloop & Hka & _ & Hvals);
    [done|done|apply zero_dict_keys|].
  rewrite Hloop. cbn [mbind result_bind]. by eauto 10.
Qed.
End TransitionFacts.

Lemma zero_liquid_savings_noop_witness :
  ∃ assets' asset_gains asset_losses : list (string * float),
    transition illiquid_planner 15000%float (initial_assets illiquid_planner)
    = Ok (assets', asset_gains, asset_losses) ∧
    transition illiquid_planner 0%float (initial_assets illiquid_planner)
    = Ok (assets', asset_gains, asset_losses) ∧
    assets'.*1 = ["House"; "Land"] ∧
    ∀ c v data,
      dict_get String.eqb c (initial_assets illiquid_planner) = Some v →
      dict_get String.eqb c (asset_allocation illiquid_planner) = Some data →
      dict_get String.eqb c assets'
      = Some (PrimFloat.mul v (PrimFloat.add 1%float (rate data))).
Proof.
  refine (zero_liquid_savings_noop illiquid_planner 15000%float
            (initial_assets illiquid_planner) [] _ _ _ _).
  - by apply (bool_decide_unpack _).
  - reflexivity.
  - reflexivity.
  - reflexivity.
Defined.

(** ** Liquidation in exact arithmetic *)

Section ExactLiquidation.
Local Open Scope Qc_scope.
Implicit Types (self : FinancialPlanner (num:=Qc)).
Implicit Types (assets liquid : list (string * Qc)) (c : string).

Lemma foldl_Qcplus (l : list Qc) (acc : Qc) :
  foldl Qcplus acc l = acc + foldl Qcplus 0 l.
Proof.
  revert acc. induction l as [|x l IH]; intros acc; simpl.
  - ring.
  - rewrite (IH (acc + x)), (IH (0 + x)). ring.
Qed.

Lemma py_sum_nil_Qc : py_sum (num:=Qc) [] = 0.
Proof. reflexivity. Qed.

Lemma py_sum_cons_Qc (x : Qc) (l : list Qc) : py_sum (x :: l) = x + py_sum l.
Proof.
  unfold py_sum. simpl. change (@num_add Qc Qc_num) with Qcplus.
  change (@num_zero Qc Qc_num) with 0. rewrite foldl_Qcplus. ring.
Qed.

Lemma Qcdiv_self (x : Qc) : x ≠ 0 → x / x = 1.
Proof. intros Hx. unfold Qcdiv. by apply Qcmult_inv_r. Qed.



(** The sum of the portfolio, and of its liquid part, after each liquid
    amount [v] has become [v - k * (v / T)]. *)
Lemma py_sum_liquidated (liq : string → bool) (k T : Qc) assets :
  py_sum ((λ '(c, v), (c, if liq c then v - k * (v / T) else v)) <$> assets).*2
  = py_sum assets.*2
    - k * (py_sum (filter (λ cv, liq cv.1) assets).*2 / T).
Proof.
  induction assets as [|[c v] assets IH].
  - simpl. rewrite py_sum_nil_Qc. unfold Qcdiv. ring.
  - rewrite !fmap_cons. simpl. rewrite !py_sum_cons_Qc, IH.
    destruct (liq c) eqn:Hc.
    + rewrite filter_cons_True by (simpl; rewrite Hc; exact I).
      rewrite fmap_cons. simpl. rewrite py_sum_cons_Qc. unfold Qcdiv. ring.
    + rewrite filter_cons_False by (simpl; rewrite Hc; exact id). ring.
Qed.

Lemma py_sum_liquid_liquidated (liq : string → bool) (k T : Qc) assets :
  py_sum (filter (λ cv, liq cv.1)
            ((λ '(c, v), (c, if liq c then v - k * (v / T) else v)) <$> assets)).*2
  = py_sum (filter (λ cv, liq cv.1) assets).*2
    - k * (py_sum (filter (λ cv, liq cv.1) assets).*2 / T).
Proof.
  induction assets as [|[c v] assets IH].
  - simpl. rewrite py_sum_nil_Qc. unfold Qcdiv. ring.
  - rewrite fmap_cons. destruct (liq c) eqn:Hc.
    + rewrite !filter_cons_True by (simpl; rewrite Hc; exact I).
      rewrite !fmap_cons. simpl. rewrite !py_sum_cons_Qc, IH.
      unfold Qcdiv. ring.
    + rewrite !filter_cons_False by (simpl; rewrite Hc; exact id). apply IH.
Qed.
End ExactLiquidation.



(** ** The milestone tracker *)

Section MilestoneFacts.
Context {num : Type} `{PyNum num}.
Local Open Scope num_scope.
Implicit Types (m : num) (tracker : list (num * option Z)) (ms : list num).

Lemma tracker_get_set_same m (v : option Z) tracker :
  is_Some (dict_get num_keyb m tracker) →
  dict_get num_keyb m (dict_set num_keyb m v tracker) = Some v.
Proof.
  induction tracker as [|[m' v'] tracker IH]; simpl.
  - by intros [? ?].
  - destruct (num_keyb m' m) eqn:Hk; simpl; by rewrite Hk.
Qed.

(** Marking a milestone never clears another one. *)
Lemma reached_set m m' (year : Z) tracker :
  reached m tracker → reached m (dict_set num_keyb m' (Some year) tracker).
Proof.
  unfold reached. induction tracker as [|[m0 v0] tracker IH]; simpl.
  - by intros [? ?].
  - destruct (num_keyb m0 m') eqn:Hk'; simpl;
      destruct (num_keyb m0 m) eqn:Hk; eauto.
Qed.

Lemma check_milestone_mono (w : num) (year : Z) tracker tracker' m m' :
  check_milestone w year tracker m' = Ok tracker' →
  reached m tracker → reached m tracker'.
Proof.
  unfold check_milestone. intros (r & _ & [= <-])%bind_Ok Hm.
  destruct r; [done|]. destruct (m' <=? w); [by apply reached_set|done].
Qed.

(** A milestone at or below the net worth is reached once it is checked. *)
Lemma check_milestone_marks (w : num) (year : Z) tracker tracker' m :
  check_milestone w year tracker m = Ok tracker' →
  (m <=? w) = true →
  reached m tracker'.
Proof.
  unfold check_milestone. intros (r & Hr & [= <-])%bind_Ok Hle.
  unfold getitem in Hr.
  destruct (dict_get num_keyb m tracker) as [r'|] eqn:Hget; [|done].
  injection Hr as ->. destruct r as [y|].
  - by exists y.
  - rewrite Hle. exists year. apply tracker_get_set_same. by rewrite Hget.
Qed.

Lemma check_milestones_mono (w : num) (year : Z) ms tracker tracker' m :
  for_each ms (check_milestone w year) tracker = Ok tracker' →
  reached m tracker → reached m tracker'.
Proof.
  intros Hloop Hm.
  apply (for_each_invariant (reached m) _ _ _ _ Hm) in Hloop; [done|].
  intros ? ? ? _ ? ?. by eapply check_milestone_mono.
Qed.

Lemma check_milestones_marks (w : num) (year : Z) ms tracker tracker' m :
  for_each ms (check_milestone w year) tracker = Ok tracker' →
  m ∈ ms →
  (m <=? w) = true →
  reached m tracker'.
Proof.
  revert tracker. induction ms as [|m0 ms IH]; intros tracker; simpl.
  - by intros _ ?%elem_of_nil.
  - intros (tracker0 & Hm0 & Hrest)%bind_Ok [->|Hin]%elem_of_cons Hle.
    + eapply check_milestones_mono; [done|].
      by eapply check_milestone_marks.
    + by eapply IH.
Qed.

(** A reached milestone is not listed as unreached. *)
Lemma unrealized_not_reached ms tracker (l : list num) m :
  unrealized ms tracker = Ok l → reached m tracker → m ∉ l.
Proof.
  revert l. induction ms as [|m0 ms IH]; intros l; simpl.
  - intros [= <-] _. by intros ?%elem_of_nil.
  - intros (r & Hr & (rest & Hrest & [= <-])%bind_Ok)%bind_Ok Hm.
    specialize (IH rest Hrest Hm). destruct r as [y|]; [done|].
    intros [->|?]%elem_of_cons; [|done].
    destruct Hm as [y Hy]. unfold getitem in Hr. rewrite Hy in Hr. done.
Qed.
End MilestoneFacts.

(** ** The rows of a projection *)

(** No gain, loss or net-change column is named like the two columns that
    close a row. *)
Ltac suffix_neq :=
  let H := fresh in
  let c := fresh "c" in
  intros c H;
  repeat (destruct c as [|? c]; [discriminate H|];
          simpl in H; injection H as _ H);
  destruct c; discriminate H.

Lemma gain_not_net_worth : ∀ c, (c ++ " Gain")%string ≠ "Total Net Worth".
Proof. suffix_neq. Qed.
Lemma loss_not_net_worth : ∀ c, (c ++ " Loss")%string ≠ "Total Net Worth".
Proof. suffix_neq. Qed.
Lemma net_change_not_net_worth :
  ∀ c, (c ++ " Net Change")%string ≠ "Total Net Worth".
Proof. suffix_neq. Qed.
Lemma gain_not_unrealized :
  ∀ c, (c ++ " Gain")%string ≠ "Unrealized Milestones".
Proof. suffix_neq. Qed.
Lemma loss_not_unrealized :
  ∀ c, (c ++ " Loss")%string ≠ "Unrealized Milestones".
Proof. suffix_neq. Qed.
Lemma net_change_not_unrealized :
  ∀ c, (c ++ " Net Change")%string ≠ "Unrealized Milestones".
Proof. suffix_neq. Qed.

Section RowFacts.
Context {num : Type} `{PyNum num}.
Local Open Scope num_scope.
Implicit Types (self : FinancialPlanner (num:=num)) (fr : frame (num:=num)).
Implicit Types (year_data : row (num:=num)).

Lemma update_last_snoc (f : row → result row) (rows : list row) year_data :
  update_last f (rows ++ [year_data])%list
  = (year_data' ← f year_data; Ok (rows ++ [year_data'])%list).
Proof. unfold update_last. by rewrite last_snoc, removelast_last. Qed.

(** Back-filling changes neither the net worth nor the unreached milestones
    of a row. *)
Lemma backfill_keeps (k : string) (asset_gains asset_losses : list (string * num))
    (cats : list string) year_data year_data' :
  (∀ c, (c ++ " Gain")%string ≠ k) →
  (∀ c, (c ++ " Loss")%string ≠ k) →
  (∀ c, (c ++ " Net Change")%string ≠ k) →
  for_each cats (backfill asset_gains asset_losses) year_data = Ok year_data' →
  dict_get String.eqb k year_data' = dict_get String.eqb k year_data.
Proof.
  intros Hg Hl Hn Hloop.
  apply (for_each_invariant
           (λ yd, dict_get String.eqb k yd = dict_get String.eqb k year_data))
    in Hloop; [done|done|].
  intros yd1 yd2 c _ Hyd1 Hstep. unfold backfill in Hstep.
  apply bind_Ok in Hstep as (g & _ & (l & _ & [= <-])%bind_Ok).
  rewrite !dict_get_set, !decide_False by done. done.
Qed.

(** What one iteration of the year loop does to the frame: the object is
    the same, the tracker has gone through the milestones with the net worth
    of the year, and one row has been added that shows that net worth and
    the milestones the tracker has not reached. *)
Lemma year_body_inv (years : Z) (verbose : bool)
    (income_override : option (gmap Z num)) fr (year : Z) fr' :
  year_body years verbose income_override fr year = Ok fr' →
  f_self fr' = f_self fr ∧
  for_each (milestones (f_self fr))
    (check_milestone (py_sum (assets fr).*2) year) (milestones_reached fr)
  = Ok (milestones_reached fr') ∧
  ∃ year_data,
    results fr' = (results fr ++ [year_data])%list ∧
    dict_get String.eqb "Total Net Worth" year_data
    = Some (CNum (py_sum (assets fr).*2)) ∧
    (milestones (f_self fr) ≠ [] →
     ∃ unreached,
       unrealized (milestones (f_self fr)) (milestones_reached fr')
       = Ok unreached ∧
       dict_get String.eqb "Unrealized Milestones" year_data
       = Some (CUnrealized unreached)).
Proof.
  unfold year_body. intros Hbody.
  apply bind_Ok in Hbody as (tax & _ & Hbody).
  apply bind_Ok in Hbody as ([additional_expense ?] & _ & Hbody).
  apply bind_Ok in Hbody as (tracker & Htracker & Hbody).
  apply bind_Ok in Hbody as (yd1 & _ & Hbody).
  apply bind_Ok in Hbody as (yd2 & Hyd2 & Hbody).
  assert (dict_get String.eqb "Total Net Worth" yd2
          = Some (CNum (py_sum (assets fr).*2)) ∧
          (milestones (f_self fr) ≠ [] →
           ∃ unreached,
             unrealized (milestones (f_self fr)) tracker = Ok unreached ∧
             dict_get String.eqb "Unrealized Milestones" yd2
             = Some (CUnrealized unreached))) as [Hnw Hun].
  { destruct (milestones (f_self fr)) as [|m ms] eqn:Hms.
    - injection Hyd2 as <-. split; [|done].
      rewrite dict_get_set. by rewrite decide_True.
    - apply bind_Ok in Hyd2 as (unreached & Hunreached & [= <-]).
      split.
      + rewrite !dict_get_set. by rewrite decide_False, decide_True.
      + intros _. exists unreached. split; [done|].
        rewrite dict_get_set. by rewrite decide_True. }
  case_bool_decide.
  - apply bind_Ok in Hbody as ([[assets' gains] losses] & _ & Hbody).
    apply bind_Ok in Hbody as (rows & Hrows & [= <-]). simpl.
    split; [done|]. split; [done|].
    destruct verbose.
    + rewrite update_last_snoc in Hrows.
      apply bind_Ok in Hrows as (yd3 & Hyd3 & [= <-]).
      exists yd3. split; [done|]. split.
      * rewrite <- Hnw. eapply backfill_keeps; [..|done].
        -- apply gain_not_net_worth.
        -- apply loss_not_net_worth.
        -- apply net_change_not_net_worth.
      * intros Hms. destruct (Hun Hms) as (unreached & Hunreached & Hcell).
        exists unreached. split; [done|].
        rewrite <- Hcell. eapply backfill_keeps; [..|done].
        -- apply gain_not_unrealized.
        -- apply loss_not_unrealized.
        -- apply net_change_not_unrealized.
    + injection Hrows as <-. by exists yd2.
  - injection Hbody as <-. simpl. split; [done|]. split; [done|].
    by exists yd2.
Qed.

Lemma run_invariant_initial self : run_invariant self (initial_frame self).
Proof.
  split; [done|]. split.
  - by intros r m w ?%elem_of_nil.
  - intros i j r1 r2 m w l _ Hi. simpl in Hi. by rewrite lookup_nil in Hi.
Qed.

Lemma run_invariant_step self (years : Z) (verbose : bool)
    (income_override : option (gmap Z num)) fr (year : Z) fr' :
  run_invariant self fr →
  year_body years verbose income_override fr year = Ok fr' →
  run_invariant self fr'.
Proof.
  intros (Hself & Hrows & Hpairs) Hbody.
  apply year_body_inv in Hbody
    as (Hself' & Htracker & yd & Hres & Hnw & Hun).
  rewrite Hself in *.
  assert (∀ m w,
            m ∈ milestones self →
            dict_get String.eqb "Total Net Worth" yd = Some (CNum w) →
            (m <=? w) = true →
            reached m (milestones_reached fr')) as Hnew.
  { intros m w Hm Hw Hle. rewrite Hnw in Hw. injection Hw as <-.
    by eapply check_milestones_marks. }
  split; [done|]. split.
  - intros r m w Hr Hm Hw Hle. rewrite Hres in Hr.
    apply elem_of_app in Hr as [Hr|Hr%list_elem_of_singleton].
    + eapply check_milestones_mono; [done|]. by eapply Hrows.
    + subst r. by eapply Hnew.
  - intros i j r1 r2 m w l Hij Hi Hj Hm Hw Hle Hl. rewrite Hres in Hi, Hj.
    apply lookup_snoc_Some in Hj as [[Hjlt Hj]|[Hjeq ->]].
    + rewrite lookup_app_l in Hi by lia.
      exact (Hpairs i j r1 r2 m w l Hij Hi Hj Hm Hw Hle Hl).
    + rewrite lookup_app_l in Hi by lia.
      assert (reached m (milestones_reached fr')) as Hreached.
      { eapply check_milestones_mono; [done|].
        eapply Hrows; [by eapply list_elem_of_lookup_2|done..]. }
      destruct Hun as (u & Hu & Hcell).
      { intros Hnil. rewrite Hnil in Hm. by apply elem_of_nil in Hm. }
      rewrite Hcell in Hl. injection Hl as <-.
      by eapply unrealized_not_reached.
Qed.

Lemma run_invariant_final self (years : Z) (verbose : bool)
    (income_override : option (gmap Z num)) fr :
  _project_base_frame self years verbose income_override = Ok fr →
  run_invariant self fr.
Proof.
  unfold _project_base_frame. intros Hloop.
  apply (for_each_invariant (run_invariant self) _ _ _ _
           (run_invariant_initial self)) in Hloop; [done|].
  intros fr1 fr2 y _. apply run_invariant_step.
Qed.

(** C7.  In the rows of one projection, a milestone that the total net worth
    of a row has reached is not listed as unreached in any later row,
    whatever the net worth of that later row. *)
Theorem milestone_stays_reached self (years : Z) (verbose : bool)
    (income_override : option (gmap Z num)) (rows : list row)
    (y1 y2 : nat) (r1 r2 : row) (m w1 : num) (unreached : list num) :
  _project_base self years verbose income_override = Ok rows →
  (y1 < y2)%nat →
  rows !! y1 = Some r1 →
  rows !! y2 = Some r2 →
  m ∈ milestones self →
  dict_get String.eqb "Total Net Worth" r1 = Some (CNum w1) →
  (m <=? w1) = true →
  dict_get String.eqb "Unrealized Milestones" r2
  = Some (CUnrealized unreached) →
  m ∉ unreached.
Proof.
  unfold _project_base. intros (fr & Hfr & [= <-])%bind_Ok.
  apply run_invariant_final in Hfr as (_ & _ & Hpairs). apply Hpairs.
Qed.

End RowFacts.

(** ** The retirement search *)




Section SearchFacts.
Context {num : Type} `{PyNum num}.
Local Open Scope num_scope.
Implicit Types (self : FinancialPlanner (num:=num)) (st : search (num:=num)).
Implicit Types (years k : Z) (cands seen : list Z).

Lemma try_candidate_final_worth self years st (retire_year : Z) :
  try_candidate self years st retire_year
  = (w ← candidate_final_worth self years retire_year;
     Ok (compare_candidate st retire_year w, w)).
Proof.
  unfold try_candidate, candidate_final_worth.
  by destruct (_project_with_zero_income self years retire_year).
Qed.




Lemma summary_search_baseline self years :
  summary_search self years
  = (w0 ← candidate_final_worth self years 0;
     search_loop self years (seqZ 1 years)
       {| best_year := 0; best_diff := num_abs w0; evaluated := [] |}).
Proof.
  unfold summary_search, candidate_final_worth.
  by destruct (_project_with_zero_income self years 0).
Qed.

End SearchFacts.

Section SearchOrder.
Context {num : Type} `{PyNumOrder num}.
Local Open Scope num_scope.
Implicit Types (self : FinancialPlanner (num:=num)) (st : search (num:=num)).
Implicit Types (years : Z) (cands seen : list Z).



End SearchOrder.

(** ** The theorems at work *)

Lemma milestone_stays_reached_witness :
  ∃ rows r0 r2,
    _project_base milestone_planner 2 false None = Ok rows ∧
    rows !! 0%nat = Some r0 ∧
    rows !! 2%nat = Some r2 ∧
    dict_get String.eqb "Total Net Worth" r0 = Some (CNum 1000%float) ∧
    dict_get String.eqb "Total Net Worth" r2 = Some (CNum 700%float) ∧
    PrimFloat.leb 900%float 700%float = false ∧
    dict_get String.eqb "Unrealized Milestones" r2
    = Some (CUnrealized [5000%float]) ∧
    900%float ∉ [5000%float].
Proof.
  eexists _, _, _. split; [vm_compute; reflexivity|].
  do 6 (split; [reflexivity|]).
  refine (milestone_stays_reached milestone_planner 2 false None _
            0 2 _ _ 900%float 1000%float [5000%float] _ _ _ _ _ _ _ _).
  - vm_compute. reflexivity.
  - lia.
  - reflexivity.
  - reflexivity.
  - by left.
  - reflexivity.
  - reflexivity.
  - reflexivity.
Defined.




(** ** Projections of well-formed planners return *)

Section Totality.
Context {num : Type} `{PyNumLaws num}.
Local Open Scope num_scope.
Implicit Types (self : FinancialPlanner (num:=num)) (fr : frame (num:=num)).
Implicit Types (assets : list (string * num)) (year : Z).
Implicit Types (tracker : list (num * option Z)).

Lemma schedule_getitem_Ok {V : Type} (m : gmap Z V) (k : Z) :
  is_Some (m !! k) → is_Ok (schedule_getitem k m).
Proof. intros [v Hv]. exists v. unfold schedule_getitem. by rewrite Hv. Qed.

Lemma tax_rate_for_year_Ok self year :
  well_formed self → is_Ok (_get_tax_rate_for_year self year).
Proof.
  intros [_ Htax]. unfold _get_tax_rate_for_year.
  destruct (tax_rate self) as [r|m|n]; [by eexists| |done].
  destruct (last (applicable_years m year)) as [y|] eqn:Hlast.
  - apply schedule_getitem_Ok. by apply last_applicable_years in Hlast as [? _].
  - unfold py_min. destruct (keys m) as [|k ks] eqn:Hkeys.
    + destruct Htax. apply map_to_list_empty_iff.
      unfold keys in Hkeys. by apply fmap_nil_inv in Hkeys.
    + cbn [mbind result_bind]. apply schedule_getitem_Ok, elem_of_keys.
      rewrite Hkeys. apply foldl_min_elem_of.
Qed.

Lemma additional_expense_for_year_Ok self year :
  is_Ok (_get_additional_expense_for_year self year).
Proof.
  unfold _get_additional_expense_for_year. case_bool_decide; [by eexists|].
  destruct (last (applicable_years (additional_expenses self) year))
    as [y|] eqn:Hlast; [|by eexists].
  apply last_applicable_years in Hlast as [[e He] _].
  unfold schedule_getitem. rewrite He. by eexists.
Qed.

(** *** The tracker keeps its entries *)

Lemma tracker_set_is_Some m m' (v : option Z) tracker :
  is_Some (dict_get num_keyb m tracker) →
  is_Some (dict_get num_keyb m (dict_set num_keyb m' v tracker)).
Proof.
  induction tracker as [|[m0 v0] tracker IH]; simpl.
  - by intros [? ?].
  - destruct (num_keyb m0 m') eqn:Hk'; simpl;
      destruct (num_keyb m0 m) eqn:Hk; eauto.
Qed.

Lemma tracker_set_same_is_Some m (v : option Z) tracker :
  is_Some (dict_get num_keyb m (dict_set num_keyb m v tracker)).
Proof.
  induction tracker as [|[m0 v0] tracker IH]; simpl.
  - rewrite num_keyb_refl. by eexists.
  - destruct (num_keyb m0 m) eqn:Hk; simpl; rewrite Hk; [by eexists|done].
Qed.

Lemma initial_milestones_reached_is_Some self m :
  m ∈ milestones self →
  is_Some (dict_get num_keyb m (initial_milestones_reached self)).
Proof.
  unfold initial_milestones_reached.
  generalize (@nil (num * option Z)).
  induction (milestones self) as [|m0 ms IH]; intros tracker; simpl.
  - by intros ?%elem_of_nil.
  - intros [->|Hin]%elem_of_cons; [|by apply IH].
    assert (∀ ms' tracker',
              is_Some (dict_get num_keyb m0 tracker') →
              is_Some (dict_get num_keyb m0
                         (foldl (λ d ms, dict_set num_keyb ms None d)
                            tracker' ms'))) as Hkeep.
    { induction ms' as [|m1 ms' IH']; intros tracker'; simpl; [done|].
      intros ?. by apply IH', tracker_set_is_Some. }
    apply Hkeep, tracker_set_same_is_Some.
Qed.

Lemma check_milestone_Ok (w : num) year (m0 : num) tracker :
  is_Some (dict_get num_keyb m0 tracker) →
  ∃ tracker',
    check_milestone w year tracker m0 = Ok tracker' ∧
    ∀ m, is_Some (dict_get num_keyb m tracker) →
         is_Some (dict_get num_keyb m tracker').
Proof.
  intros [r Hr]. unfold check_milestone, getitem. rewrite Hr.
  eexists. split; [reflexivity|]. intros m Hm.
  destruct r; [done|]. destruct (m0 <=? w); [by apply tracker_set_is_Some|done].
Qed.

Lemma check_milestones_Ok (w : num) year (ms : list num) tracker :
  (∀ m, m ∈ ms → is_Some (dict_get num_keyb m tracker)) →
  ∃ tracker',
    for_each ms (check_milestone w year) tracker = Ok tracker' ∧
    ∀ m, is_Some (dict_get num_keyb m tracker) →
         is_Some (dict_get num_keyb m tracker').
Proof.
  revert tracker. induction ms as [|m0 ms IH]; intros tracker Hall.
  - by exists tracker.
  - destruct (check_milestone_Ok w year m0 tracker)
      as (tracker1 & Hstep & Hkeep); [apply Hall; by left|].
    destruct (IH tracker1) as (tracker' & Hloop & Hkeep').
    { intros m Hm. apply Hkeep, Hall. by right. }
    exists tracker'. cbn [for_each]. rewrite Hstep. split; [done|].
    intros m Hm. by apply Hkeep', Hkeep.
Qed.

Lemma unrealized_Ok (ms : list num) tracker :
  (∀ m, m ∈ ms → is_Some (dict_get num_keyb m tracker)) →
  is_Ok (unrealized ms tracker).
Proof.
  induction ms as [|m0 ms IH]; intros Hall; simpl; [by eexists|].
  destruct (Hall m0) as [r Hr]; [by left|].
  destruct IH as [rest Hrest]; [intros m Hm; apply Hall; by right|].
  unfold getitem. rewrite Hr. cbn [mbind result_bind]. rewrite Hrest.
  by eexists.
Qed.
(** *** The transition returns *)

Lemma allocate_loop self (annual_savings total_liquid : num) assets
    (asset_gains : list (string * num)) :
  NoDup assets.*1 →
  asset_gains.*1 = assets.*1 →
  (num_zero <? total_liquid) = true →
  ∃ assets' asset_gains',
    for_each (filter (λ cv, liquid_category self cv.1) assets).*1
      (allocate annual_savings total_liquid) (assets, asset_gains)
    = Ok (assets', asset_gains') ∧
    assets'.*1 = assets.*1 ∧ asset_gains'.*1 = assets.*1 ∧
    ∀ c v,
      dict_get String.eqb c assets = Some v →
      dict_get String.eqb c assets'
      = Some (if liquid_category self c
              then v + annual_savings * num_div v total_liquid
              else v).
Proof.
  intros Hnd Hgains Hpos.
  pose proof (num_ltb_zero_neq _ Hpos) as Hnz.
  rewrite liquid_filter_keys.
  destruct (keyed_loop
              (λ _ v, truediv v total_liquid)
              (λ _ v proportion, v + annual_savings * proportion)
              (λ _ _ g proportion, g + annual_savings * proportion)
              (allocate annual_savings total_liquid) (λ _ _ _, eq_refl)
              (filter (λ c, liquid_category self c) assets.*1)
              assets asset_gains)
    as (assets' & gains' & Hloop & Hka & Hkg & Hvals).
  - by apply NoDup_filter.
  - by intros c [_ ?]%list_elem_of_filter.
  - done.
  - intros c v _ _. unfold truediv. rewrite Hnz. by eexists.
  - exists assets', gains'. do 3 (split; [done|]).
    intros c v Hv. specialize (Hvals c v Hv).
    assert (c ∈ assets.*1) as Hin by (apply dict_get_is_Some; by eexists).
    destruct (liquid_category self c) eqn:Hliq.
    + rewrite bool_decide_eq_true_2 in Hvals
        by (apply list_elem_of_filter; by rewrite Hliq).
      destruct Hvals as (x & Hx & ->). unfold truediv in Hx.
      rewrite Hnz in Hx. by injection Hx as <-.
    + rewrite bool_decide_eq_false_2 in Hvals; [done|].
      intros [Hc _]%list_elem_of_filter. by rewrite Hliq in Hc.
Qed.

Lemma handle_savings_Ok self (annual_savings : num) assets
    (asset_gains asset_losses : list (string * num)) :
  NoDup assets.*1 →
  assets.*1 = (asset_allocation self).*1 →
  asset_gains.*1 = assets.*1 →
  asset_losses.*1 = assets.*1 →
  ∃ assets' asset_gains' asset_losses',
    handle_savings self annual_savings assets asset_gains asset_losses
    = Ok (assets', asset_gains', asset_losses') ∧
    assets'.*1 = assets.*1 ∧ asset_gains'.*1 = assets.*1 ∧
    asset_losses'.*1 = assets.*1.
Proof.
  intros Hnd Hkeys Hgains Hlosses. unfold handle_savings.
  rewrite liquid_assets_filter by (intros c; by rewrite Hkeys).
  cbn [mbind result_bind].
  destruct (num_zero <? annual_savings); [|destruct (annual_savings <? num_zero)].
  - destruct (num_zero <?
              py_sum (filter (λ cv, liquid_category self cv.1) assets).*2)
      eqn:Hpos; [|by eauto 10].
    destruct (allocate_loop self annual_savings _ assets asset_gains
                Hnd Hgains Hpos)
      as (assets' & gains' & Hloop & Hka & Hkg & _).
    rewrite Hloop. cbn [mbind result_bind]. by eauto 10.
  - destruct (num_zero <?
              py_sum (filter (λ cv, liquid_category self cv.1) assets).*2)
      eqn:Hpos; [|by eauto 10].
    destruct (liquidate_loop self (num_abs annual_savings) _ assets
                asset_losses Hnd Hkeys Hlosses Hpos)
      as (assets' & losses' & Hloop & Hka & Hkl & _).
    rewrite Hloop. cbn [mbind result_bind]. by eauto 10.
  - by eauto 10.
Qed.

Lemma transition_Ok self (annual_savings : num) assets :
  NoDup assets.*1 →
  assets.*1 = (asset_allocation self).*1 →
  ∃ assets' asset_gains asset_losses,
    transition self annual_savings assets
    = Ok (assets', asset_gains, asset_losses) ∧
    assets'.*1 = assets.*1 ∧ asset_gains.*1 = assets.*1 ∧
    asset_losses.*1 = assets.*1.
Proof.
  intros Hnd Hkeys. unfold transition.
  destruct (handle_savings_Ok self annual_savings assets
              ((λ cat, (cat, num_zero)) <$> assets.*1)
              ((λ cat, (cat, num_zero)) <$> assets.*1))
    as (assets1 & gains1 & losses1 & Hhs & Hk1 & Hg1 & Hl1);
    [done|done|apply zero_dict_keys..|].
  rewrite Hhs. cbn [mbind result_bind].
  destruct (appreciate_loop self assets1 gains1)
    as (assets2 & gains2 & Hloop & Hk2 & Hg2 & _); [congruence..|].
  rewrite Hloop. cbn [mbind result_bind].
  exists assets2, gains2, losses1. split; [done|]. split; [congruence|].
  split; [congruence|done].
Qed.

(** *** The rows are built *)

Lemma asset_columns_Ok assets (cats : list string) (year_data : row) :
  (∀ c, c ∈ cats → c ∈ assets.*1) →
  is_Ok (for_each cats
           (λ (year_data : row) category,
              a ← getitem String.eqb category assets;
              Ok (dict_set String.eqb category (CNum a) year_data))
           year_data).
Proof.
  revert year_data. induction cats as [|c cats IH]; intros year_data Hall.
  - by eexists.
  - destruct (getitem_elem_of c assets) as [a Ha]; [apply Hall; by left|].
    cbn [for_each]. rewrite Ha. cbn [mbind result_bind].
    apply IH. intros c' Hc'. apply Hall. by right.
Qed.

Lemma backfill_Ok (asset_gains asset_losses : list (string * num))
    (cats : list string) (year_data : row) :
  (∀ c, c ∈ cats → c ∈ asset_gains.*1) →
  (∀ c, c ∈ cats → c ∈ asset_losses.*1) →
  is_Ok (for_each cats (backfill asset_gains asset_losses) year_data).
Proof.
  revert year_data. induction cats as [|c cats IH]; intros year_data Hg Hl.
  - by eexists.
  - destruct (getitem_elem_of c asset_gains) as [g Hgc]; [apply Hg; by left|].
    destruct (getitem_elem_of c asset_losses) as [l Hlc]; [apply Hl; by left|].
    assert (is_Ok (backfill asset_gains asset_losses year_data c))
      as [year_data' Hstep].
    { unfold backfill. rewrite Hgc, Hlc. by eexists. }
    cbn [for_each]. rewrite Hstep. cbn [mbind result_bind].
    apply IH; intros c' Hc'; [apply Hg|apply Hl]; by right.
Qed.
(** *** Every year of the loop *)

Lemma year_body_Ok self (years : Z) (verbose : bool)
    (income_override : option (gmap Z num)) fr year :
  well_formed self →
  frame_ok self fr →
  ∃ fr', year_body years verbose income_override fr year = Ok fr' ∧
         frame_ok self fr'.
Proof.
  intros Hwf (Hself & Hkeys & Htracker).
  destruct (tax_rate_for_year_Ok self year Hwf) as [tax Htax].
  destruct (additional_expense_for_year_Ok self year) as [[ae desc] Hae].
  destruct (check_milestones_Ok (py_sum (assets fr).*2) year
              (milestones self) (milestones_reached fr) Htracker)
    as (tracker' & Hms & Hkeep).
  assert (NoDup (assets fr).*1) as Hnd by (rewrite Hkeys; apply Hwf).
  unfold year_body. rewrite Hself, Htax. cbn [mbind result_bind].
  rewrite Hae. cbn [mbind result_bind]. rewrite Hms. cbn [mbind result_bind].
  match goal with
  | |- context [for_each (assets fr).*1 ?f ?yd] =>
      assert (is_Ok (for_each (assets fr).*1 f yd)) as [yd1 Hyd1]
        by (by apply asset_columns_Ok);
      rewrite Hyd1
  end.
  cbn [mbind result_bind].
  match goal with
  | |- context [dict_set String.eqb "Total Net Worth" ?w ?yd] =>
      generalize (dict_set String.eqb "Total Net Worth" w yd)
  end.
  intros yd2.
  destruct (unrealized_Ok (milestones self) tracker') as [u Hu].
  { intros m Hm. by apply Hkeep, Htracker. }
  rewrite Hu. cbn [mbind result_bind].
  set (r := match milestones self with [] => _ | _ :: _ => _ end).
  assert (is_Ok r) as [yd3 Hyd3]
    by (subst r; destruct (milestones self); by eexists).
  rewrite Hyd3. clear r Hyd3. cbn [mbind result_bind].
  destruct (bool_decide (year < years)%Z).
  - match goal with
    | |- context [transition self ?s (assets fr)] =>
        destruct (transition_Ok self s (assets fr) Hnd Hkeys)
          as (assets' & gains & losses & Htr & Hka & Hkg & Hkl)
    end.
    rewrite Htr. cbn [mbind result_bind].
    destruct verbose.
    + rewrite update_last_snoc.
      destruct (backfill_Ok gains losses assets'.*1 yd3) as [yd4 Hyd4].
      { intros c. by rewrite Hka, Hkg. }
      { intros c. by rewrite Hka, Hkl. }
      rewrite Hyd4. cbn [mbind result_bind]. eexists. split; [reflexivity|].
      split; [done|]. split; [simpl; congruence|].
      intros m Hm. by apply Hkeep, Htracker.
    + cbn [mbind result_bind]. eexists. split; [reflexivity|].
      split; [done|]. split; [simpl; congruence|].
      intros m Hm. by apply Hkeep, Htracker.
  - eexists. split; [reflexivity|]. split; [done|]. split; [done|].
    intros m Hm. by apply Hkeep, Htracker.
Qed.
(** *** The whole run *)


Lemma initial_frame_ok self : frame_ok self (initial_frame self).
Proof.
  split; [done|]. split; simpl.
  - unfold initial_assets. rewrite <- list_fmap_compose.
    apply list_fmap_ext. by intros i [cat data].
  - apply initial_milestones_reached_is_Some.
Qed.




End Totality.

(** * Further properties of the planner *)

(** ** The resolvers, for every schedule *)

Lemma additional_expense_for_year_witness :
  _get_additional_expense_for_year planner_with_kid_expenses 7
  = Ok (20000%float, "Kid expenses").
Proof.
  refine (additional_expense_for_year planner_with_kid_expenses 7 5
            {| expense_amount := 20000%float; description := "Kid expenses" |}
            _ _ _).
  - reflexivity.
  - lia.
  - forall_keys.
Defined.

Section ResolverResults.
Context {num : Type} `{PyNum num}.
Implicit Types (self : FinancialPlanner (num:=num)) (year k : Z).

Lemma tax_rate_for_year_in_mapping self (m : gmap Z num) year :
  tax_rate self = TaxDict m →
  m ≠ ∅ →
  ∃ k v, m !! k = Some v ∧ _get_tax_rate_for_year self year = Ok v.
Proof.
  intros Htax Hne. unfold _get_tax_rate_for_year. rewrite Htax.
  destruct (last (applicable_years m year)) as [y|] eqn:Hlast.
  - apply last_applicable_years in Hlast as [[v Hv] _].
    exists y, v. split; [done|]. unfold schedule_getitem. by rewrite Hv.
  - unfold py_min. destruct (keys m) as [|k0 ks] eqn:Hkeys.
    + destruct Hne. apply map_to_list_empty_iff.
      unfold keys in Hkeys. by apply fmap_nil_inv in Hkeys.
    + cbn [mbind result_bind].
      assert (is_Some (m !! foldl Z.min k0 ks)) as [v Hv].
      { apply elem_of_keys. rewrite Hkeys. apply foldl_min_elem_of. }
      exists (foldl Z.min k0 ks), v. split; [done|].
      unfold schedule_getitem. by rewrite Hv.
Qed.

(** X2.  A mapping-valued tax schedule yields a rate for every year exactly
    when it has an entry: the empty mapping raises [ValueError] for every
    year, and a mapping with an entry returns one of its values for every
    year, also for the years before its first key; no lookup fails. *)
Theorem tax_rate_for_year_total self (m : gmap Z num) year :
  tax_rate self = TaxDict m →
  (m = ∅ ∧ _get_tax_rate_for_year self year = Raise ValueError) ∨
  (∃ k v, m !! k = Some v ∧ _get_tax_rate_for_year self year = Ok v).
Proof.
  intros Htax. destruct (decide (m = ∅)) as [->|Hne].
  - left. split; [done|]. by apply tax_rate_for_year_empty.
  - right. by apply tax_rate_for_year_in_mapping.
Qed.

End ResolverResults.

Lemma tax_rate_for_year_total_witness :
  (two_step_tax = ∅ ∧
   _get_tax_rate_for_year (planner_with_tax (TaxDict two_step_tax)) (-3)
   = Raise ValueError) ∨
  (∃ k v, two_step_tax !! k = Some v ∧
          _get_tax_rate_for_year (planner_with_tax (TaxDict two_step_tax)) (-3)
          = Ok v).
Proof.
  exact (tax_rate_for_year_total (planner_with_tax (TaxDict two_step_tax))
           two_step_tax (-3) eq_refl).
Defined.

(** ** The shape of a projection *)

Section ProjectionShape.
Context {num : Type} `{PyNumLaws num}.
Local Open Scope num_scope.
Implicit Types (self : FinancialPlanner (num:=num)) (fr : frame (num:=num)).

Lemma for_each_year_body_results self (years : Z) (verbose : bool)
    (income_override : option (gmap Z num)) (ys : list Z) fr fr' :
  for_each ys (year_body years verbose income_override) fr = Ok fr' →
  ∃ new_rows,
    results fr' = (results fr ++ new_rows)%list ∧
    length new_rows = length ys.
Proof.
  revert fr. induction ys as [|y ys IH]; intros fr.
  - intros [= <-]. exists []. by rewrite app_nil_r.
  - cbn [for_each]. intros (fr1 & Hbody & Hrest)%bind_Ok.
    apply year_body_inv in Hbody as (_ & _ & yd & Hres & _).
    destruct (IH fr1 Hrest) as (rows & Hrows & Hlen).
    exists (yd :: rows). split; [|simpl; by rewrite Hlen].
    by rewrite Hrows, Hres, <- app_assoc.
Qed.

Lemma project_base_length self (years : Z) (verbose : bool)
    (income_override : option (gmap Z num)) (rows : list row) :
  _project_base self years verbose income_override = Ok rows →
  length rows = Z.to_nat (years + 1).
Proof.
  unfold _project_base, _project_base_frame.
  intros (fr & Hfr & [= <-])%bind_Ok.
  apply for_each_year_body_results in Hfr as (rows & Hrows & Hlen); [|done].
  rewrite Hrows. simpl. rewrite Hlen. unfold year_range. apply length_seqZ.
Qed.


Lemma first_row_net_worth self (years : Z) (verbose : bool)
    (income_override : option (gmap Z num)) (rows : list row) (r0 : row) :
  _project_base self years verbose income_override = Ok rows →
  rows !! 0%nat = Some r0 →
  dict_get String.eqb "Total Net Worth" r0
  = Some (CNum (py_sum (amount <$> (asset_allocation self).*2))).
Proof.
  unfold _project_base, _project_base_frame.
  intros (fr & Hfr & [= <-])%bind_Ok Hr0.
  destruct (year_range years) as [|y ys] eqn:Hys.
  { injection Hfr as <-. done. }
  cbn [for_each] in Hfr. apply bind_Ok in Hfr as (fr1 & Hbody & Hrest).
  apply year_body_inv in Hbody as (_ & _ & yd & Hres & Hnw & _).
  apply for_each_year_body_results in Hrest as (rows & Hrows & _); [|done].
  rewrite Hrows, Hres in Hr0. simpl in Hr0. injection Hr0 as <-.
  rewrite Hnw. do 3 f_equal. cbn [initial_frame assets].
  unfold initial_assets. rewrite <- !list_fmap_compose.
  apply list_fmap_ext. by intros i [c data].
Qed.

(** X5.  The first row of a projection shows the net worth that [__init__]
    has stored as [initial_net_worth], the one [summary] prints as starting
    net worth: the sum of the amounts of the allocation. *)
Theorem first_row_is_initial_net_worth
    (g e i r : num) (tax : TaxRate) (alloc : list (string * Asset))
    (exps : option (gmap Z Expense)) (ms : option (list num))
    (self : FinancialPlanner) (years : Z) (verbose : bool)
    (income_override : option (gmap Z num)) (rows : list row) (r0 : row) :
  __init__ g e i r tax alloc exps ms = Ok self →
  _project_base self years verbose income_override = Ok rows →
  rows !! 0%nat = Some r0 →
  dict_get String.eqb "Total Net Worth" r0
  = Some (CNum (initial_net_worth self)).
Proof.
  intros [= <-] Hrows Hr0.
  by rewrite (first_row_net_worth _ _ _ _ _ _ Hrows Hr0).
Qed.

End ProjectionShape.

(** ** The transition in closed form *)

Section KeyedLoopSecond.
Context {V X : Type}.
Context (F : string → V → result X).
Context (A : string → V → X → V) (G : string → V → V → X → V).
Context (body : list (string * V) * list (string * V) → string →
                result (list (string * V) * list (string * V))).
Hypothesis body_eq : ∀ a g c,
  body (a, g) c
  = (v ← getitem String.eqb c a;
     x ← F c v;
     g0 ← getitem String.eqb c g;
     Ok (dict_set String.eqb c (A c v x) a,
         dict_set String.eqb c (G c v g0 x) g)).

(** What a keyed loop leaves in its second dictionary. *)
Lemma keyed_loop_second (ks : list string) (a g a' g' : list (string * V)) :
  NoDup ks →
  for_each ks body (a, g) = Ok (a', g') →
  ∀ c v g0,
    dict_get String.eqb c a = Some v →
    dict_get String.eqb c g = Some g0 →
    if bool_decide (c ∈ ks)
    then ∃ x, F c v = Ok x ∧ dict_get String.eqb c g' = Some (G c v g0 x)
    else dict_get String.eqb c g' = Some g0.
Proof.
  revert a g. induction ks as [|c0 ks IH]; intros a g Hnd Hloop c v g0 Hv Hg0.
  - injection Hloop as <- <-.
    rewrite bool_decide_eq_false_2; [done|]. by intros ?%elem_of_nil.
  - apply NoDup_cons in Hnd as [Hc0 Hnd].
    cbn [for_each] in Hloop. apply bind_Ok in Hloop as ([a1 g1] & Hbody & Hrest).
    rewrite body_eq in Hbody.
    apply bind_Ok in Hbody as (v0 & Hv0%getitem_Ok & Hbody).
    apply bind_Ok in Hbody as (x0 & Hx0 & Hbody).
    apply bind_Ok in Hbody as (g00 & Hg00%getitem_Ok & [= <- <-]).
    specialize (IH _ _ Hnd Hrest c).
    rewrite !dict_get_set in IH.
    destruct (decide (c0 = c)) as [<-|Hne].
    + rewrite bool_decide_eq_true_2 by (by left).
      specialize (IH _ _ eq_refl eq_refl).
      rewrite bool_decide_eq_false_2 in IH by done.
      exists x0. split; [congruence|].
      replace v with v0 by congruence. by replace g0 with g00 by congruence.
    + specialize (IH v g0 Hv Hg0).
      destruct (bool_decide (c ∈ ks)) eqn:Hcks.
      * rewrite bool_decide_eq_true_2; [done|].
        right. by apply bool_decide_eq_true_1 in Hcks.
      * rewrite bool_decide_eq_false_2; [done|].
        apply bool_decide_eq_false_1 in Hcks.
        intros [?|?]%elem_of_cons; congruence.
Qed.
End KeyedLoopSecond.

Section TransitionClosedForm.
Context {num : Type} `{PyNumLaws num}.
Local Open Scope num_scope.
Implicit Types (self : FinancialPlanner (num:=num)).
Implicit Types (assets : list (string * num)) (c : string).

Lemma zero_dict_get (ks : list string) c :
  c ∈ ks →
  dict_get String.eqb c ((λ cat, (cat, num_zero (num:=num))) <$> ks)
  = Some num_zero.
Proof.
  intros Hc.
  destruct (proj2 (dict_get_is_Some c ((λ cat, (cat, num_zero (num:=num))) <$> ks)))
    as [z Hz]; [by rewrite zero_dict_keys|].
  rewrite Hz. f_equal.
  induction ks as [|k ks IH]; [done|].
  rewrite fmap_cons, dict_get_cons in Hz. case_decide.
  - by injection Hz.
  - apply IH; [|done]. apply elem_of_cons in Hc as [->|?]; done.
Qed.

Lemma allocate_loop_gains self (annual_savings total_liquid : num) assets
    (asset_gains assets' asset_gains' : list (string * num)) :
  NoDup assets.*1 →
  (num_zero <? total_liquid) = true →
  for_each (filter (λ cv, liquid_category self cv.1) assets).*1
    (allocate annual_savings total_liquid) (assets, asset_gains)
  = Ok (assets', asset_gains') →
  ∀ c v g0,
    dict_get String.eqb c assets = Some v →
    dict_get String.eqb c asset_gains = Some g0 →
    dict_get String.eqb c asset_gains'
    = Some (if liquid_category self c
            then g0 + annual_savings * num_div v total_liquid
            else g0).
Proof.
  intros Hnd Hpos Hloop c v g0 Hv Hg0.
  pose proof (num_ltb_zero_neq _ Hpos) as Hnz.
  rewrite liquid_filter_keys in Hloop.
  pose proof (keyed_loop_second
                (λ _ v, truediv v total_liquid)
                (λ _ v proportion, v + annual_savings * proportion)
                (λ _ _ g proportion, g + annual_savings * proportion)
                (allocate annual_savings total_liquid) (λ _ _ _, eq_refl)
                _ _ _ _ _ (NoDup_filter _ _ Hnd) Hloop c v g0 Hv Hg0) as Hvals.
  assert (c ∈ assets.*1) as Hin by (apply dict_get_is_Some; by eexists).
  destruct (liquid_category self c) eqn:Hliq.
  - rewrite bool_decide_eq_true_2 in Hvals
      by (apply list_elem_of_filter; by rewrite Hliq).
    destruct Hvals as (x & Hx & ->). unfold truediv in Hx.
    rewrite Hnz in Hx. by injection Hx as <-.
  - rewrite bool_decide_eq_false_2 in Hvals; [done|].
    intros [Hc _]%list_elem_of_filter. by rewrite Hliq in Hc.
Qed.

Lemma liquidate_loop_losses self (amount_to_liquidate total_liquid : num)
    assets (asset_losses assets' asset_losses' : list (string * num)) :
  NoDup assets.*1 →
  (num_zero <? total_liquid) = true →
  for_each (filter (λ cv, liquid_category self cv.1) assets).*1
    (liquidate amount_to_liquidate total_liquid) (assets, asset_losses)
  = Ok (assets', asset_losses') →
  ∀ c v l0,
    dict_get String.eqb c assets = Some v →
    dict_get String.eqb c asset_losses = Some l0 →
    dict_get String.eqb c asset_losses'
    = Some (if liquid_category self c
            then l0 + amount_to_liquidate * num_div v total_liquid
            else l0).
Proof.
  intros Hnd Hpos Hloop c v l0 Hv Hl0.
  pose proof (num_ltb_zero_neq _ Hpos) as Hnz.
  rewrite liquid_filter_keys in Hloop.
  pose proof (keyed_loop_second
                (λ _ v, truediv v total_liquid)
                (λ _ v proportion, v - amount_to_liquidate * proportion)
                (λ _ _ l proportion, l + amount_to_liquidate * proportion)
                (liquidate amount_to_liquidate total_liquid) (λ _ _ _, eq_refl)
                _ _ _ _ _ (NoDup_filter _ _ Hnd) Hloop c v l0 Hv Hl0) as Hvals.
  assert (c ∈ assets.*1) as Hin by (apply dict_get_is_Some; by eexists).
  destruct (liquid_category self c) eqn:Hliq.
  - rewrite bool_decide_eq_true_2 in Hvals
      by (apply list_elem_of_filter; by rewrite Hliq).
    destruct Hvals as (x & Hx & ->). unfold truediv in Hx.
    rewrite Hnz in Hx. by injection Hx as <-.
  - rewrite bool_decide_eq_false_2 in Hvals; [done|].
    intros [Hc _]%list_elem_of_filter. by rewrite Hliq in Hc.
Qed.

Lemma appreciate_loop_gains self assets
    (asset_gains assets' asset_gains' : list (string * num)) :
  NoDup assets.*1 →
  for_each assets.*1 (appreciate self) (assets, asset_gains)
  = Ok (assets', asset_gains') →
  ∀ c v g0 data,
    dict_get String.eqb c assets = Some v →
    dict_get String.eqb c asset_gains = Some g0 →
    dict_get String.eqb c (asset_allocation self) = Some data →
    dict_get String.eqb c asset_gains' = Some (g0 + v * rate data).
Proof.
  intros Hnd Hloop c v g0 data Hv Hg0 Hdata.
  pose proof (keyed_loop_second
                (λ c _, getitem String.eqb c (asset_allocation self))
                (λ _ v data, v * (num_one + rate data))
                (λ _ v g data, g + v * rate data)
                (appreciate self) (λ _ _ _, eq_refl)
                _ _ _ _ _ Hnd Hloop c v g0 Hv Hg0) as Hvals.
  rewrite bool_decide_eq_true_2 in Hvals
    by (apply dict_get_is_Some; by eexists).
  destruct Hvals as (data' & Hdata'%getitem_Ok & ->). congruence.
Qed.

(** [handle_savings] in closed form, on dictionaries of gains and losses
    that start at zero. *)
Lemma handle_savings_closed_form self (annual_savings : num) assets :
  NoDup assets.*1 →
  assets.*1 = (asset_allocation self).*1 →
  ∃ assets' asset_gains asset_losses,
    handle_savings self annual_savings assets
      ((λ cat, (cat, num_zero)) <$> assets.*1)
      ((λ cat, (cat, num_zero)) <$> assets.*1)
    = Ok (assets', asset_gains, asset_losses) ∧
    assets'.*1 = assets.*1 ∧ asset_gains.*1 = assets.*1 ∧
    asset_losses.*1 = assets.*1 ∧
    ∀ c v,
      dict_get String.eqb c assets = Some v →
      dict_get String.eqb c assets'
      = Some (after_savings self annual_savings assets c v) ∧
      dict_get String.eqb c asset_gains
      = Some (savings_gain self annual_savings assets c v) ∧
      dict_get String.eqb c asset_losses
      = Some (savings_loss self annual_savings assets c v).
Proof.
  intros Hnd Hkeys.
  set (zeros := (λ cat, (cat, num_zero (num:=num))) <$> assets.*1).
  assert (zeros.*1 = assets.*1) as Hzk by apply zero_dict_keys.
  assert (∀ c v, dict_get String.eqb c assets = Some v →
                 dict_get String.eqb c zeros = Some num_zero) as Hzero.
  { intros c v Hv. apply zero_dict_get. apply dict_get_is_Some. by eexists. }
  unfold handle_savings, after_savings, savings_gain, savings_loss,
    allocates, liquidates.
  rewrite liquid_assets_filter by (intros c; by rewrite Hkeys).
  cbn [mbind result_bind]. fold (liquid_total self assets).
  destruct (num_zero <? annual_savings) eqn:Hpos;
    [|destruct (annual_savings <? num_zero) eqn:Hneg];
    destruct (num_zero <? liquid_total self assets) eqn:HT;
    cbn [negb andb]; rewrite ?andb_false_r.
  - destruct (allocate_loop self annual_savings (liquid_total self assets)
                assets zeros Hnd Hzk HT)
      as (assets' & gains' & Hloop & Hka & Hkg & Hvals).
    rewrite Hloop. cbn [mbind result_bind].
    exists assets', gains', zeros. do 4 (split; [done|]).
    intros c v Hv. rewrite ?andb_true_r, ?andb_false_r.
    rewrite (Hvals c v Hv), (Hzero c v Hv).
    rewrite (allocate_loop_gains _ _ _ _ _ _ _ Hnd HT Hloop c v num_zero Hv)
      by by eapply Hzero.
    done.
  - exists assets, zeros, zeros. do 4 (split; [done|]).
    intros c v Hv. rewrite ?andb_true_r, ?andb_false_r. eauto.
  - destruct (liquidate_loop self (num_abs annual_savings)
                (liquid_total self assets) assets zeros Hnd Hkeys Hzk HT)
      as (assets' & losses' & Hloop & Hka & Hkl & Hvals).
    rewrite Hloop. cbn [mbind result_bind].
    exists assets', zeros, losses'. do 4 (split; [done|]).
    intros c v Hv. rewrite ?andb_true_r, ?andb_false_r.
    rewrite (Hvals c v Hv), (Hzero c v Hv).
    rewrite (liquidate_loop_losses _ _ _ _ _ _ _ Hnd HT Hloop c v num_zero Hv)
      by by eapply Hzero.
    done.
  - exists assets, zeros, zeros. do 4 (split; [done|]).
    intros c v Hv. rewrite ?andb_true_r, ?andb_false_r. eauto.
  - exists assets, zeros, zeros. do 4 (split; [done|]).
    intros c v Hv. rewrite ?andb_true_r, ?andb_false_r. eauto.
  - exists assets, zeros, zeros. do 4 (split; [done|]).
    intros c v Hv. rewrite ?andb_true_r, ?andb_false_r. eauto.
Qed.

Lemma transition_closed self (annual_savings : num) assets :
  NoDup assets.*1 →
  assets.*1 = (asset_allocation self).*1 →
  ∃ assets' asset_gains asset_losses,
    transition self annual_savings assets
    = Ok (assets', asset_gains, asset_losses) ∧
    assets'.*1 = assets.*1 ∧ asset_gains.*1 = assets.*1 ∧
    asset_losses.*1 = assets.*1 ∧
    ∀ c v data,
      dict_get String.eqb c assets = Some v →
      dict_get String.eqb c (asset_allocation self) = Some data →
      dict_get String.eqb c assets'
      = Some (after_savings self annual_savings assets c v
              * (num_one + rate data)) ∧
      dict_get String.eqb c asset_gains
      = Some (savings_gain self annual_savings assets c v
              + after_savings self annual_savings assets c v * rate data) ∧
      dict_get String.eqb c asset_losses
      = Some (savings_loss self annual_savings assets c v).
Proof.
  intros Hnd Hkeys. unfold transition.
  destruct (handle_savings_closed_form self annual_savings assets Hnd Hkeys)
    as (assets1 & gains1 & losses1 & Hhs & Hk1 & Hg1 & Hl1 & Hvals1).
  rewrite Hhs. cbn [mbind result_bind].
  destruct (appreciate_loop self assets1 gains1)
    as (assets2 & gains2 & Hloop & Hk2 & Hg2 & Hvals2);
    [by rewrite Hk1|by rewrite Hk1|by rewrite Hk1|].
  rewrite Hloop. cbn [mbind result_bind].
  exists assets2, gains2, losses1.
  split; [done|]. split; [by rewrite Hk2|]. split; [by rewrite Hg2|].
  split; [done|].
  intros c v data Hv Hdata.
  destruct (Hvals1 c v Hv) as (Hv1 & Hgain1 & Hloss1).
  split; [by eapply Hvals2|]. split; [|done].
  eapply appreciate_loop_gains; [| |done..]; [by rewrite Hk1|done].
Qed.

(** X7.  The transition to the next year in closed form.  On a portfolio
    with the categories of the allocation it raises no exception and keeps
    the categories in order.  Savings change the liquid categories only,
    and only when the liquid total [T] is positive: positive savings [s] turn
    an amount [v] into [v + s * (v / T)], negative ones into
    [v - |s| * (v / T)]; after that every amount is multiplied by one plus
    its rate.  The gain recorded for a category is its share of the savings
    plus its appreciation, the loss its share of the shortfall. *)
Theorem transition_closed_form self (annual_savings : num) assets :
  NoDup assets.*1 →
  assets.*1 = (asset_allocation self).*1 →
  ∃ assets' asset_gains asset_losses,
    transition self annual_savings assets
    = Ok (assets', asset_gains, asset_losses) ∧
    assets'.*1 = assets.*1 ∧ asset_gains.*1 = assets.*1 ∧
    asset_losses.*1 = assets.*1 ∧
    ∀ c v data,
      dict_get String.eqb c assets = Some v →
      dict_get String.eqb c (asset_allocation self) = Some data →
      dict_get String.eqb c assets'
      = Some (after_savings self annual_savings assets c v
              * (num_one + rate data)) ∧
      dict_get String.eqb c asset_gains
      = Some (savings_gain self annual_savings assets c v
              + after_savings self annual_savings assets c v * rate data) ∧
      dict_get String.eqb c asset_losses
      = Some (savings_loss self annual_savings assets c v).
Proof. apply transition_closed. Qed.
End TransitionClosedForm.

Lemma transition_closed_form_witness :
  ∃ assets' asset_gains asset_losses,
    transition shortfall_planner 50%float (initial_assets shortfall_planner)
    = Ok (assets', asset_gains, asset_losses) ∧
    assets'.*1 = ["A"; "B"; "H"] ∧
    asset_gains.*1 = ["A"; "B"; "H"] ∧
    asset_losses.*1 = ["A"; "B"; "H"] ∧
    ∀ c v data,
      dict_get String.eqb c (initial_assets shortfall_planner) = Some v →
      dict_get String.eqb c (asset_allocation shortfall_planner) = Some data →
      dict_get String.eqb c assets'
      = Some (PrimFloat.mul
                (after_savings shortfall_planner 50%float
                   (initial_assets shortfall_planner) c v)
                (PrimFloat.add 1%float (rate data))) ∧
      dict_get String.eqb c asset_gains
      = Some (PrimFloat.add
                (savings_gain shortfall_planner 50%float
                   (initial_assets shortfall_planner) c v)
                (PrimFloat.mul
                   (after_savings shortfall_planner 50%float
                      (initial_assets shortfall_planner) c v)
                   (rate data))) ∧
      dict_get String.eqb c asset_losses
      = Some (savings_loss shortfall_planner 50%float
                (initial_assets shortfall_planner) c v).
Proof.
  refine (transition_closed_form shortfall_planner 50%float
            (initial_assets shortfall_planner) _ _).
  - by apply (bool_decide_unpack _).
  - reflexivity.
Defined.

(** ** The transition in exact arithmetic *)

Section ExactTransition.
Local Open Scope Qc_scope.
Implicit Types (self : FinancialPlanner (num:=Qc)).
Implicit Types (assets : list (string * Qc)) (c : string).

(** X8.  In exact arithmetic the books of a transition balance: for every
    category the new amount is the old one plus the gain minus the loss
    that the transition records for it, which is what the verbose rows show
    as "Net Change". *)
Theorem net_change_is_gain_minus_loss self (annual_savings : Qc) assets
    (assets' asset_gains asset_losses : list (string * Qc))
    c (v v' g l : Qc) :
  NoDup assets.*1 →
  assets.*1 = (asset_allocation self).*1 →
  transition self annual_savings assets
  = Ok (assets', asset_gains, asset_losses) →
  dict_get String.eqb c assets = Some v →
  dict_get String.eqb c assets' = Some v' →
  dict_get String.eqb c asset_gains = Some g →
  dict_get String.eqb c asset_losses = Some l →
  v' - v = g - l.
Proof.
  intros Hnd Hkeys Htr Hv Hv' Hg Hl.
  destruct (transition_closed self annual_savings assets Hnd Hkeys)
    as (a2 & g2 & l2 & Htr2 & _ & _ & _ & Hvals).
  rewrite Htr in Htr2. injection Htr2 as <- <- <-.
  destruct (proj2 (dict_get_is_Some c (asset_allocation self))) as [data Hdata].
  { rewrite <- Hkeys. apply dict_get_is_Some. by eexists. }
  destruct (Hvals c v data Hv Hdata) as (Hv2 & Hg2 & Hl2).
  rewrite Hv' in Hv2. rewrite Hg in Hg2. rewrite Hl in Hl2.
  injection Hv2 as ->. injection Hg2 as ->. injection Hl2 as ->.
  unfold after_savings, savings_gain, savings_loss, allocates, liquidates.
  change (@num_add Qc Qc_num) with Qcplus.
  change (@num_sub Qc Qc_num) with Qcminus.
  change (@num_mul Qc Qc_num) with Qcmult.
  change (@num_zero Qc Qc_num) with 0.
  change (@num_one Qc Qc_num) with 1.
  destruct (liquid_category self c), (Qc_ltb 0 annual_savings) eqn:Hpos,
    (num_ltb annual_savings 0), (num_ltb 0 (liquid_total self assets));
    cbn [negb andb]; change (@num_ltb Qc Qc_num) with Qc_ltb;
    rewrite ?Hpos; cbn [negb andb]; ring.
Qed.

(** X9.  With positive savings [s] and a positive liquid total [T], in exact
    arithmetic: every liquid amount [v] becomes [v + s * (v / T)] and
    nothing else changes; the liquid total becomes [T + s] and the sum of all
    amounts rises by exactly [s]; and every liquid category keeps its share
    of the liquid total. *)
Theorem allocation_is_proportional self (annual_savings : Qc) assets
    (asset_gains asset_losses : list (string * Qc)) :
  NoDup assets.*1 →
  assets.*1 = (asset_allocation self).*1 →
  asset_gains.*1 = assets.*1 →
  0 < annual_savings →
  0 < liquid_total self assets →
  ∃ assets' asset_gains',
    handle_savings self annual_savings assets asset_gains asset_losses
    = Ok (assets', asset_gains', asset_losses) ∧
    assets'.*1 = assets.*1 ∧
    (∀ c v,
       dict_get String.eqb c assets = Some v →
       dict_get String.eqb c assets'
       = Some (if liquid_category self c
               then v + annual_savings * (v / liquid_total self assets)
               else v)) ∧
    liquid_total self assets' = liquid_total self assets + annual_savings ∧
    py_sum assets'.*2 = py_sum assets.*2 + annual_savings ∧
    (∀ c v v',
       liquid_category self c = true →
       dict_get String.eqb c assets = Some v →
       dict_get String.eqb c assets' = Some v' →
       v' / liquid_total self assets' = v / liquid_total self assets).
Proof.
  intros Hnd Hkeys Hgains Hs HT.
  set (T := liquid_total self assets) in *.
  assert (T ≠ 0) as HT0 by (intros HT0; rewrite HT0 in HT; by apply Qclt_not_eq in HT).
  assert (0 < T + annual_savings) as HTs.
  { apply (Qclt_le_trans _ T); [done|].
    rewrite <- (Qcplus_0_r T) at 1.
    apply Qcplus_le_compat; [apply Qcle_refl|by apply Qclt_le_weak]. }
  assert (T + annual_savings ≠ 0) as HTs0.
  { intros Heq. rewrite Heq in HTs. by apply Qclt_not_eq in HTs. }
  destruct (allocate_loop self annual_savings T assets asset_gains)
    as (assets' & gains' & Hloop & Hka & _ & Hvals);
    [done|done|by apply Qc_ltb_lt|].
  assert (handle_savings self annual_savings assets asset_gains asset_losses
          = Ok (assets', gains', asset_losses)) as Hhs.
  { assert (num_ltb num_zero annual_savings = true) as Hs'
      by (by apply Qc_ltb_lt).
    assert (num_ltb num_zero T = true) as HT' by (by apply Qc_ltb_lt).
    unfold handle_savings. rewrite Hs'.
    rewrite liquid_assets_filter by (intros c; by rewrite Hkeys).
    cbn [mbind result_bind]. fold (liquid_total self assets). fold T.
    by rewrite HT', Hloop. }
  assert (assets'
          = (λ '(c, v), (c, if liquid_category self c
                            then v - (- annual_savings) * (v / T) else v))
              <$> assets) as Hmap.
  { apply (dict_ext (λ c v, if liquid_category self c
                            then v - (- annual_savings) * (v / T) else v));
      [done..|].
    intros c v Hv. rewrite (Hvals c v Hv). f_equal.
    destruct (liquid_category self c); [|done].
    change (@num_add Qc Qc_num) with Qcplus.
    change (@num_mul Qc Qc_num) with Qcmult.
    change (@num_div Qc Qc_num) with Qcdiv. ring. }
  assert (liquid_total self assets' = T + annual_savings) as Hliq'.
  { unfold liquid_total. rewrite Hmap, py_sum_liquid_liquidated.
    fold (liquid_total self assets). fold T.
    rewrite Qcdiv_self by done. ring. }
  exists assets', gains'. split; [done|]. split; [done|]. split; [done|].
  split; [done|]. split.
  { rewrite Hmap, py_sum_liquidated. fold (liquid_total self assets). fold T.
    rewrite Qcdiv_self by done. ring. }
  intros c v v' Hc Hv Hv'. rewrite Hliq'.
  rewrite (Hvals c v Hv), Hc in Hv'. injection Hv' as <-.
  change (@num_add Qc Qc_num) with Qcplus.
  change (@num_mul Qc Qc_num) with Qcmult.
  change (@num_div Qc Qc_num) with Qcdiv.
  field. by split.
Qed.
End ExactTransition.

Lemma net_change_is_gain_minus_loss_witness :
  ∃ assets' asset_gains asset_losses,
    transition shortfall_planner_Qc (Qc_of_Z 50)
      (initial_assets shortfall_planner_Qc)
    = Ok (assets', asset_gains, asset_losses) ∧
    dict_get String.eqb "A" assets' = Some (Qc_of_Z 150) ∧
    dict_get String.eqb "A" asset_gains = Some (Qc_of_Z 50) ∧
    dict_get String.eqb "A" asset_losses = Some (Qc_of_Z 0) ∧
    (Qc_of_Z 150 - Qc_of_Z 100 = Qc_of_Z 50 - Qc_of_Z 0)%Qc.
Proof.
  eexists _, _, _. split; [vm_compute; reflexivity|].
  do 3 (split; [vm_compute; f_equal; apply Qc_is_canon; reflexivity|]).
  refine (net_change_is_gain_minus_loss shortfall_planner_Qc (Qc_of_Z 50)
            (initial_assets shortfall_planner_Qc) _ _ _ "A"
            (Qc_of_Z 100) (Qc_of_Z 150) (Qc_of_Z 50) (Qc_of_Z 0)
            _ _ _ _ _ _ _).
  - by apply (bool_decide_unpack _).
  - reflexivity.
  - vm_compute. reflexivity.
  - reflexivity.
  - vm_compute. f_equal. apply Qc_is_canon. reflexivity.
  - vm_compute. f_equal. apply Qc_is_canon. reflexivity.
  - vm_compute. f_equal. apply Qc_is_canon. reflexivity.
Defined.

Lemma allocation_is_proportional_witness :
  ∃ assets' asset_gains',
    handle_savings shortfall_planner_Qc (Qc_of_Z 50)
      (initial_assets shortfall_planner_Qc)
      (zero_dict (initial_assets shortfall_planner_Qc))
      (zero_dict (initial_assets shortfall_planner_Qc))
    = Ok (assets', asset_gains',
          zero_dict (initial_assets shortfall_planner_Qc)) ∧
    assets'.*1 = ["A"; "B"; "H"] ∧
    (∀ c v,
       dict_get String.eqb c (initial_assets shortfall_planner_Qc) = Some v →
       dict_get String.eqb c assets'
       = Some (if liquid_category shortfall_planner_Qc c
               then (v + Qc_of_Z 50
                         * (v / liquid_total shortfall_planner_Qc
                                  (initial_assets shortfall_planner_Qc)))%Qc
               else v)) ∧
    liquid_total shortfall_planner_Qc assets'
    = (liquid_total shortfall_planner_Qc (initial_assets shortfall_planner_Qc)
       + Qc_of_Z 50)%Qc ∧
    py_sum assets'.*2
    = (py_sum [Qc_of_Z 100; Qc_of_Z 0; Qc_of_Z 1000] + Qc_of_Z 50)%Qc ∧
    (∀ c v v',
       liquid_category shortfall_planner_Qc c = true →
       dict_get String.eqb c (initial_assets shortfall_planner_Qc) = Some v →
       dict_get String.eqb c assets' = Some v' →
       (v' / liquid_total shortfall_planner_Qc assets'
        = v / liquid_total shortfall_planner_Qc
                (initial_assets shortfall_planner_Qc))%Qc).
Proof.
  refine (allocation_is_proportional shortfall_planner_Qc (Qc_of_Z 50)
            (initial_assets shortfall_planner_Qc)
            (zero_dict (initial_assets shortfall_planner_Qc))
            (zero_dict (initial_assets shortfall_planner_Qc)) _ _ _ _ _).
  - by apply (bool_decide_unpack _).
  - reflexivity.
  - reflexivity.
  - by apply Qc_ltb_lt.
  - by apply Qc_ltb_lt.
Defined.

(** ** The income override of a run without income *)

Lemma seqZ_0_snoc (n : nat) :
  seqZ 0 (Z.of_nat (S n)) = (seqZ 0 (Z.of_nat n) ++ [Z.of_nat n])%list.
Proof.
  replace (Z.of_nat (S n)) with (Z.of_nat n + 1) by lia.
  rewrite seqZ_app by lia. by f_equal.
Qed.

Section OverrideFacts.
Context {num : Type} `{PyNum num}.
Local Open Scope num_scope.
Implicit Types (self : FinancialPlanner (num:=num)).

Lemma zero_income_override_fold self (start_year : Z) (n : nat) :
  ∃ (income_override : gmap Z num) (current_income : num),
    foldl
      (λ '(income_override, current_income) year,
         if bool_decide (year < start_year)%Z then
           let current_income :=
             if bool_decide (0 < year)%Z
             then current_income * (num_one + income_growth_rate self)
             else current_income in
           (<[year := current_income]> income_override, current_income)
         else (<[year := num_zero]> income_override, current_income))
      (∅, initial_gross_income self) (seqZ 0 (Z.of_nat n))
    = (income_override, current_income) ∧
    current_income
    = grown_income self (Z.to_nat (Z.min (Z.of_nat n - 1) (start_year - 1))) ∧
    ∀ y : Z,
      income_override !! y
      = if bool_decide (0 ≤ y < Z.of_nat n)%Z
        then Some (if bool_decide (y < start_year)%Z
                   then grown_income self (Z.to_nat y)
                   else num_zero)
        else None.
Proof.
  induction n as [|n (m & ci & Hfold & Hci & Hm)].
  - exists ∅, (initial_gross_income self). split; [done|]. split.
    + by replace (Z.to_nat _) with 0%nat by lia.
    + intros y. rewrite lookup_empty.
      rewrite bool_decide_eq_false_2; [done|]. lia.
  - rewrite seqZ_0_snoc, foldl_app, Hfold. cbn [foldl].
    destruct (bool_decide (Z.of_nat n < start_year)%Z) eqn:Hstart.
    + apply bool_decide_eq_true_1 in Hstart.
      eexists _, _. split; [done|].
      assert ((if bool_decide (0 < Z.of_nat n)%Z
               then ci * (num_one + income_growth_rate self) else ci)
              = grown_income self n) as Hgrown.
      { rewrite Hci. destruct n as [|n].
        - rewrite bool_decide_eq_false_2 by lia.
          by replace (Z.to_nat _) with 0%nat by lia.
        - rewrite bool_decide_eq_true_2 by lia.
          by replace (Z.to_nat _) with n by lia. }
      rewrite Hgrown. split.
      { f_equal. lia. }
      intros y. rewrite lookup_insert.
      destruct (decide (Z.of_nat n = y)) as [<-|Hy].
      * rewrite bool_decide_eq_true_2 by lia.
        rewrite bool_decide_eq_true_2 by lia. by rewrite Nat2Z.id.
      * rewrite Hm.
        by rewrite (bool_decide_ext (0 ≤ y < Z.of_nat (S n))%Z
                      (0 ≤ y < Z.of_nat n)%Z) by lia.
    + apply bool_decide_eq_false_1 in Hstart.
      eexists _, _. split; [done|]. split.
      { rewrite Hci. f_equal. lia. }
      intros y. rewrite lookup_insert.
      destruct (decide (Z.of_nat n = y)) as [<-|Hy].
      * rewrite bool_decide_eq_true_2 by lia.
        by rewrite bool_decide_eq_false_2 by lia.
      * rewrite Hm.
        by rewrite (bool_decide_ext (0 ≤ y < Z.of_nat (S n))%Z
                      (0 ≤ y < Z.of_nat n)%Z) by lia.
Qed.

Lemma zero_income_override_get self (years start_year y : Z) :
  zero_income_override self years start_year !! y
  = if bool_decide (0 ≤ y ≤ years)%Z
    then Some (if bool_decide (y < start_year)%Z
               then grown_income self (Z.to_nat y)
               else num_zero)
    else None.
Proof.
  unfold zero_income_override, year_range.
  destruct (decide (years + 1 ≤ 0)%Z) as [Hneg|Hpos].
  - rewrite seqZ_nil by done. simpl. rewrite lookup_empty.
    rewrite bool_decide_eq_false_2; [done|]. lia.
  - destruct (zero_income_override_fold self start_year (Z.to_nat (years + 1)))
      as (m & ci & Hfold & _ & Hm).
    rewrite Z2Nat.id in Hfold by lia. apply (f_equal fst) in Hfold.
    cbn [fst] in Hfold. specialize (Hm y). rewrite <- Hfold in Hm.
    rewrite Z2Nat.id in Hm by lia.
    etrans; [exact Hm|].
    destruct (bool_decide (0 ≤ y < years + 1)%Z) eqn:Hy.
    + apply bool_decide_eq_true_1 in Hy.
      by rewrite (bool_decide_eq_true_2 (0 ≤ y ≤ years)%Z) by lia.
    + apply bool_decide_eq_false_1 in Hy.
      by rewrite (bool_decide_eq_false_2 (0 ≤ y ≤ years)%Z) by lia.
Qed.

(** X10.  The income override that [_project_with_zero_income] builds has
    an entry for each year from 0 to the horizon and for no other year.
    Before [start_year] the entry is the initial gross income raised by the
    growth rate once per year since year 0; from [start_year] on it is
    zero. *)
Theorem zero_income_override_lookup self (years start_year y : Z) :
  zero_income_override self years start_year !! y
  = if bool_decide (0 ≤ y ≤ years)%Z
    then Some (if bool_decide (y < start_year)%Z
               then grown_income self (Z.to_nat y)
               else num_zero)
    else None.
Proof. apply zero_income_override_get. Qed.
End OverrideFacts.

(** ** Runs that differ in the income of year 0 *)

Section IncomeOfYearZero.
Context {num : Type} `{PyNum num}.
Local Open Scope num_scope.
Implicit Types (self : FinancialPlanner (num:=num)) (fr : frame (num:=num)).

(** Whether the asset columns of a row can be written does not depend on
    the row they are written to. *)
Lemma asset_columns_shape (assets : list (string * num)) (ks : list string)
    (year_data year_data' : row) :
  match for_each ks
          (λ year_data category,
             a ← getitem String.eqb category assets;
             Ok (dict_set String.eqb category (CNum a) year_data))
          year_data,
        for_each ks
          (λ year_data category,
             a ← getitem String.eqb category assets;
             Ok (dict_set String.eqb category (CNum a) year_data))
          year_data' with
  | Ok _, Ok _ => True
  | Raise e, Raise e' => e = e'
  | _, _ => False
  end.
Proof.
  revert year_data year_data'. induction ks as [|c ks IH]; intros yd yd'.
  - done.
  - cbn [for_each]. destruct (getitem String.eqb c assets) as [a|e]; [|done].
    cbn [mbind result_bind]. apply IH.
Qed.

Lemma year_body_same_portfolio (years : Z) (ov1 ov2 : gmap Z num)
    fr1 fr2 (year : Z) :
  same_portfolio fr1 fr2 →
  ((0 < year)%Z → ∃ x, ov1 !! year = Some x ∧ ov2 !! year = Some x) →
  match year_body years false (Some ov1) fr1 year,
        year_body years false (Some ov2) fr2 year with
  | Ok fr1', Ok fr2' => same_portfolio fr1' fr2'
  | Raise e1, Raise e2 => e1 = e2
  | _, _ => False
  end.
Proof.
  destruct fr1 as [self1 income1 expenses1 assets1 reached1 rows1].
  destruct fr2 as [self2 income2 expenses2 assets2 reached2 rows2].
  unfold same_portfolio. cbn. intros (<- & <- & <- & <-) Hincome.
  unfold year_body.
  cbn [f_self current_gross_income current_expenses assets milestones_reached
       results].
  set (i1 := default income1 (ov1 !! year)).
  set (i2 := default income2 (ov2 !! year)).
  assert (∀ t a : num,
            (if bool_decide (0 < year)%Z
             then i1 * (num_one - t) - (expenses1 + a) else num_zero)
            = (if bool_decide (0 < year)%Z
               then i2 * (num_one - t) - (expenses1 + a) else num_zero))
    as Hsavings.
  { intros t a. destruct (bool_decide (0 < year)%Z) eqn:Hyear; [|done].
    apply bool_decide_eq_true_1 in Hyear.
    destruct (Hincome Hyear) as (x & Hx1 & Hx2).
    subst i1 i2. by rewrite Hx1, Hx2. }
  destruct (_get_tax_rate_for_year self1 year) as [t|e]; [|done].
  cbn [mbind result_bind].
  destruct (_get_additional_expense_for_year self1 year) as [[a d]|e]; [|done].
  cbn [mbind result_bind].
  destruct (for_each (milestones self1)
              (check_milestone (py_sum assets1.*2) year) reached1)
    as [mr|e]; [|done].
  cbn [mbind result_bind]. rewrite (Hsavings t a).
  match goal with
  | |- match for_each _ ?body ?yd1 ≫= _ with _ => _ end =>
      match goal with
      | |- context [for_each _ body ?yd2 ≫= _] =>
          lazymatch yd2 with
          | yd1 => fail
          | _ => pose proof (asset_columns_shape assets1 assets1.*1 yd1 yd2)
                   as Hshape
          end
      end
  end.
  match type of Hshape with
  | match ?r1 with _ => _ end => destruct r1 as [yd1|e1]
  end;
    match type of Hshape with
    | match ?r2 with _ => _ end => destruct r2 as [yd2|e2]
    end; try done.
  cbn [mbind result_bind].
  assert (∀ (x1 x2 : row) (y1 y2 : num) (l1 l2 : list row),
    match
      (if bool_decide (year < years)%Z
       then
         '(assets0, _, _) ←
           transition self1
             (if bool_decide (0 < year)%Z
              then i2 * (num_one - t) - (expenses1 + a) else num_zero)
             assets1;
         results0 ← Ok (l1 ++ [x1])%list;
         Ok {| f_self := self1;
               current_gross_income := y1;
               current_expenses := expenses1 * (num_one + inflation_rate self1);
               assets := assets0;
               milestones_reached := mr;
               results := results0 |}
       else Ok {| f_self := self1;
                  current_gross_income := i1;
                  current_expenses := expenses1;
                  assets := assets1;
                  milestones_reached := mr;
                  results := (l1 ++ [x1])%list |}),
      (if bool_decide (year < years)%Z
       then
         '(assets0, _, _) ←
           transition self1
             (if bool_decide (0 < year)%Z
              then i2 * (num_one - t) - (expenses1 + a) else num_zero)
             assets1;
         results0 ← Ok (l2 ++ [x2])%list;
         Ok {| f_self := self1;
               current_gross_income := y2;
               current_expenses := expenses1 * (num_one + inflation_rate self1);
               assets := assets0;
               milestones_reached := mr;
               results := results0 |}
       else Ok {| f_self := self1;
                  current_gross_income := i2;
                  current_expenses := expenses1;
                  assets := assets1;
                  milestones_reached := mr;
                  results := (l2 ++ [x2])%list |})
    with
    | Ok fr1', Ok fr2' =>
        f_self fr1' = f_self fr2' ∧
        current_expenses fr1' = current_expenses fr2' ∧
        assets fr1' = assets fr2' ∧
        milestones_reached fr1' = milestones_reached fr2'
    | Raise e1, Raise e2 => e1 = e2
    | _, _ => False
    end) as Htail.
  { intros x1 x2 y1 y2 l1 l2.
    destruct (bool_decide (year < years)%Z); [|done].
    destruct (transition self1 _ assets1) as [[[assets' gains] losses]|e];
      done. }
  destruct (milestones self1) as [|m ms].
  - cbn [mbind result_bind]. apply Htail.
  - destruct (unrealized (m :: ms) mr) as [unreached|e]; [|done].
    cbn [mbind result_bind]. apply Htail.
Qed.

Lemma for_each_same_portfolio (years : Z) (ov1 ov2 : gmap Z num)
    (ys : list Z) fr1 fr2 :
  same_portfolio fr1 fr2 →
  (dict_get String.eqb "Total Net Worth" <$> last (results fr1))
  = (dict_get String.eqb "Total Net Worth" <$> last (results fr2)) →
  (∀ y, y ∈ ys → (0 < y)%Z →
        ∃ x, ov1 !! y = Some x ∧ ov2 !! y = Some x) →
  match for_each ys (year_body years false (Some ov1)) fr1,
        for_each ys (year_body years false (Some ov2)) fr2 with
  | Ok fr1', Ok fr2' =>
      (dict_get String.eqb "Total Net Worth" <$> last (results fr1'))
      = (dict_get String.eqb "Total Net Worth" <$> last (results fr2'))
  | Raise e1, Raise e2 => e1 = e2
  | _, _ => False
  end.
Proof.
  revert fr1 fr2. induction ys as [|y ys IH]; intros fr1 fr2 Hsame Hlast Hov.
  - done.
  - cbn [for_each].
    pose proof (year_body_same_portfolio years ov1 ov2 fr1 fr2 y Hsame
                  (Hov y ltac:(by left))) as Hstep.
    destruct (year_body years false (Some ov1) fr1 y) as [fr1'|e1] eqn:H1;
      destruct (year_body years false (Some ov2) fr2 y) as [fr2'|e2] eqn:H2;
      try done.
    cbn [mbind result_bind]. apply IH; [done| |].
    + apply year_body_inv in H1 as (_ & _ & yd1 & -> & Hyd1 & _).
      apply year_body_inv in H2 as (_ & _ & yd2 & -> & Hyd2 & _).
      rewrite !last_snoc. simpl. rewrite Hyd1, Hyd2.
      destruct Hsame as (_ & _ & -> & _). done.
    + intros y' Hy'. apply Hov. by right.
Qed.

Lemma final_net_worth_last (rows1 rows2 : list (row (num:=num))) :
  (dict_get String.eqb "Total Net Worth" <$> last rows1)
  = (dict_get String.eqb "Total Net Worth" <$> last rows2) →
  final_net_worth rows1 = final_net_worth rows2.
Proof.
  unfold final_net_worth, getitem.
  destruct (last rows1), (last rows2); simpl; try done.
  by intros [= ->].
Qed.

(** The income that an override gives for year 0 has no part in the final
    net worth: two overrides that give the same income for every later year
    of the horizon end at the same final net worth, or fail alike. *)
Lemma final_net_worth_same_later_income self (years : Z)
    (ov1 ov2 : gmap Z num) :
  (∀ y, (0 < y ≤ years)%Z → ∃ x, ov1 !! y = Some x ∧ ov2 !! y = Some x) →
  (rows ← _project_base self years false (Some ov1); final_net_worth rows)
  = (rows ← _project_base self years false (Some ov2); final_net_worth rows).
Proof.
  intros Hov. unfold _project_base, _project_base_frame.
  pose proof (for_each_same_portfolio years ov1 ov2 (year_range years)
                (initial_frame self) (initial_frame self)) as Hsim.
  destruct (for_each (year_range years) (year_body years false (Some ov1))
              (initial_frame self)) as [fr1|e1];
    destruct (for_each (year_range years) (year_body years false (Some ov2))
                (initial_frame self)) as [fr2|e2];
    cbn [mbind result_bind].
  - apply final_net_worth_last. apply Hsim; [done|done|].
    intros y [? ?]%elem_of_seqZ ?. apply Hov. lia.
  - exfalso. apply Hsim; [done|done|].
    intros y [? ?]%elem_of_seqZ ?. apply Hov. lia.
  - exfalso. apply Hsim; [done|done|].
    intros y [? ?]%elem_of_seqZ ?. apply Hov. lia.
  - f_equal. apply Hsim; [done|done|].
    intros y [? ?]%elem_of_seqZ ?. apply Hov. lia.
Qed.

Lemma candidate_one_is_candidate_zero self (years : Z) :
  candidate_final_worth self years 1 = candidate_final_worth self years 0.
Proof.
  unfold candidate_final_worth, _project_with_zero_income.
  apply final_net_worth_same_later_income.
  intros y Hy. exists num_zero. rewrite !zero_income_override_get.
  rewrite !(bool_decide_eq_true_2 (0 ≤ y ≤ years)%Z) by lia.
  by rewrite !bool_decide_eq_false_2 by lia.
Qed.

(** X11.  Stopping work at year 1 is the same as stopping now: the income
    of year 0 is never saved, so the two runs end at the same final net
    worth, and when one of them fails the other fails with the same
    exception. *)
Theorem retiring_at_year_1_is_retiring_now self (years : Z) :
  candidate_final_worth self years 1 = candidate_final_worth self years 0.
Proof. apply candidate_one_is_candidate_zero. Qed.

Lemma search_loop_best_year self (years : Z) (cands : list Z)
    (st st' : search (num:=num)) :
  search_loop self years cands st = Ok st' →
  best_year st' = best_year st ∨ best_year st' ∈ cands.
Proof.
  revert st. induction cands as [|c cands IH]; intros st.
  - intros [= <-]. by left.
  - cbn [search_loop]. rewrite try_candidate_final_worth.
    intros ([st1 w1] & (w & Hw & [= <- <-])%bind_Ok & Hrest)%bind_Ok.
    assert (best_year (compare_candidate st c w) = best_year st ∨
            best_year (compare_candidate st c w) = c) as Hcmp.
    { unfold compare_candidate. destruct (num_abs w <? best_diff st); eauto. }
    destruct (w <? num_zero).
    + injection Hrest as <-. destruct Hcmp as [->| ->]; [by left|].
      right. by left.
    + destruct (IH _ Hrest) as [->|?]; [|right; by right].
      destruct Hcmp as [->| ->]; [by left|]. right. by left.
Qed.

Lemma summary_search_not_year_1 self (years : Z) (st : search (num:=num)) :
  (∀ x : num, (x <? x) = false) →
  summary_search self years = Ok st →
  best_year st ≠ 1.
Proof.
  intros Hirrefl. rewrite summary_search_baseline.
  intros (w0 & Hw0 & Hloop)%bind_Ok.
  destruct (decide (years ≤ 0)%Z) as [Hyears|Hyears].
  - rewrite seqZ_nil in Hloop by done. by injection Hloop as <-.
  - rewrite seqZ_cons in Hloop by lia. cbn [search_loop] in Hloop.
    rewrite try_candidate_final_worth, candidate_one_is_candidate_zero, Hw0
      in Hloop.
    cbn [mbind result_bind] in Hloop. unfold compare_candidate in Hloop.
    cbn [best_diff best_year evaluated] in Hloop.
    rewrite Hirrefl in Hloop.
    destruct (w0 <? num_zero).
    + by injection Hloop as <-.
    + apply search_loop_best_year in Hloop as [->|Hin]; [done|].
      apply elem_of_seqZ in Hin. lia.
Qed.

(** X12.  The retirement search never answers year 1: candidate 1 ends at
    the final net worth of the baseline, and only a candidate strictly
    closer to zero replaces the best year.  The answer is year 0 or one of
    the years from 2 on. *)
Theorem search_never_returns_year_1 self (years : Z)
    (st : search (num:=num)) :
  (∀ x : num, (x <? x) = false) →
  summary_search self years = Ok st →
  best_year st = 0 ∨ (2 ≤ best_year st ≤ years)%Z.
Proof.
  intros Hirrefl Hst.
  pose proof (summary_search_not_year_1 self years st Hirrefl Hst) as Hne.
  rewrite summary_search_baseline in Hst.
  apply bind_Ok in Hst as (w0 & _ & Hloop).
  apply search_loop_best_year in Hloop as [?|Hin]; [by left|].
  apply elem_of_seqZ in Hin. right. lia.
Qed.
End IncomeOfYearZero.

(** On binary64 no number is below itself, NaN included. *)
Lemma float_ltb_irrefl (x : float) : PrimFloat.ltb x x = false.
Proof.
  rewrite FloatAxioms.ltb_spec. unfold SpecFloat.SFltb.
  destruct (Prim2SF x) as [s|s| |s m e]; simpl.
  - done.
  - by destruct s.
  - done.
  - destruct s; rewrite Z.compare_refl.
    + by rewrite Pos.compare_cont_refl.
    + by rewrite Pos.compare_cont_refl.
Qed.

Lemma search_never_returns_year_1_witness :
  ∃ st,
    summary_search overtaxed_planner 4 = Ok st ∧
    best_year st = 2 ∧
    (best_year st = 0 ∨ 2 ≤ best_year st ≤ 4).
Proof.
  eexists. split; [vm_compute; reflexivity|]. split; [reflexivity|].
  refine (search_never_returns_year_1 overtaxed_planner 4 _ _ _).
  - exact float_ltb_irrefl.
  - vm_compute. reflexivity.
Defined.

(** ** The verdict of [summary] *)

Section Verdict.
Context {num : Type} `{PyNumLaws num} `{!PyNumOrder num}.
Local Open Scope num_scope.
Implicit Types (self : FinancialPlanner (num:=num)) (st : search (num:=num)).


End Verdict.


(** ** Milestones that are not reached stay listed *)

Section PendingMilestones.
Context {num : Type} `{PyNumLaws num}.
Local Open Scope num_scope.
Implicit Types (self : FinancialPlanner (num:=num)) (fr : frame (num:=num)).
Implicit Types (m : num) (tracker : list (num * option Z)) (ms : list num).

Lemma tracker_set_keys m (v : option Z) tracker (k : num) :
  k ∈ (dict_set num_keyb m v tracker).*1 → k ∈ tracker.*1 ∨ k = m.
Proof.
  induction tracker as [|[m0 v0] tracker IH]; simpl.
  - intros ->%list_elem_of_singleton. by right.
  - destruct (num_keyb m0 m); simpl.
    + by left.
    + intros [->|Hk]%elem_of_cons; [left; by left|].
      destruct (IH Hk) as [?|?]; [left; by right|by right].
Qed.

Lemma tracker_get_set_other ms m m' (v : option Z) tracker :
  (∀ a b, a ∈ ms → b ∈ ms → num_keyb a b = true → a = b) →
  (∀ k, k ∈ tracker.*1 → k ∈ ms) →
  m ∈ ms → m' ∈ ms → m ≠ m' →
  dict_get num_keyb m (dict_set num_keyb m' v tracker)
  = dict_get num_keyb m tracker.
Proof.
  intros Hkey Hkeys Hm Hm' Hne.
  induction tracker as [|[m0 v0] tracker IH]; simpl.
  - destruct (num_keyb m' m) eqn:Hk; [|done].
    apply Hkey in Hk; [congruence|done..].
  - assert (m0 ∈ ms) as Hm0 by (apply Hkeys; by left).
    destruct (num_keyb m0 m') eqn:Hk'; simpl.
    + apply Hkey in Hk'; [|done..]. subst m0.
      destruct (num_keyb m' m) eqn:Hk; [|done].
      apply Hkey in Hk; [congruence|done..].
    + destruct (num_keyb m0 m); [done|].
      apply IH. intros k Hk. apply Hkeys. by right.
Qed.

(** The milestones of a fresh tracker are all open. *)
Lemma initial_milestones_reached_open self m :
  m ∈ milestones self →
  dict_get num_keyb m (initial_milestones_reached self) = Some None.
Proof.
  intros Hm.
  destruct (initial_milestones_reached_is_Some self m Hm) as [v Hv].
  rewrite Hv. f_equal.
  assert (∀ tracker, dict_get num_keyb m tracker = Some v →
                     v ∈ tracker.*2) as Hin.
  { induction tracker as [|[m0 v0] tracker IH]; simpl; [done|].
    destruct (num_keyb m0 m).
    - intros [= ->]. by left.
    - intros ?. right. by apply IH. }
  apply Hin in Hv. revert Hv. unfold initial_milestones_reached.
  assert (∀ ms tracker,
            (∀ x, x ∈ tracker.*2 → x = None) →
            ∀ x, x ∈ (foldl (λ d (k : num), dict_set num_keyb k None d) tracker ms).*2 →
                 x = None) as Hall.
  { induction ms as [|m1 ms IH]; intros tracker Hnone; simpl; [done|].
    apply IH. clear IH.
    induction tracker as [|[m0 v0] tracker IH]; simpl.
    - by intros x ->%list_elem_of_singleton.
    - destruct (num_keyb m0 m1); simpl.
      + intros x [->|Hx]%elem_of_cons; [done|]. apply Hnone. by right.
      + intros x [->|Hx]%elem_of_cons; [apply Hnone; by left|].
        apply IH; [|done]. intros y Hy. apply Hnone. by right. }
  apply (Hall (milestones self) []). by intros x ?%elem_of_nil.
Qed.

Lemma initial_milestones_reached_keys self (k : num) :
  k ∈ (initial_milestones_reached self).*1 → k ∈ milestones self.
Proof.
  unfold initial_milestones_reached.
  assert (∀ ms tracker,
            k ∈ (foldl (λ d (k : num), dict_set num_keyb k None d) tracker ms).*1 →
            k ∈ tracker.*1 ∨ k ∈ ms) as Hgen.
  { induction ms as [|m1 ms IH]; intros tracker; simpl; [by left|].
    intros [[?| ->]%tracker_set_keys|?]%IH.
    - by left.
    - right. by left.
    - right. by right. }
  intros [?%elem_of_nil|?]%Hgen; done.
Qed.

Lemma check_milestone_pending ms (w : num) (year : Z) tracker tracker' m m' :
  (∀ a b, a ∈ ms → b ∈ ms → num_keyb a b = true → a = b) →
  (∀ k, k ∈ tracker.*1 → k ∈ ms) →
  m ∈ ms → m' ∈ ms →
  check_milestone w year tracker m' = Ok tracker' →
  (∀ k, k ∈ tracker'.*1 → k ∈ ms) ∧
  ((m <=? w) = false →
   dict_get num_keyb m tracker = Some None →
   dict_get num_keyb m tracker' = Some None).
Proof.
  intros Hkey Hkeys Hm Hm'. unfold check_milestone.
  intros (r & _ & [= <-])%bind_Ok.
  destruct r as [y|]; [done|].
  destruct (m' <=? w) eqn:Hle; [|done]. split.
  - intros k [?| ->]%tracker_set_keys; [by apply Hkeys|done].
  - intros Hlt Hopen. rewrite (tracker_get_set_other ms); [done..|].
    intros ->. congruence.
Qed.

Lemma check_milestones_pending ms ms' (w : num) (year : Z) tracker tracker' m :
  (∀ a b, a ∈ ms → b ∈ ms → num_keyb a b = true → a = b) →
  (∀ k, k ∈ tracker.*1 → k ∈ ms) →
  m ∈ ms → (∀ m', m' ∈ ms' → m' ∈ ms) →
  for_each ms' (check_milestone w year) tracker = Ok tracker' →
  (∀ k, k ∈ tracker'.*1 → k ∈ ms) ∧
  ((m <=? w) = false →
   dict_get num_keyb m tracker = Some None →
   dict_get num_keyb m tracker' = Some None).
Proof.
  intros Hkey Hkeys Hm. revert tracker Hkeys.
  induction ms' as [|m0 ms' IH]; intros tracker Hkeys Hsub; simpl.
  - by intros [= <-].
  - intros (tracker0 & Hm0 & Hrest)%bind_Ok.
    destruct (check_milestone_pending ms w year tracker tracker0 m m0)
      as [Hkeys0 Hopen0]; [done..|apply Hsub; by left|done|].
    destruct (IH tracker0 Hkeys0) as [Hkeys' Hopen']; [|done|].
    { intros m' ?. apply Hsub. by right. }
    split; [done|]. intros Hlt Hopen. by apply Hopen', Hopen0.
Qed.

(** An open milestone is listed as unreached. *)
Lemma unrealized_lists_open ms tracker (l : list num) m :
  unrealized ms tracker = Ok l →
  m ∈ ms →
  dict_get num_keyb m tracker = Some None →
  m ∈ l.
Proof.
  revert l. induction ms as [|m0 ms IH]; intros l; simpl.
  - by intros _ ?%elem_of_nil.
  - intros (r & Hr & (rest & Hrest & [= <-])%bind_Ok)%bind_Ok Hin Hopen.
    apply elem_of_cons in Hin as [<-|Hin].
    + unfold getitem in Hr. rewrite Hopen in Hr. injection Hr as <-. by left.
    + specialize (IH rest Hrest Hin Hopen). destruct r; [done|by right].
Qed.

Lemma pending_invariant_initial self :
  pending_invariant self (initial_frame self).
Proof.
  split; [done|]. split; [apply initial_milestones_reached_keys|]. split.
  - intros m Hm _. by apply initial_milestones_reached_open.
  - intros j rj m Hj. done.
Qed.

Lemma pending_invariant_step self (years : Z) (verbose : bool)
    (income_override : option (gmap Z num)) fr (year : Z) fr' :
  (∀ a b, a ∈ milestones self → b ∈ milestones self →
          num_keyb a b = true → a = b) →
  pending_invariant self fr →
  year_body years verbose income_override fr year = Ok fr' →
  pending_invariant self fr'.
Proof.
  intros Hkey (Hself & Hkeys & Hopen & Hrows) Hbody.
  apply year_body_inv in Hbody
    as (Hself' & Htracker & yd & Hres & Hnw & Hun).
  rewrite Hself in *.
  assert (∀ m,
            m ∈ milestones self →
            (∀ (r : row) (w : num),
               r ∈ results fr' →
               dict_get String.eqb "Total Net Worth" r = Some (CNum w) →
               (m <=? w) = false) →
            dict_get num_keyb m (milestones_reached fr') = Some None)
    as Hopen'.
  { intros m Hm Hnone.
    destruct (check_milestones_pending (milestones self) (milestones self)
                (py_sum (assets fr).*2) year (milestones_reached fr)
                (milestones_reached fr') m Hkey Hkeys Hm)
      as [_ Hkeep]; [done|done|].
    apply Hkeep.
    - apply (Hnone yd); [|done]. rewrite Hres. apply elem_of_app. right.
      by left.
    - apply Hopen; [done|]. intros r w Hr. apply Hnone. rewrite Hres.
      apply elem_of_app. by left. }
  split; [done|]. split; [|split; [done|]].
  - destruct (milestones self) as [|m0 ms] eqn:Hms.
    + injection Htracker as <-. done.
    + rewrite <- Hms in *.
      eapply (check_milestones_pending (milestones self) (milestones self)
                _ _ _ _ m0); [done|done| |done|done].
      rewrite Hms. by left.
  - intros j rj m Hj Hm Hnone. rewrite Hres in Hj.
    apply lookup_snoc_Some in Hj as [[Hjlt Hj]|[Hjeq ->]].
    + apply (Hrows j rj m Hj Hm). intros i ri w Hij Hi.
      apply (Hnone i ri w Hij). rewrite Hres. by rewrite lookup_app_l by lia.
    + destruct Hun as (u & Hu & Hcell).
      { intros Hnil. rewrite Hnil in Hm. by apply elem_of_nil in Hm. }
      exists u. split; [done|].
      eapply unrealized_lists_open; [done|done|].
      apply Hopen'; [done|]. intros r w [i Hi]%list_elem_of_lookup_1.
      apply (Hnone i r w); [|done].
      apply lookup_lt_Some in Hi. rewrite Hres, length_app in Hi.
      simpl in Hi. lia.
Qed.

(** X14.  When no two milestones are equal as dictionary keys, the rows of
    a projection list a milestone as unreached for as long as no row has
    reached it: if the total net worth of every row up to row [j] is below
    the milestone, the milestone is in the "Unrealized Milestones" of row
    [j]. *)
Theorem milestone_listed_until_reached self (years : Z) (verbose : bool)
    (income_override : option (gmap Z num)) (rows : list row)
    (j : nat) (rj : row) (m : num) :
  (∀ a b, a ∈ milestones self → b ∈ milestones self →
          num_keyb a b = true → a = b) →
  _project_base self years verbose income_override = Ok rows →
  rows !! j = Some rj →
  m ∈ milestones self →
  (∀ (i : nat) (ri : row) (w : num),
     (i ≤ j)%nat →
     rows !! i = Some ri →
     dict_get String.eqb "Total Net Worth" ri = Some (CNum w) →
     (m <=? w) = false) →
  ∃ unreached,
    dict_get String.eqb "Unrealized Milestones" rj
    = Some (CUnrealized unreached) ∧
    m ∈ unreached.
Proof.
  intros Hkey. unfold _project_base, _project_base_frame.
  intros (fr & Hfr & [= <-])%bind_Ok.
  apply (for_each_invariant (pending_invariant self) _ _ _ _
           (pending_invariant_initial self)) in Hfr as (_ & _ & _ & Hrows).
  - apply Hrows.
  - intros fr1 fr2 y _. by apply pending_invariant_step.
Qed.
End PendingMilestones.

Lemma milestone_listed_until_reached_witness :
  ∃ rows r2,
    _project_base milestone_planner 2 false None = Ok rows ∧
    rows !! 2%nat = Some r2 ∧
    ∃ unreached,
      dict_get String.eqb "Unrealized Milestones" r2
      = Some (CUnrealized unreached) ∧
      5000%float ∈ unreached.
Proof.
  eexists _, _. split; [vm_compute; reflexivity|]. split; [reflexivity|].
  refine (milestone_listed_until_reached milestone_planner 2 false None _
            2 _ 5000%float _ _ _ _ _).
  - intros a b Ha Hb Hab.
    apply elem_of_cons in Ha as [->|Ha];
      [|apply list_elem_of_singleton in Ha as ->];
      (apply elem_of_cons in Hb as [->|Hb];
       [|apply list_elem_of_singleton in Hb as ->]);
      first [reflexivity | vm_compute in Hab; discriminate Hab].
  - vm_compute. reflexivity.
  - reflexivity.
  - right. by left.
  - intros i ri w Hi Hri Hw.
    assert (∀ c : cell,
              Some c = Some (CNum w) →
              match c with
              | CNum x => PrimFloat.leb 5000%float x = false
              | _ => True
              end →
              PrimFloat.leb 5000%float w = false) as Hcell.
    { intros c Hc. assert (c = CNum w) as -> by congruence. done. }
    destruct i as [|[|[|i]]]; [| | |lia];
      simpl in Hri; assert (Hri' := f_equal (default []) Hri);
      simpl in Hri'; subst ri;
      apply (Hcell _ Hw); reflexivity.
Defined.

(** ** A whole number as tax rate, and short horizons *)

Section EdgeCases.
Context {num : Type} `{PyNumLaws num}.
Local Open Scope num_scope.
Implicit Types (self : FinancialPlanner (num:=num)).

(** X15.  A tax rate given as a whole number, such as [0] or [1], is
    neither a float nor a mapping: the planner is constructed, and every
    projection over a horizon of zero or more raises [AttributeError] when it
    asks for the keys of the rate in year 0. *)
Theorem int_tax_rate_fails_at_projection (g e i r : num) (n : Z)
    (alloc : list (string * Asset)) (exps : option (gmap Z Expense))
    (ms : option (list num)) (years : Z) (verbose : bool)
    (income_override : option (gmap Z num)) :
  (0 ≤ years)%Z →
  ∃ p, __init__ g e i r (TaxInt n) alloc exps ms = Ok p ∧
       _project_base p years verbose income_override = Raise AttributeError.
Proof.
  intros Hy. eexists. split; [reflexivity|].
  unfold _project_base, _project_base_frame.
  rewrite year_range_cons by done. cbn [for_each].
  by rewrite (year_body_tax_raise _ _ _ _ _ AttributeError).
Qed.

End EdgeCases.

Lemma int_tax_rate_fails_at_projection_witness :
  ∃ p, __init__ 80000%float 40000%float 0%float 0%float (TaxInt 0)
         [("A", {| amount := 100000%float; rate := 0%float;
                   liquid := Some true |})] None None = Ok p ∧
       _project_base p 1 true None = Raise AttributeError.
Proof.
  refine (int_tax_rate_fails_at_projection _ _ _ _ 0 _ _ _ 1 true None _).
  lia.
Defined.


(** ** The net worth of year 1 *)

Section YearOne.
Context {num : Type} `{PyNumLaws num}.
Local Open Scope num_scope.
Implicit Types (self : FinancialPlanner (num:=num)) (fr : frame (num:=num)).

(** The portfolio that a year hands to the next one. *)
Lemma year_body_assets (years : Z) (verbose : bool)
    (income_override : option (gmap Z num)) fr (year : Z) fr' :
  year_body years verbose income_override fr year = Ok fr' →
  (year < years)%Z →
  ∃ (tax additional_expense : num) (d : string)
    (asset_gains asset_losses : list (string * num)),
    _get_tax_rate_for_year (f_self fr) year = Ok tax ∧
    _get_additional_expense_for_year (f_self fr) year
    = Ok (additional_expense, d) ∧
    transition (f_self fr)
      (if bool_decide (0 < year)%Z
       then match income_override with
            | Some override =>
                default (current_gross_income fr) (override !! year)
            | None => current_gross_income fr
            end * (num_one - tax)
            - (current_expenses fr + additional_expense)
       else num_zero)
      (assets fr)
    = Ok (assets fr', asset_gains, asset_losses).
Proof.
  unfold year_body. intros Hbody Hyear.
  apply bind_Ok in Hbody as (tax & Htax & Hbody).
  apply bind_Ok in Hbody as ([additional_expense d] & Hexp & Hbody).
  apply bind_Ok in Hbody as (tracker & _ & Hbody).
  apply bind_Ok in Hbody as (yd1 & _ & Hbody).
  apply bind_Ok in Hbody as (yd2 & _ & Hbody).
  rewrite (bool_decide_eq_true_2 (year < years)%Z) in Hbody by done.
  apply bind_Ok in Hbody as ([[assets' gains] losses] & Htr & Hbody).
  apply bind_Ok in Hbody as (rows & _ & [= <-]).
  by exists tax, additional_expense, d, gains, losses.
Qed.

Lemma initial_assets_get self (c : string) (data : Asset) :
  dict_get String.eqb c (asset_allocation self) = Some data →
  dict_get String.eqb c (initial_assets self) = Some (amount data).
Proof.
  unfold initial_assets.
  induction (asset_allocation self) as [|[c0 d0] alloc IH]; [done|].
  rewrite fmap_cons, !dict_get_cons. case_decide; [by intros [= ->]|done].
Qed.

Lemma after_no_savings self (assets : list (string * num)) (c : string)
    (v : num) :
  after_savings self num_zero assets c v = v.
Proof.
  unfold after_savings, allocates, liquidates. rewrite num_ltb_zero.
  cbn [negb andb]. by rewrite !andb_false_r.
Qed.

Lemma appreciated_values (alloc : list (string * Asset (num:=num)))
    (assets' : list (string * num)) :
  NoDup alloc.*1 →
  assets'.*1 = alloc.*1 →
  (∀ c data,
     dict_get String.eqb c alloc = Some data →
     dict_get String.eqb c assets'
     = Some (amount data * (num_one + rate data))) →
  assets'.*2 = (λ data, amount data * (num_one + rate data)) <$> alloc.*2.
Proof.
  revert assets'.
  induction alloc as [|[c d] alloc IH]; intros [|[c' v'] assets'] Hnd Hkeys Hget;
    try done.
  rewrite !fmap_cons in Hkeys. simpl in Hkeys. injection Hkeys as -> Hkeys.
  rewrite fmap_cons in Hnd. apply NoDup_cons in Hnd as [Hnotin Hnd].
  simpl in Hnotin. rewrite !fmap_cons. simpl. f_equal.
  - specialize (Hget c d). rewrite !dict_get_cons in Hget.
    rewrite !decide_True in Hget by done. by injection (Hget eq_refl).
  - apply IH; [done..|]. intros c0 data Hc0.
    assert (c ≠ c0) as Hne.
    { intros ->. apply Hnotin. apply dict_get_is_Some. by eexists. }
    specialize (Hget c0 data). rewrite !dict_get_cons in Hget.
    rewrite !decide_False in Hget by done. by apply Hget.
Qed.

(** X17.  The income and the expenses of year 0 never reach the portfolio:
    in every projection the total net worth of year 1 is the sum of the
    initial amounts, each raised by its own rate, whatever the income, the
    tax, the expenses and the liquidity of the categories. *)
Theorem year_1_net_worth self (years : Z) (verbose : bool)
    (income_override : option (gmap Z num)) (rows : list row) (r1 : row) :
  NoDup (asset_allocation self).*1 →
  _project_base self years verbose income_override = Ok rows →
  rows !! 1%nat = Some r1 →
  dict_get String.eqb "Total Net Worth" r1
  = Some (CNum (py_sum ((λ data, amount data * (num_one + rate data))
                          <$> (asset_allocation self).*2))).
Proof.
  intros Hnd Hrows Hr1.
  assert (1 ≤ years)%Z as Hyears.
  { apply project_base_length in Hrows. apply lookup_lt_Some in Hr1. lia. }
  unfold _project_base, _project_base_frame, year_range in Hrows.
  apply bind_Ok in Hrows as (fr & Hfr & [= <-]).
  rewrite seqZ_cons in Hfr by lia. rewrite seqZ_cons in Hfr by lia.
  cbn [for_each] in Hfr.
  apply bind_Ok in Hfr as (fr1 & Hbody0 & Hfr).
  apply bind_Ok in Hfr as (fr2 & Hbody1 & Hrest).
  pose proof (year_body_assets _ _ _ _ _ _ Hbody0 ltac:(lia))
    as (tax & a & d & gains & losses & _ & _ & Htr).
  rewrite bool_decide_eq_false_2 in Htr by lia.
  apply year_body_inv in Hbody0 as (_ & _ & yd0 & Hres0 & _).
  apply year_body_inv in Hbody1 as (_ & _ & yd1 & Hres1 & Hnw1 & _).
  apply for_each_year_body_results in Hrest as (more & Hres & _); [|done].
  rewrite Hres, Hres1, Hres0 in Hr1. simpl in Hr1. injection Hr1 as <-.
  rewrite Hnw1. do 3 f_equal.
  cbn [initial_frame f_self assets] in Htr.
  assert ((initial_assets self).*1 = (asset_allocation self).*1) as Hkeys.
  { unfold initial_assets. rewrite <- list_fmap_compose.
    apply list_fmap_ext. by intros i [cat data]. }
  destruct (transition_closed self num_zero (initial_assets self))
    as (assets' & gains' & losses' & Htr' & Hka & _ & _ & Hvals);
    [by rewrite Hkeys|done|].
  rewrite Htr in Htr'. injection Htr' as -> _ _.
  apply appreciated_values; [done|by rewrite Hka|].
  intros c data Hdata.
  destruct (Hvals c (amount data) data) as (Hget & _); [|done|].
  { by apply initial_assets_get. }
  by rewrite after_no_savings in Hget.
Qed.
End YearOne.

Lemma year_1_net_worth_witness :
  ∃ rows r1,
    _project_base shortfall_planner 1 true None = Ok rows ∧
    rows !! 1%nat = Some r1 ∧
    dict_get String.eqb "Total Net Worth" r1
    = Some (CNum (py_sum
                    [PrimFloat.mul 100%float (PrimFloat.add 1%float 0%float);
                     PrimFloat.mul 0%float (PrimFloat.add 1%float 0%float);
                     PrimFloat.mul 1000%float
                       (PrimFloat.add 1%float 0%float)])).
Proof.
  eexists _, _. split; [vm_compute; reflexivity|]. split; [reflexivity|].
  refine (year_1_net_worth shortfall_planner 1 true None _ _ _ _ _).
  - by apply (bool_decide_unpack _).
  - vm_compute. reflexivity.
  - reflexivity.
Defined.

(** ** The shape of a projection, at work *)


Lemma first_row_is_initial_net_worth_witness :
  ∃ p rows r0,
    end_to_end_planner = Ok p ∧
    _project_base p 1 true None = Ok rows ∧
    rows !! 0%nat = Some r0 ∧
    dict_get String.eqb "Total Net Worth" r0
    = Some (CNum (initial_net_worth p)).
Proof.
  eexists _, _, _. split; [reflexivity|].
  split; [vm_compute; reflexivity|]. split; [reflexivity|].
  refine (first_row_is_initial_net_worth
            80000%float 40000%float 0%float 0%float (TaxFloat 0%float)
            [("A", {| amount := 100000%float; rate := 0%float;
                      liquid := Some true |})]
            None None _ 1 true None _ _ _ _ _).
  - reflexivity.
  - vm_compute. reflexivity.
  - reflexivity.
Defined.


(** ** The plain columns of a row *)

Lemma plain_columns_not_derived (k : string) :
  k ∈ plain_columns →
  k ≠ "Total Net Worth" ∧ k ≠ "Unrealized Milestones" ∧
  (∀ c, (c ++ " Gain")%string ≠ k) ∧
  (∀ c, (c ++ " Loss")%string ≠ k) ∧
  (∀ c, (c ++ " Net Change")%string ≠ k).
Proof.
  unfold plain_columns. intros Hk.
  repeat (apply elem_of_cons in Hk as [->|Hk]);
    [..|by apply elem_of_nil in Hk];
    (split; [done|]); (split; [done|]);
    (split; [suffix_neq|]); (split; suffix_neq).
Qed.

Section PlainColumns.
Context {num : Type} `{PyNumLaws num}.
Local Open Scope num_scope.
Implicit Types (self : FinancialPlanner (num:=num)) (fr : frame (num:=num)).
Implicit Types (year_data : row (num:=num)).

Lemma asset_columns_keep (assets : list (string * num)) (ks : list string)
    year_data year_data' (k : string) :
  k ∉ ks →
  for_each ks
    (λ year_data category,
       a ← getitem String.eqb category assets;
       Ok (dict_set String.eqb category (CNum a) year_data))
    year_data
  = Ok year_data' →
  dict_get String.eqb k year_data' = dict_get String.eqb k year_data.
Proof.
  intros Hk Hloop.
  apply (for_each_invariant
           (λ yd, dict_get String.eqb k yd = dict_get String.eqb k year_data))
    in Hloop; [done|done|].
  intros yd1 yd2 c Hc Hyd1 Hstep.
  apply bind_Ok in Hstep as (a & _ & [= <-]).
  rewrite dict_get_set, decide_False; [done|]. by intros ->.
Qed.

Lemma zero_columns_keep (ks : list string) year_data (k : string) :
  (∀ c, (c ++ " Gain")%string ≠ k) →
  (∀ c, (c ++ " Loss")%string ≠ k) →
  (∀ c, (c ++ " Net Change")%string ≠ k) →
  dict_get String.eqb k
    (foldl
       (λ year_data category,
          dict_set String.eqb (category ++ " Net Change")%string
            (CNum (num_zero (num:=num)))
            (dict_set String.eqb (category ++ " Loss")%string (CNum num_zero)
               (dict_set String.eqb (category ++ " Gain")%string
                  (CNum num_zero) year_data)))
       year_data ks)
  = dict_get String.eqb k year_data.
Proof.
  intros Hg Hl Hn. revert year_data.
  induction ks as [|c ks IH]; intros yd; simpl; [done|].
  rewrite IH. by rewrite !dict_get_set, !decide_False.
Qed.

(** What one iteration of the year loop leaves in the plain columns of its
    row, and the expenses and the income it hands to the next year. *)
Lemma year_body_row (years : Z) (verbose : bool)
    (income_override : option (gmap Z num)) fr (year : Z) fr' :
  year_body years verbose income_override fr year = Ok fr' →
  ∃ (tax additional_expense : num) (d : string) year_data,
    _get_tax_rate_for_year (f_self fr) year = Ok tax ∧
    _get_additional_expense_for_year (f_self fr) year
    = Ok (additional_expense, d) ∧
    results fr' = (results fr ++ [year_data])%list ∧
    current_expenses fr'
    = (if bool_decide (year < years)%Z
       then current_expenses fr * (num_one + inflation_rate (f_self fr))
       else current_expenses fr) ∧
    (income_override = None →
     current_gross_income fr'
     = if bool_decide (year < years)%Z
       then current_gross_income fr * (num_one + income_growth_rate (f_self fr))
       else current_gross_income fr) ∧
    ∀ k : string,
      k ∈ plain_columns →
      k ∉ (assets fr).*1 →
      dict_get String.eqb k year_data
      = dict_get String.eqb k
          (plain_row year
             match income_override with
             | Some override =>
                 default (current_gross_income fr) (override !! year)
             | None => current_gross_income fr
             end
             tax (current_expenses fr) additional_expense
             (if bool_decide (0 < year)%Z
              then match income_override with
                   | Some override =>
                       default (current_gross_income fr) (override !! year)
                   | None => current_gross_income fr
                   end * (num_one - tax)
                   - (current_expenses fr + additional_expense)
              else num_zero)).
Proof.
  unfold year_body. intros Hbody.
  apply bind_Ok in Hbody as (tax & Htax & Hbody).
  apply bind_Ok in Hbody as ([additional_expense d] & Hexp & Hbody).
  apply bind_Ok in Hbody as (tracker & _ & Hbody).
  apply bind_Ok in Hbody as (yd1 & Hyd1 & Hbody).
  apply bind_Ok in Hbody as (yd2 & Hyd2 & Hbody).
  exists tax, additional_expense, d.
  assert (∀ k : string,
            k ∈ plain_columns →
            k ∉ (assets fr).*1 →
            dict_get String.eqb k yd2
            = dict_get String.eqb k
                (plain_row year
                   match income_override with
                   | Some override =>
                       default (current_gross_income fr) (override !! year)
                   | None => current_gross_income fr
                   end
                   tax (current_expenses fr) additional_expense
                   (if bool_decide (0 < year)%Z
                    then match income_override with
                         | Some override =>
                             default (current_gross_income fr)
                               (override !! year)
                         | None => current_gross_income fr
                         end * (num_one - tax)
                         - (current_expenses fr + additional_expense)
                    else num_zero))) as Hplain.
  { intros k Hk Hcat.
    destruct (plain_columns_not_derived k Hk) as (Hnw & Hum & Hg & Hl & Hn).
    transitivity (dict_get String.eqb k yd1);
      [|exact (asset_columns_keep _ _ _ _ k Hcat Hyd1)].
    assert (dict_get String.eqb k
              (if verbose && bool_decide (0 < year)%Z
               then foldl
                      (λ year_data category,
                         dict_set String.eqb (category ++ " Net Change")%string
                           (CNum (num_zero (num:=num)))
                           (dict_set String.eqb (category ++ " Loss")%string
                              (CNum num_zero)
                              (dict_set String.eqb
                                 (category ++ " Gain")%string
                                 (CNum num_zero) year_data)))
                      yd1 (assets fr).*1
               else yd1)
            = dict_get String.eqb k yd1) as Hzero.
    { destruct (verbose && bool_decide (0 < year)%Z); [|done].
      by apply zero_columns_keep. }
    destruct (milestones (f_self fr)) as [|m ms].
    - injection Hyd2 as <-. rewrite dict_get_set, decide_False by done.
      apply Hzero.
    - apply bind_Ok in Hyd2 as (unreached & _ & [= <-]).
      rewrite !dict_get_set, !decide_False by done. apply Hzero. }
  destruct (bool_decide (year < years)%Z) eqn:Hyear.
  - apply bind_Ok in Hbody as ([[assets' gains] losses] & _ & Hbody).
    apply bind_Ok in Hbody as (rows & Hrows & [= <-]).
    cbn [results current_expenses current_gross_income].
    destruct verbose.
    + rewrite update_last_snoc in Hrows.
      apply bind_Ok in Hrows as (yd3 & Hyd3 & [= <-]).
      exists yd3. do 3 (split; [done|]). split; [done|]. split.
      { by intros ->. }
      intros k Hk Hcat.
      destruct (plain_columns_not_derived k Hk) as (_ & _ & Hg & Hl & Hn).
      etrans; [|exact (Hplain k Hk Hcat)]. by eapply backfill_keeps.
    + injection Hrows as <-. exists yd2.
      do 3 (split; [done|]). split; [done|]. split; [|exact Hplain].
      by intros ->.
  - injection Hbody as <-.
    cbn [results current_expenses current_gross_income]. exists yd2.
    do 3 (split; [done|]). split; [done|]. split; [|exact Hplain].
    by intros ->.
Qed.

Lemma run_plain_columns self (years : Z) (verbose : bool)
    (income_override : option (gmap Z num)) (n : nat) :
  well_formed self →
  (Z.of_nat n ≤ years + 1)%Z →
  ∃ fr,
    for_each (seqZ 0 (Z.of_nat n)) (year_body years verbose income_override)
      (initial_frame self)
    = Ok fr ∧
    frame_ok self fr ∧
    length (results fr) = n ∧
    current_expenses fr
    = inflated_expenses self (Z.to_nat (Z.min (Z.of_nat n) years)) ∧
    (income_override = None →
     current_gross_income fr
     = grown_income self (Z.to_nat (Z.min (Z.of_nat n) years))) ∧
    ∀ (i : nat) (ri : row),
      results fr !! i = Some ri →
      ("Year" ∉ (asset_allocation self).*1 →
       dict_get String.eqb "Year" ri = Some (CInt (Z.of_nat i))) ∧
      ("Base Expenses" ∉ (asset_allocation self).*1 →
       dict_get String.eqb "Base Expenses" ri
       = Some (CNum (inflated_expenses self i))) ∧
      (income_override = None →
       "Gross Income" ∉ (asset_allocation self).*1 →
       dict_get String.eqb "Gross Income" ri
       = Some (CNum (grown_income self i))) ∧
      (i = 0%nat →
       "Annual Savings" ∉ (asset_allocation self).*1 →
       dict_get String.eqb "Annual Savings" ri = Some (CNum num_zero)) ∧
      (∀ (override : gmap Z num) (x : num),
         income_override = Some override →
         override !! Z.of_nat i = Some x →
         "Gross Income" ∉ (asset_allocation self).*1 →
         dict_get String.eqb "Gross Income" ri = Some (CNum x)).
Proof.
  intros Hwf. induction n as [|n IH]; intros Hn.
  - exists (initial_frame self). split; [done|].
    split; [apply initial_frame_ok|]. split; [done|].
    split; [by replace (Z.to_nat _) with 0%nat by lia|].
    split; [intros _; by replace (Z.to_nat _) with 0%nat by lia|].
    by intros i ri ?.
  - destruct IH as (fr & Hfr & Hok & Hlen & Hexp & Hinc & Hrows); [lia|].
    destruct (year_body_Ok self years verbose income_override fr
                (Z.of_nat n) Hwf Hok) as (fr' & Hbody & Hok').
    exists fr'. rewrite seqZ_0_snoc, for_each_app, Hfr.
    cbn [mbind result_bind for_each]. rewrite Hbody.
    split; [done|]. split; [done|].
    destruct Hok as (Hself & Hcats & _).
    apply year_body_row in Hbody
      as (tax & ae & d & yd & _ & _ & Hres & Hexp' & Hinc' & Hplain).
    rewrite Hself, Hcats in *.
    replace (Z.to_nat (Z.min (Z.of_nat n) years)) with n in * by lia.
    split; [rewrite Hres, length_app; simpl; lia|].
    split; [|split].
    + rewrite Hexp', Hexp.
      destruct (bool_decide (Z.of_nat n < years)%Z) eqn:Hlt.
      * apply bool_decide_eq_true_1 in Hlt.
        by replace (Z.to_nat _) with (S n) by lia.
      * apply bool_decide_eq_false_1 in Hlt.
        by replace (Z.to_nat _) with n by lia.
    + intros Hnone. rewrite (Hinc' Hnone), (Hinc Hnone).
      destruct (bool_decide (Z.of_nat n < years)%Z) eqn:Hlt.
      * apply bool_decide_eq_true_1 in Hlt.
        by replace (Z.to_nat _) with (S n) by lia.
      * apply bool_decide_eq_false_1 in Hlt.
        by replace (Z.to_nat _) with n by lia.
    + intros i ri Hi. rewrite Hres in Hi.
      apply lookup_snoc_Some in Hi as [[_ Hi]|[Hi ->]]; [by apply Hrows|].
      rewrite Hlen in Hi. subst i.
      split; [|split; [|split; [|split]]].
      * intros Hcat. rewrite (Hplain "Year"); [done| |done].
        unfold plain_columns. repeat constructor.
      * intros Hcat. rewrite (Hplain "Base Expenses"); [|  |done].
        -- simpl. by rewrite Hexp.
        -- unfold plain_columns. repeat constructor.
      * intros Hnone Hcat. rewrite (Hplain "Gross Income"); [| |done].
        -- rewrite Hnone. simpl. by rewrite (Hinc Hnone).
        -- unfold plain_columns. repeat constructor.
      * intros -> Hcat. rewrite (Hplain "Annual Savings"); [done| |done].
        unfold plain_columns. repeat constructor.
      * intros override x -> Hx Hcat.
        rewrite (Hplain "Gross Income"); [| |done].
        -- simpl. by rewrite Hx.
        -- unfold plain_columns. repeat constructor.
Qed.

Lemma project_base_plain_columns self (years : Z) (verbose : bool)
    (income_override : option (gmap Z num)) :
  well_formed self →
  ∃ rows,
    _project_base self years verbose income_override = Ok rows ∧
    ∀ (i : nat) (ri : row),
      rows !! i = Some ri →
      ("Year" ∉ (asset_allocation self).*1 →
       dict_get String.eqb "Year" ri = Some (CInt (Z.of_nat i))) ∧
      ("Base Expenses" ∉ (asset_allocation self).*1 →
       dict_get String.eqb "Base Expenses" ri
       = Some (CNum (inflated_expenses self i))) ∧
      (income_override = None →
       "Gross Income" ∉ (asset_allocation self).*1 →
       dict_get String.eqb "Gross Income" ri
       = Some (CNum (grown_income self i))) ∧
      (i = 0%nat →
       "Annual Savings" ∉ (asset_allocation self).*1 →
       dict_get String.eqb "Annual Savings" ri = Some (CNum num_zero)) ∧
      (∀ (override : gmap Z num) (x : num),
         income_override = Some override →
         override !! Z.of_nat i = Some x →
         "Gross Income" ∉ (asset_allocation self).*1 →
         dict_get String.eqb "Gross Income" ri = Some (CNum x)).
Proof.
  intros Hwf.
  destruct (decide (0 ≤ years + 1)%Z) as [Hpos|Hneg].
  - destruct (run_plain_columns self years verbose income_override
                (Z.to_nat (years + 1)) Hwf)
      as (fr & Hfr & _ & _ & _ & _ & Hrows); [lia|].
    exists (results fr). split; [|done].
    unfold _project_base, _project_base_frame, year_range.
    rewrite Z2Nat.id in Hfr by done. by rewrite Hfr.
  - exists []. split; [|done].
    unfold _project_base, _project_base_frame, year_range.
    by rewrite seqZ_nil by lia.
Qed.

(** X18.  The plain columns of a projection of a well-formed planner,
    whatever the income override.  The projection returns, and in its row
    [i], unless an asset category has taken the name of the column: "Year"
    is [i]; "Base Expenses" is the initial expenses after [i] years of
    inflation; and in row 0 "Annual Savings" is zero. *)
Theorem projection_plain_columns self (years : Z) (verbose : bool)
    (income_override : option (gmap Z num)) :
  well_formed self →
  ∃ rows,
    _project_base self years verbose income_override = Ok rows ∧
    ∀ (i : nat) (ri : row),
      rows !! i = Some ri →
      ("Year" ∉ (asset_allocation self).*1 →
       dict_get String.eqb "Year" ri = Some (CInt (Z.of_nat i))) ∧
      ("Base Expenses" ∉ (asset_allocation self).*1 →
       dict_get String.eqb "Base Expenses" ri
       = Some (CNum (inflated_expenses self i))) ∧
      (i = 0%nat →
       "Annual Savings" ∉ (asset_allocation self).*1 →
       dict_get String.eqb "Annual Savings" ri = Some (CNum num_zero)).
Proof.
  intros Hwf.
  destruct (project_base_plain_columns self years verbose income_override Hwf)
    as (rows & Hrows & Hcols).
  exists rows. split; [done|]. intros i ri Hi.
  destruct (Hcols i ri Hi) as (Hyear & Hexp & _ & Hsav & _). done.
Qed.

(** X19.  In the rows that [project] returns for a well-formed planner, the
    "Gross Income" of row [i] is the initial gross income after [i] raises
    by the growth rate, unless an asset category is called "Gross Income". *)
Theorem project_gross_income self (years : Z) (verbose : bool) :
  well_formed self →
  "Gross Income" ∉ (asset_allocation self).*1 →
  ∃ rows,
    project self years verbose = Ok rows ∧
    ∀ (i : nat) (ri : row),
      rows !! i = Some ri →
      dict_get String.eqb "Gross Income" ri
      = Some (CNum (grown_income self i)).
Proof.
  intros Hwf Hcat.
  destruct (project_base_plain_columns self years verbose None Hwf)
    as (rows & Hrows & Hcols).
  exists rows. split; [done|]. intros i ri Hi.
  destruct (Hcols i ri Hi) as (_ & _ & Hinc & _ & _). by apply Hinc.
Qed.

(** X20.  In a run without income from [start_year] on, the "Gross Income"
    of row [i] is the initial gross income after [i] raises while [i] is
    before [start_year], and zero from [start_year] on, unless an asset
    category is called "Gross Income". *)
Theorem zero_income_run_gross_income self (years start_year : Z) :
  well_formed self →
  "Gross Income" ∉ (asset_allocation self).*1 →
  ∃ rows,
    _project_with_zero_income self years start_year = Ok rows ∧
    ∀ (i : nat) (ri : row),
      rows !! i = Some ri →
      dict_get String.eqb "Gross Income" ri
      = Some (CNum (if bool_decide (Z.of_nat i < start_year)%Z
                    then grown_income self i
                    else num_zero)).
Proof.
  intros Hwf Hcat. unfold _project_with_zero_income.
  destruct (project_base_plain_columns self years false
              (Some (zero_income_override self years start_year)) Hwf)
    as (rows & Hrows & Hcols).
  exists rows. split; [done|]. intros i ri Hi.
  destruct (Hcols i ri Hi) as (_ & _ & _ & _ & Hinc).
  apply (Hinc _ _ eq_refl); [|done].
  rewrite zero_income_override_get.
  apply project_base_length in Hrows. apply lookup_lt_Some in Hi.
  rewrite bool_decide_eq_true_2 by lia. by rewrite Nat2Z.id.
Qed.
End PlainColumns.

Lemma projection_plain_columns_witness :
  ∃ rows,
    _project_base planner_with_kid_expenses 3 true None = Ok rows ∧
    ∀ (i : nat) (ri : row),
      rows !! i = Some ri →
      ("Year" ∉ (asset_allocation planner_with_kid_expenses).*1 →
       dict_get String.eqb "Year" ri = Some (CInt (Z.of_nat i))) ∧
      ("Base Expenses" ∉ (asset_allocation planner_with_kid_expenses).*1 →
       dict_get String.eqb "Base Expenses" ri
       = Some (CNum (inflated_expenses planner_with_kid_expenses i))) ∧
      (i = 0%nat →
       "Annual Savings" ∉ (asset_allocation planner_with_kid_expenses).*1 →
       dict_get String.eqb "Annual Savings" ri = Some (CNum 0%float)).
Proof.
  refine (projection_plain_columns planner_with_kid_expenses 3 true None _).
  split; [by apply (bool_decide_unpack _)|exact I].
Defined.

Lemma project_gross_income_witness :
  ∃ rows,
    project planner_with_kid_expenses 3 true = Ok rows ∧
    ∀ (i : nat) (ri : row),
      rows !! i = Some ri →
      dict_get String.eqb "Gross Income" ri
      = Some (CNum (grown_income planner_with_kid_expenses i)).
Proof.
  refine (project_gross_income planner_with_kid_expenses 3 true _ _).
  - split; [by apply (bool_decide_unpack _)|exact I].
  - by apply (bool_decide_unpack _).
Defined.

Lemma zero_income_run_gross_income_witness :
  ∃ rows,
    _project_with_zero_income planner_with_kid_expenses 3 2 = Ok rows ∧
    ∀ (i : nat) (ri : row),
      rows !! i = Some ri →
      dict_get String.eqb "Gross Income" ri
      = Some (CNum (if bool_decide (Z.of_nat i < 2)
                    then grown_income planner_with_kid_expenses i
                    else 0%float)).
Proof.
  refine (zero_income_run_gross_income planner_with_kid_expenses 3 2 _ _).
  - split; [by apply (bool_decide_unpack _)|exact I].
  - by apply (bool_decide_unpack _).
Defined.
